(** * Resource classification and scoring engine of the AWS resource monitor

    A shallow embedding of [src/Resource-Finder/main.py] (class
    [AWSResourceMonitor]): the usage evaluators, the cost estimators, the
    compliance and risk scorer, the optimisation advisors, the per-family
    scan loops and the cost aggregation of the reports.

    Modelling decisions, used throughout:
    - Python [str] is [string] (a sequence of one-byte characters);
    - Python [int] is [Z].  The floats that the cost estimators compute
      and print are IEEE doubles ([Double], below), so the printed digits
      are the program's.  The measurements that the collaborators answer
      with (CPU percentages, byte and request sums) and the amounts read
      back from cost strings are exact rationals [Q]: their thresholds,
      comparisons and sums are the ones of the source, without the binary
      rounding of a sum of doubles;
    - instants ([datetime]) are [Z], microseconds since the epoch;
    - a [dict] is an association list in insertion order with unique keys;
    - a call to a collaborator (CloudWatch, EC2, Backup, ...) is data: the
      answer the collaborator gave, [Ok a], or [Failed] where it raised;
    - a method whose body can raise returns [option]: [None] is the raise. *)

From Stdlib Require Import String Ascii List ZArith QArith Qabs Bool Lia DecimalString.
From Stdlib Require SpecFloat.
Import ListNotations.

(** ** Python built-ins on strings, dictionaries and numbers *)

Module Py.

Local Open Scope list_scope.
Local Open Scope string_scope.

(** The answer of a collaborator call. *)
Inductive response (A : Type) : Type :=
| Ok (a : A)
| Failed.
Arguments Ok {A} a.
Arguments Failed {A}.

(** [sub in s] on strings. *)
Fixpoint contains (sub s : string) : bool :=
  prefix sub s ||
  match s with
  | EmptyString => false
  | String _ s' => contains sub s'
  end.

(** [s.startswith(p)]; [startswith_any] is the tuple form. *)
Definition startswith (p s : string) : bool := prefix p s.

Definition startswith_any (ps : list string) (s : string) : bool :=
  existsb (fun p => startswith p s) ps.

(** [s[n:]] *)
Fixpoint drop (n : nat) (s : string) : string :=
  match n, s with
  | O, _ => s
  | S _, EmptyString => EmptyString
  | S k, String _ s' => drop k s'
  end.

Fixpoint rev_string_onto (acc s : string) : string :=
  match s with
  | EmptyString => acc
  | String c s' => rev_string_onto (String c acc) s'
  end.

Definition rev_string (s : string) : string := rev_string_onto EmptyString s.

(** [s.split(sep)] for a non-empty [sep]: [cur] is the current piece,
    reversed, and [skip] counts the characters of a separator just matched
    that are still to be passed over. *)
Fixpoint split_from (sep : string) (skip : nat) (cur s : string) : list string :=
  match s with
  | EmptyString => [rev_string cur]
  | String c s' =>
      match skip with
      | S k => split_from sep k cur s'
      | O =>
          if prefix sep s
          then rev_string cur :: split_from sep (String.length sep - 1) EmptyString s'
          else split_from sep 0 (String c cur) s'
      end
  end.

Definition split (sep s : string) : list string := split_from sep 0 EmptyString s.

(** [sep.join(l)] *)
Definition join (sep : string) (l : list string) : string := String.concat sep l.

(** [s.replace(old, new)] for a non-empty [old]. *)
Definition replace (old new s : string) : string := join new (split old s).

(** [l.append(x)] *)
Definition append {A : Type} (l : list A) (x : A) : list A := (l ++ [x])%list.

(** [l[i]] for [0 <= i], [None] where Python raises [IndexError]. *)
Definition index {A : Type} (l : list A) (i : nat) : option A := nth_error l i.

(** [l[-1]] of a non-empty list; [split] never returns the empty list. *)
Definition last_piece (l : list string) : string := List.last l EmptyString.

Definition is_upper (c : ascii) : bool :=
  let n := nat_of_ascii c in (65 <=? n)%nat && (n <=? 90)%nat.

Definition is_lower (c : ascii) : bool :=
  let n := nat_of_ascii c in (97 <=? n)%nat && (n <=? 122)%nat.

Definition lower_char (c : ascii) : ascii :=
  if is_upper c then ascii_of_nat (nat_of_ascii c + 32) else c.

Definition upper_char (c : ascii) : ascii :=
  if is_lower c then ascii_of_nat (nat_of_ascii c - 32) else c.

(** [s.lower()], [s.upper()] and [s.capitalize()], on the letters of ASCII. *)
Fixpoint lower (s : string) : string :=
  match s with
  | EmptyString => EmptyString
  | String c s' => String (lower_char c) (lower s')
  end.

Fixpoint upper (s : string) : string :=
  match s with
  | EmptyString => EmptyString
  | String c s' => String (upper_char c) (upper s')
  end.

Definition capitalize (s : string) : string :=
  match s with
  | EmptyString => EmptyString
  | String c s' => String (upper_char c) (lower s')
  end.

(** Truthiness of a string and of an optional value. *)
Definition nonempty (s : string) : bool := negb (String.eqb s EmptyString).

(** *** Dictionaries *)

Definition dict (V : Type) : Type := list (string * V).

Fixpoint dict_get_opt {V : Type} (d : dict V) (k : string) : option V :=
  match d with
  | [] => None
  | (k', v) :: d' => if String.eqb k k' then Some v else dict_get_opt d' k
  end.

(** [d.get(k, default)] *)
Definition dict_get {V : Type} (d : dict V) (k : string) (default : V) : V :=
  match dict_get_opt d k with
  | Some v => v
  | None => default
  end.

(** [d[k] = v]: an existing key keeps its place. *)
Fixpoint dict_set {V : Type} (d : dict V) (k : string) (v : V) : dict V :=
  match d with
  | [] => [(k, v)]
  | (k', v') :: d' =>
      if String.eqb k k' then (k, v) :: d' else (k', v') :: dict_set d' k v
  end.

(** [{key: value for (key, value) in pairs}] *)
Definition dict_of {V : Type} (pairs : list (string * V)) : dict V :=
  fold_left (fun d kv => dict_set d (fst kv) (snd kv)) pairs [].

Definition keys {V : Type} (d : dict V) : list string := map fst d.
Definition values {V : Type} (d : dict V) : list V := map snd d.

(** *** Numbers *)

Definition Qltb (x y : Q) : bool := negb (Qle_bool y x).

(** [int(x)] of a float: truncation towards zero. *)
Definition int_of (x : Q) : Z := Z.quot (Qnum x) (Zpos (Qden x)).

(** [str(n)] of an integer. *)
Definition str_of_Z (n : Z) : string := NilZero.string_of_int (Z.to_int n).

Fixpoint zeros (n : nat) : string :=
  match n with
  | O => EmptyString
  | S k => String "0" (zeros k)
  end.

Definition pad_zeros (width : nat) (s : string) : string :=
  zeros (width - String.length s) ++ s.

(** Rounding of a non-negative rational to the nearest integer, ties to
    even: the rounding of [format]. *)
Definition round_half_even (x : Q) : Z :=
  let n := Qnum x in
  let d := Zpos (Qden x) in
  let fl := (n / d)%Z in
  let r := (n mod d)%Z in
  if (2 * r <? d)%Z then fl
  else if (d <? 2 * r)%Z then (fl + 1)%Z
  else if Z.even fl then fl else (fl + 1)%Z.

(** [f"{x:.<digits>f}"] of the number [x]: the decimal text nearest to
    it, ties to even.  Python prints a float from the number the double
    stands for, so this is used on that number ([Double.format]) and on
    the measurements kept as rationals. *)
Definition format_fixed (digits : nat) (x : Q) : string :=
  let scale := (10 ^ Z.of_nat digits)%Z in
  let n := round_half_even (Qabs x * inject_Z scale) in
  let sign := if (Qnum x <? 0)%Z then "-" else "" in
  let whole := str_of_Z (n / scale) in
  match digits with
  | O => sign ++ whole
  | _ => sign ++ whole ++ "." ++ pad_zeros digits (str_of_Z (n mod scale))
  end.

(** Grouping of a digit string by thousands, from the right. *)
Fixpoint group_rev (count : nat) (s : string) : string :=
  match s with
  | EmptyString => EmptyString
  | String c s' =>
      match count, s' with
      | 2%nat, String _ _ => String c (String "," (group_rev 0 s'))
      | _, _ => String c (group_rev (S count) s')
      end
  end.

(** [f"{n:,}"] of an integer. *)
Definition format_commas (n : Z) : string :=
  let digits := str_of_Z (Z.abs n) in
  (if (n <? 0)%Z then "-" else "") ++ rev_string (group_rev 0 (rev_string digits)).

Definition is_digit (c : ascii) : bool :=
  let n := nat_of_ascii c in (48 <=? n)%nat && (n <=? 57)%nat.

Definition is_dot (c : ascii) : bool := Ascii.eqb c ".".

(** The class [[\d.]] of the source's regular expressions. *)
Definition is_digit_or_dot (c : ascii) : bool := is_digit c || is_dot c.

(** Longest prefix of [s] in the class, and what follows it. *)
Fixpoint span_digits_dots (s : string) : string * string :=
  match s with
  | EmptyString => (EmptyString, EmptyString)
  | String c s' =>
      if is_digit_or_dot c
      then let (g, rest) := span_digits_dots s' in (String c g, rest)
      else (EmptyString, s)
  end.

Definition digit_value (c : ascii) : Z := Z.of_nat (nat_of_ascii c - 48).

(** Value of a string of digits read in base ten, [None] if a character is
    not a digit. *)
Fixpoint digits_value (acc : Z) (s : string) : option Z :=
  match s with
  | EmptyString => Some acc
  | String c s' =>
      if is_digit c then digits_value (10 * acc + digit_value c)%Z s' else None
  end.

(** [float(s)] on plain decimal literals, digits with at most one point and
    at least one digit: [None] is [ValueError].  On a string matched by
    [[\d.]+] this is all of [float]. *)
Definition float_plain (s : string) : option Q :=
  match split "." s with
  | [whole] =>
      if nonempty whole
      then option_map inject_Z (digits_value 0 whole)
      else None
  | [whole; frac] =>
      if nonempty whole || nonempty frac
      then
        match digits_value 0 whole, digits_value 0 frac with
        | Some w, Some f =>
            Some (inject_Z w + Qmake f (Pos.of_nat (Nat.pow 10 (String.length frac))))
        | _, _ => None
        end
      else None
  | _ => None
  end.

End Py.

(** ** Python floats

    The amounts that the cost estimators compute and print are IEEE 754
    binary64 numbers, taken from the Standard Library's specification of
    them ([SpecFloat]): every operation rounds to the nearest double, ties
    to even, as Python's does. *)

Module Double.

Import Py.
Local Open Scope string_scope.

Definition double : Type := SpecFloat.spec_float.

Definition prec : Z := 53.
Definition emax : Z := 1024.

(** [float(n)] of an integer: the nearest double.  Beyond the range of
    doubles Python raises [OverflowError]; here the result is an
    infinity. *)
Definition of_Z (n : Z) : double := SpecFloat.binary_normalize prec emax n 0 false.

(** [x * y], [x / y] and [x + y] on floats. *)
Definition mul : double -> double -> double := SpecFloat.SFmul prec emax.
Definition div : double -> double -> double := SpecFloat.SFdiv prec emax.
Definition add : double -> double -> double := SpecFloat.SFadd prec emax.

(** [a / b] on integers, for a positive [b]: the double nearest to the
    quotient, and an infinity where Python raises [OverflowError]. *)
Definition quotient (a : Z) (b : positive) : double :=
  match a with
  | Z0 => SpecFloat.S754_zero false
  | Zpos n =>
      div (SpecFloat.S754_finite false n 0) (SpecFloat.S754_finite false b 0)
  | Zneg n =>
      div (SpecFloat.S754_finite true n 0) (SpecFloat.S754_finite false b 0)
  end.

(** A decimal literal of the source, and [float] of a decimal text: the
    double nearest to the rational. *)
Definition of_Q (q : Q) : double := quotient (Qnum q) (Qden q).

(** The number a finite double stands for. *)
Definition value (sign : bool) (m : positive) (e : Z) : Q :=
  let n := if sign then Zneg m else Zpos m in
  if (0 <=? e)%Z then inject_Z (n * 2 ^ e) else Qmake n (Z.to_pos (2 ^ (- e))).

Definition to_Q (x : double) : option Q :=
  match x with
  | SpecFloat.S754_zero _ => Some 0
  | SpecFloat.S754_finite sign m e => Some (value sign m e)
  | SpecFloat.S754_infinity _ | SpecFloat.S754_nan => None
  end.

(** A double that is a number, neither an infinity nor a NaN. *)
Definition finite (x : double) : bool :=
  match x with
  | SpecFloat.S754_zero _ | SpecFloat.S754_finite _ _ _ => true
  | _ => false
  end.

(** A finite double that is not negative: what prints as digits, a point
    and digits. *)
Definition plain (x : double) : bool :=
  match x with
  | SpecFloat.S754_zero false | SpecFloat.S754_finite false _ _ => true
  | _ => false
  end.

(** [f"{x:.<digits>f}"] of a float: the decimal text nearest to the
    number the double stands for, ties to even. *)
Definition format (digits : nat) (x : double) : string :=
  match x with
  | SpecFloat.S754_nan => "nan"
  | SpecFloat.S754_infinity sign => if sign then "-inf" else "inf"
  | SpecFloat.S754_zero sign => (if sign then "-" else "") ++ format_fixed digits 0
  | SpecFloat.S754_finite sign m e => format_fixed digits (value sign m e)
  end.

End Double.

(** ** The resource descriptor and the monitor *)

Module Model.

Import Py.
Local Open Scope list_scope.
Local Open Scope string_scope.

(** The values of [ResourceInfo.risk_level]. *)
Inductive risk_level : Type := Low | Medium | High.

Definition risk_level_name (l : risk_level) : string :=
  match l with
  | Low => "Low"
  | Medium => "Medium"
  | High => "High"
  end.

(** Dataclass [ResourceInfo].  The fields kept are the ones the engine
    reads or decides; the display-only fields ([created_time], [created_by],
    [region], [vpc_id], [subnet_id], [security_groups], [private_ip],
    ownership, monitoring and performance fields) are left out.  [is_new]
    is [None] where the source stores Python's [None] in it. *)
Record ResourceInfo : Type := mkResourceInfo {
  resource_type : string;
  resource_id : string;
  resource_name : string;
  state : string;
  tags : dict string;
  usage_info : string;
  estimated_cost : string;
  instance_type : string;
  is_unused : bool;
  is_new : option bool;
  additional_info : string;
  public_ip : string;
  compliance_status : dict bool;
  cost_optimization_suggestions : list string;
  risk : risk_level;
  environment : string;
  backup_status : string;
  encryption_status : string
}.

(** Truthiness of a flag that may hold [None]. *)
Definition truthy (flag : option bool) : bool :=
  match flag with
  | Some b => b
  | None => false
  end.

Definition set_suggestions (r : ResourceInfo) (l : list string) : ResourceInfo :=
  mkResourceInfo (resource_type r) (resource_id r) (resource_name r) (state r)
    (tags r) (usage_info r) (estimated_cost r) (instance_type r) (is_unused r)
    (is_new r) (additional_info r) (public_ip r) (compliance_status r) l
    (risk r) (environment r) (backup_status r) (encryption_status r).

Definition set_risk (r : ResourceInfo) (l : risk_level) : ResourceInfo :=
  mkResourceInfo (resource_type r) (resource_id r) (resource_name r) (state r)
    (tags r) (usage_info r) (estimated_cost r) (instance_type r) (is_unused r)
    (is_new r) (additional_info r) (public_ip r) (compliance_status r)
    (cost_optimization_suggestions r) l (environment r) (backup_status r)
    (encryption_status r).

(** One day and the lookback window ([timedelta(hours=24)]), in microseconds. *)
Definition day : Z := 86400 * 1000000.
Definition lookback : Z := 24 * 3600 * 1000000.

(** The state of [AWSResourceMonitor] the engine reads: [cutoff_time], and
    the reading of the clock ([datetime.now(timezone.utc)]), taken once per
    scan in this model. *)
Record monitor : Type := mkMonitor {
  cutoff_time : Z;
  now : Z
}.

(** [__init__]: the cutoff is 24 hours before the start. *)
Definition init (clock : Z) : monitor :=
  {| cutoff_time := clock - lookback; now := clock |}.

(** [timedelta.days] of [now - t]. *)
Definition days_since (self : monitor) (t : Z) : Z := (now self - t) / day.

(** Raw tag lists of the provider: [{'Key': k, 'Value': v}]. *)
Definition tag_list : Type := list (string * string).

Definition env_keywords : dict (list string) :=
  [ ("production", ["prod"; "production"; "prd"]);
    ("staging", ["staging"; "stage"; "stg"]);
    ("development", ["dev"; "development"; "develop"]);
    ("testing", ["test"; "testing"; "qa"]);
    ("demo", ["demo"; "poc"; "sandbox"]) ].

(** [detect_environment_from_tags] *)
Definition detect_environment_from_tags (tags : dict string) : string :=
  let tag_values := join " " (map lower (values tags)) in
  let tag_keys := join " " (map lower (keys tags)) in
  let combined := tag_values ++ " " ++ tag_keys in
  match
    find (fun entry => existsb (fun keyword => contains keyword combined) (snd entry))
      env_keywords
  with
  | Some (env, _) => capitalize env
  | None => "Unknown"
  end.

(** Rendering of optional values in f-strings: [None] prints as "None",
    booleans as "True" and "False". *)
Definition str_of_bool (b : bool) : string := if b then "True" else "False".

Definition str_of_opt (o : option string) : string :=
  match o with
  | Some s => s
  | None => "None"
  end.

Definition or_default {A : Type} (o : option A) (default : A) : A :=
  match o with
  | Some a => a
  | None => default
  end.

End Model.

(** ** Compliance and risk scorer *)

Module Risk.

Import Py Model.
Local Open Scope string_scope.
Local Open Scope Z_scope.

(** [sum(1 for v in resource.compliance_status.values() if not v)] *)
Definition failed_checks (compliance : dict bool) : Z :=
  fold_left (fun total v => if negb v then total + 1 else total) (values compliance) 0.

(** The accumulation of [risk_score] in [calculate_risk_level], statement
    by statement. *)
Definition risk_score (resource : ResourceInfo) : Z :=
  let risk_score := 0 in
  let risk_score :=
    if nonempty (public_ip resource) && negb (String.eqb (public_ip resource) "N/A")
    then risk_score + 3 else risk_score in
  let risk_score :=
    if contains "Encrypted: False" (additional_info resource)
    then risk_score + 2 else risk_score in
  let risk_score :=
    if is_unused resource then risk_score + 2 else risk_score in
  let risk_score :=
    if String.eqb (environment resource) "Production"
       && contains "No backup" (backup_status resource)
    then risk_score + 3 else risk_score in
  let risk_score :=
    match compliance_status resource with
    | [] => risk_score
    | _ :: _ => risk_score + failed_checks (compliance_status resource)
    end in
  risk_score.

(** The final [if]/[elif]/[else] of [calculate_risk_level]. *)
Definition risk_tier (risk_score : Z) : risk_level :=
  if 6 <=? risk_score then High
  else if 3 <=? risk_score then Medium
  else Low.

(** [calculate_risk_level] *)
Definition calculate_risk_level (resource : ResourceInfo) : risk_level :=
  risk_tier (risk_score resource).

(** Position of a tier in the order Low < Medium < High. *)
Definition tier_rank (l : risk_level) : Z :=
  match l with
  | Low => 0
  | Medium => 1
  | High => 2
  end.

(** The test of the backup signal, and a signal with its weight. *)
Definition production_without_backup (resource : ResourceInfo) : bool :=
  String.eqb (environment resource) "Production"
  && contains "No backup" (backup_status resource).

Definition weight (w : Z) (signal : bool) : Z := if signal then w else 0.

End Risk.

(** ** The generic optimisation advisor *)

Module Advisor.

Import Py Model.
Local Open Scope list_scope.
Local Open Scope string_scope.

Definition newline : ascii := ascii_of_nat 10.

(** A match of [: ([\d.]+)%] at the head of [s]: the group. *)
Definition colon_number_percent (s : string) : option string :=
  if prefix ": " s
  then
    let (group, rest) := span_digits_dots (drop 2 s) in
    if nonempty group && prefix "%" rest then Some group else None
  else None.

(** A match of [.*?: ([\d.]+)%] at the head of [s]: the lazy [.*?] passes
    over as few characters as possible, none of them a newline. *)
Fixpoint lazy_then_number (s : string) : option string :=
  match colon_number_percent s with
  | Some group => Some group
  | None =>
      match s with
      | EmptyString => None
      | String c s' => if Ascii.eqb c newline then None else lazy_then_number s'
      end
  end.

(** [re.search(r'Avg CPU.*?: ([\d.]+)%', s)]: group 1 of the leftmost
    match, [None] if there is no match. *)
Fixpoint search_avg_cpu (s : string) : option string :=
  let later :=
    match s with
    | EmptyString => None
    | String _ s' => search_avg_cpu s'
    end in
  if prefix "Avg CPU" s
  then
    match lazy_then_number (drop 7 s) with
    | Some group => Some group
    | None => later
    end
  else later.

Definition downsize : string :=
  "Consider downsizing instance or using Spot/Savings Plans".
Definition review_sizing : string :=
  "Instance appears underutilized - review sizing".
Definition newer_generation : string :=
  "Migrate to newer generation instances for better price/performance".
Definition reserved_instances : string :=
  "Consider Reserved Instances or Savings Plans for production workloads".
Definition convert_gp2 : string :=
  "Convert gp2 volumes to gp3 for 20% cost savings".
Definition snapshot_unused : string :=
  "Create snapshot and delete unused volume".
Definition delete_unused_lb : string :=
  "Delete unused load balancer to save $16-20/month".
Definition add_tagging : string :=
  "Add comprehensive tagging for better cost allocation".

(** The savings reminder, [f"Resource unused - potential savings: {cost}"]. *)
Definition savings_reminder (cost : string) : string :=
  "Resource unused - potential savings: " ++ cost.

(** The branch of [get_cost_optimization_suggestions] for
    ['EC2 Instance'].  [re.search(...).group(1)] raises where nothing
    matches and [float] raises on a group that is no number. *)
Definition ec2_instance_suggestions (resource : ResourceInfo) : option (list string) :=
  let suggestions := [] in
  let after_cpu :=
    if contains "Avg CPU" (usage_info resource)
    then
      match search_avg_cpu (usage_info resource) with
      | None => None
      | Some group =>
          match float_plain group with
          | None => None
          | Some avg_cpu =>
              if Qltb avg_cpu 5 then Some (append suggestions downsize)
              else if Qltb avg_cpu 20 then Some (append suggestions review_sizing)
              else Some suggestions
          end
      end
    else Some suggestions in
  match after_cpu with
  | None => None
  | Some suggestions =>
      let suggestions :=
        if startswith_any ["t2"; "m3"; "m4"; "c3"; "c4"] (instance_type resource)
        then append suggestions newer_generation else suggestions in
      let suggestions :=
        if String.eqb (environment resource) "Production"
           && String.eqb (state resource) "running"
        then append suggestions reserved_instances else suggestions in
      Some suggestions
  end.

(** The branch for ['EBS Volume']. *)
Definition ebs_volume_suggestions (resource : ResourceInfo) : list string :=
  let suggestions := [] in
  let suggestions :=
    if contains "gp2" (usage_info resource)
    then append suggestions convert_gp2 else suggestions in
  let suggestions :=
    if is_unused resource
    then append suggestions snapshot_unused else suggestions in
  suggestions.

(** The branch for a type that contains ['Load Balancer']. *)
Definition load_balancer_suggestions (resource : ResourceInfo) : list string :=
  if is_unused resource then [delete_unused_lb] else [].

(** The general suggestions that close [get_cost_optimization_suggestions]. *)
Definition general_suggestions (resource : ResourceInfo) (suggestions : list string)
  : list string :=
  let suggestions :=
    if is_unused resource
    then append suggestions (savings_reminder (estimated_cost resource))
    else suggestions in
  let suggestions :=
    match tags resource with
    | [] => append suggestions add_tagging
    | _ :: _ =>
        if (Z.of_nat (List.length (tags resource)) <? 3)%Z
        then append suggestions add_tagging else suggestions
    end in
  suggestions.

(** [get_cost_optimization_suggestions]; [None] where it raises. *)
Definition get_cost_optimization_suggestions (resource : ResourceInfo)
  : option (list string) :=
  let by_type :=
    if String.eqb (resource_type resource) "EC2 Instance"
    then ec2_instance_suggestions resource
    else if String.eqb (resource_type resource) "EBS Volume"
    then Some (ebs_volume_suggestions resource)
    else if contains "Load Balancer" (resource_type resource)
    then Some (load_balancer_suggestions resource)
    else Some [] in
  option_map (general_suggestions resource) by_type.

End Advisor.

(** ** The scan loops *)

Module Scan.

Import Py Model.
Local Open Scope list_scope.

(** What the body of a family's loop does with one item: pass over it
    ([continue]), leave the loop by an exception that the family's
    [try]/[except] catches, or reach the two closing [if]s with the local
    flags [is_new] and [is_unused] and the finished descriptor. *)
Inductive step : Type :=
| Continue
| Raise
| Reach (is_new : option bool) (is_unused : bool) (resource : ResourceInfo).

Definition collections : Type := (list ResourceInfo * list ResourceInfo)%type.

(** The closing statements of every loop body:
    [if is_new: new_resources.append(resource)] and
    [if is_unused and not is_new: unused_resources.append(resource)]. *)
Definition place (is_new : option bool) (is_unused : bool) (resource : ResourceInfo)
    (acc : collections) : collections :=
  let (new_resources, unused_resources) := acc in
  let new_resources :=
    if truthy is_new then append new_resources resource else new_resources in
  let unused_resources :=
    if is_unused && negb (truthy is_new)
    then append unused_resources resource else unused_resources in
  (new_resources, unused_resources).

(** A [for] loop inside a [try]: an exception keeps what was appended. *)
Fixpoint for_each {I : Type} (body : I -> step) (items : list I) (acc : collections)
  : collections :=
  match items with
  | [] => acc
  | item :: rest =>
      match body item with
      | Continue => for_each body rest acc
      | Raise => acc
      | Reach is_new is_unused resource =>
          for_each body rest (place is_new is_unused resource acc)
      end
  end.

(** The descriptors a loop finishes, in order. *)
Fixpoint produced {I : Type} (body : I -> step) (items : list I) : list ResourceInfo :=
  match items with
  | [] => []
  | item :: rest =>
      match body item with
      | Continue => produced body rest
      | Raise => []
      | Reach _ _ resource => resource :: produced body rest
      end
  end.

(** A family's [try]: the enumeration call, then the loop. *)
Definition fetch {I : Type} (body : I -> step) (listing : response (list I))
    (acc : collections) : collections :=
  match listing with
  | Failed => acc
  | Ok items => for_each body items acc
  end.

Definition fetched {I : Type} (body : I -> step) (listing : response (list I))
  : list ResourceInfo :=
  match listing with
  | Failed => []
  | Ok items => produced body items
  end.

(** The two conditions of the collections, read on a descriptor's own
    flags: "new", and "unused and not new". *)
Definition flagged_new (r : ResourceInfo) : bool := truthy (is_new r).

Definition flagged_unused_only (r : ResourceInfo) : bool :=
  is_unused r && negb (truthy (is_new r)).

End Scan.

(** ** Compute instances *)

Module EC2.

Import Py Model.
Local Open Scope list_scope.
Local Open Scope string_scope.

(** A CloudWatch datapoint of [CPUUtilization] with the two statistics
    the evaluator asks for. *)
Record datapoint : Type := mkDatapoint {
  Average : Q;
  Maximum : Q
}.

(** [bdm['Ebs']] of a block device mapping. *)
Record ebs_device : Type := mkEbsDevice {
  Ebs_VolumeId : string;
  Ebs_Encrypted : option bool
}.

(** An instance of [describe_instances], with the answers the
    collaborators give for it during the scan: the CPU statistics and the
    [Sum] datapoints of [NetworkIn] and [NetworkOut] (CloudWatch), the
    [disableApiTermination] attribute (EC2) and the creation dates of its
    recovery points (Backup). *)
Record instance : Type := mkInstance {
  InstanceId : string;
  State_Name : string;
  LaunchTime : Z;
  Tags : tag_list;
  InstanceType : string;
  PublicIpAddress : option string;
  BlockDeviceMappings : list (option ebs_device);
  HttpTokens : option string;
  Monitoring_State : option string;
  SecurityGroups : list string;
  IamInstanceProfile_Arn : option string;
  cpu_statistics : response (list datapoint);
  network_in : response (list Q);
  network_out : response (list Q);
  disable_api_termination : response (option bool);
  recovery_points : response (list Z)
}.

(** [bool(instance.get('PublicIpAddress'))] *)
Definition has_public_address (i : instance) : bool :=
  match PublicIpAddress i with
  | Some a => nonempty a
  | None => false
  end.

Definition unencrypted_device (bdm : option ebs_device) : bool :=
  match bdm with
  | Some ebs => negb (or_default (Ebs_Encrypted ebs) false)
  | None => false
  end.

(** [analyze_security_compliance] *)
Definition analyze_security_compliance (i : instance) : dict bool :=
  let compliance :=
    [ ("public_ip_restricted", negb (has_public_address i));
      ("encrypted_volumes", true);
      ("imdsv2_enforced", false);
      ("monitoring_enabled",
        match Monitoring_State i with
        | Some s => String.eqb s "enabled"
        | None => false
        end);
      ("termination_protection", false);
      ("security_groups_reviewed", true) ] in
  let compliance :=
    if existsb unencrypted_device (BlockDeviceMappings i)
    then dict_set compliance "encrypted_volumes" false else compliance in
  let compliance :=
    match HttpTokens i with
    | Some t =>
        if String.eqb t "required"
        then dict_set compliance "imdsv2_enforced" true else compliance
    | None => compliance
    end in
  let compliance :=
    match disable_api_termination i with
    | Ok value => dict_set compliance "termination_protection" (or_default value false)
    | Failed => compliance
    end in
  compliance.

(** [get_metric_sum]: megabytes over the last 7 days, [0.0] without
    datapoints or on an error. *)
Definition get_metric_sum (answer : response (list Q)) : Q :=
  match answer with
  | Ok (sum :: _) => sum / inject_Z (1024 * 1024)
  | Ok [] => 0
  | Failed => 0
  end.

(** [sum(...)], [sum(...) / len(...)] and [max(...)] over datapoints. *)
Definition total (l : list Q) : Q := fold_left Qplus l 0.

Definition average (l : list Q) : Q := total l / inject_Z (Z.of_nat (List.length l)).

Definition maximum (first : Q) (others : list Q) : Q :=
  fold_left (fun m x => if Qltb m x then x else m) others first.

(** [check_ec2_usage] *)
Definition check_ec2_usage (i : instance) : string * bool :=
  match cpu_statistics i with
  | Failed => ("Metrics unavailable", false)
  | Ok [] => ("No metrics available", true)
  | Ok (d :: ds) =>
      let avg_cpu := average (map Average (d :: ds)) in
      let max_cpu := maximum (Maximum d) (map Maximum ds) in
      let net_in := get_metric_sum (network_in i) in
      let net_out := get_metric_sum (network_out i) in
      let usage_info :=
        "Avg CPU (7d): " ++ format_fixed 2 avg_cpu
        ++ "%, Max CPU: " ++ format_fixed 2 max_cpu
        ++ "%, Network In: " ++ format_fixed 2 net_in
        ++ " MB, Network Out: " ++ format_fixed 2 net_out ++ " MB" in
      let is_unused :=
        Qltb avg_cpu 2 && Qltb max_cpu 10 && Qltb net_in 100 && Qltb net_out 100 in
      (usage_info, is_unused)
  end.

Definition cost_map : dict Q :=
  [ ("t2.micro", 8.5); ("t2.small", 17); ("t2.medium", 34); ("t2.large", 68);
    ("t2.xlarge", 136);
    ("t3.micro", 7.6); ("t3.small", 15.2); ("t3.medium", 30.4); ("t3.large", 60.8);
    ("t3.xlarge", 121.6); ("t3.2xlarge", 243.2);
    ("t3a.micro", 6.8); ("t3a.small", 13.6); ("t3a.medium", 27.2); ("t3a.large", 54.4);
    ("m5.large", 88); ("m5.xlarge", 176); ("m5.2xlarge", 352); ("m5.4xlarge", 704);
    ("m5a.large", 79); ("m5a.xlarge", 158); ("m5a.2xlarge", 316);
    ("m6i.large", 88); ("m6i.xlarge", 176); ("m6i.2xlarge", 352);
    ("c5.large", 78); ("c5.xlarge", 156); ("c5.2xlarge", 312); ("c5.4xlarge", 624);
    ("c5a.large", 70); ("c5a.xlarge", 140); ("c5a.2xlarge", 280);
    ("r5.large", 116); ("r5.xlarge", 232); ("r5.2xlarge", 464);
    ("r6i.large", 117); ("r6i.xlarge", 234); ("r6i.2xlarge", 468) ]%Q.

(** The monthly amount of [estimate_ec2_cost]: [cost_map.get(instance_type, 100)]. *)
Definition monthly_cost (instance_type : string) : Q :=
  dict_get cost_map instance_type 100.

(** [monthly_cost / 30] and [monthly_cost / 720], on the float of the
    table's amount. *)
Definition daily_cost (monthly_cost : Q) : Double.double :=
  Double.div (Double.of_Q monthly_cost) (Double.of_Z 30).

Definition hourly_cost (monthly_cost : Q) : Double.double :=
  Double.div (Double.of_Q monthly_cost) (Double.of_Z 720).

(** The rendering of the hourly, daily and monthly amounts. *)
Definition render_cost (monthly_cost : Q) : string :=
  let daily_cost := daily_cost monthly_cost in
  let hourly_cost := hourly_cost monthly_cost in
  "$" ++ Double.format 3 hourly_cost ++ "/hr, $" ++ Double.format 2 daily_cost
  ++ "/day, $" ++ Double.format 2 (Double.of_Q monthly_cost) ++ "/month".

(** [estimate_ec2_cost]: on a string nothing in the [try] raises, so the
    ["Cost estimation unavailable"] of the [except] is never returned. *)
Definition estimate_ec2_cost (instance_type : string) : string :=
  render_cost (monthly_cost instance_type).

(** [check_backup_status] *)
Definition check_backup_status (self : monitor) (answer : response (list Z)) : string :=
  match answer with
  | Failed => "Backup status unknown"
  | Ok [] => "No backup configured"
  | Ok (p :: ps) =>
      let latest_backup := fold_left Z.max ps p in
      let days_since_backup := days_since self latest_backup in
      if (days_since_backup =? 0)%Z then "Backed up today"
      else if (days_since_backup <=? 7)%Z
      then "Last backup: " ++ str_of_Z days_since_backup ++ " days ago"
      else "Outdated backup: " ++ str_of_Z days_since_backup ++ " days old"
  end.

Definition device_volume (bdm : option ebs_device) : list string :=
  match bdm with
  | Some ebs => [Ebs_VolumeId ebs]
  | None => []
  end.

(** [get_ec2_associations] *)
Definition get_ec2_associations (i : instance) : string :=
  let associations := [] in
  let sg_names := SecurityGroups i in
  let associations :=
    match sg_names with
    | [] => associations
    | _ :: _ => append associations ("SGs: " ++ join ", " (firstn 3 sg_names))
    end in
  let volumes := flat_map device_volume (BlockDeviceMappings i) in
  let associations :=
    match volumes with
    | [] => associations
    | _ :: _ =>
        append associations
          ("Volumes: " ++ str_of_Z (Z.of_nat (List.length volumes)))
    end in
  let associations :=
    if has_public_address i
    then append associations ("Public IP: " ++ or_default (PublicIpAddress i) "")
    else associations in
  let associations :=
    match IamInstanceProfile_Arn i with
    | Some arn => append associations ("IAM Role: " ++ last_piece (split "/" arn))
    | None => associations
    end in
  match associations with
  | [] => "No associations"
  | _ :: _ => join ", " associations
  end.

(** The body of the loop of [get_all_ec2_instances]. *)
Definition instance_step (self : monitor) (i : instance) : Scan.step :=
  if String.eqb (State_Name i) "terminated" then Scan.Continue
  else
    let launch_time := LaunchTime i in
    let is_new := (cutoff_time self <=? launch_time)%Z in
    let tags := dict_of (Tags i) in
    let (usage_info, is_unused) := check_ec2_usage i in
    let cost := estimate_ec2_cost (InstanceType i) in
    let associations := get_ec2_associations i in
    let compliance := analyze_security_compliance i in
    let environment := detect_environment_from_tags tags in
    let backup_status := check_backup_status self (recovery_points i) in
    let resource :=
      {| resource_type := "EC2 Instance";
         resource_id := InstanceId i;
         resource_name := dict_get tags "Name" "N/A";
         state := State_Name i;
         tags := tags;
         usage_info := usage_info;
         estimated_cost := cost;
         instance_type := InstanceType i;
         is_unused := is_unused;
         is_new := Some is_new;
         additional_info := associations;
         public_ip := or_default (PublicIpAddress i) "N/A";
         compliance_status := compliance;
         cost_optimization_suggestions := [];
         risk := Low;
         environment := environment;
         backup_status := backup_status;
         encryption_status :=
           if dict_get compliance "encrypted_volumes" false
           then "Encrypted" else "Not Encrypted" |} in
    match Advisor.get_cost_optimization_suggestions resource with
    | None => Scan.Raise
    | Some suggestions =>
        let resource := set_suggestions resource suggestions in
        let resource := set_risk resource (Risk.calculate_risk_level resource) in
        Scan.Reach (Some is_new) is_unused resource
    end.

(** [get_all_ec2_instances], from the flattened reservations of
    [describe_instances]. *)
Definition get_all_ec2_instances (self : monitor) (listing : response (list instance))
  : Scan.collections :=
  Scan.fetch (instance_step self) listing ([], []).

End EC2.

(** ** Relational databases *)

Module RDS.

Import Py Model.
Local Open Scope list_scope.
Local Open Scope string_scope.

(** A datapoint of [DatabaseConnections]. *)
Record datapoint : Type := mkDatapoint {
  Average : Q;
  Maximum : Q
}.

(** A database of [describe_db_instances], with the answers of
    [list_tags_for_resource] and of CloudWatch for it. *)
Record db_instance : Type := mkDbInstance {
  DBInstanceIdentifier : string;
  DBInstanceClass : string;
  DBInstanceStatus : string;
  InstanceCreateTime : Z;
  BackupRetentionPeriod : option Z;
  Engine : option string;
  EngineVersion : option string;
  MultiAZ : option bool;
  StorageEncrypted : option bool;
  tag_answer : response tag_list;
  connections : response (list datapoint)
}.

(** [check_rds_usage] *)
Definition check_rds_usage (db : db_instance) : string * bool :=
  match connections db with
  | Failed => ("Metrics unavailable", false)
  | Ok [] => ("No connection metrics available", true)
  | Ok (d :: _) =>
      let avg_conn := Average d in
      let max_conn := Maximum d in
      let usage_info :=
        "Avg Connections (7d): " ++ format_fixed 0 avg_conn
        ++ ", Max: " ++ format_fixed 0 max_conn in
      let is_unused := Qltb avg_conn 1 && Qltb max_conn 5 in
      (usage_info, is_unused)
  end.

Definition base_costs : dict Z :=
  [ ("db.t3.micro", 15); ("db.t3.small", 30); ("db.t3.medium", 60);
    ("db.t3.large", 120); ("db.m5.large", 200); ("db.m5.xlarge", 400);
    ("db.r5.large", 250); ("db.r5.xlarge", 500) ]%Z.

(** The instance amount of [estimate_rds_cost]:
    [base_costs.get(instance_class, 150)]. *)
Definition monthly_cost (instance_class : string) : Z :=
  dict_get base_costs instance_class 150%Z.

Definition storage_cost : Z := 20.

(** The rendering of the total, the instance amount and the storage amount. *)
Definition render_cost (monthly_cost storage_cost : Z) : string :=
  let total_monthly := (monthly_cost + storage_cost)%Z in
  "$" ++ format_fixed 2 (inject_Z total_monthly) ++ "/month (instance: $"
  ++ str_of_Z monthly_cost ++ ", storage: ~$" ++ str_of_Z storage_cost ++ ")".

(** [estimate_rds_cost]; the engine is not read. *)
Definition estimate_rds_cost (instance_class engine : string) : string :=
  render_cost (monthly_cost instance_class) storage_cost.

Definition upgrade_generation : string :=
  "Upgrade to newer generation instance class for better performance/cost".
Definition disable_multi_az : string :=
  "Consider disabling Multi-AZ for non-production to save 50% cost".
Definition review_retention : string :=
  "Review backup retention period - consider using snapshots for long-term backup".

(** [get_rds_optimization_suggestions] *)
Definition get_rds_optimization_suggestions (db : db_instance) : list string :=
  let suggestions := [] in
  let suggestions :=
    if startswith_any ["db.t2"; "db.m3"; "db.m4"] (DBInstanceClass db)
    then append suggestions upgrade_generation else suggestions in
  let suggestions :=
    if or_default (MultiAZ db) false
       && negb (contains "prod" (lower (DBInstanceIdentifier db)))
    then append suggestions disable_multi_az else suggestions in
  let suggestions :=
    if (7 <? or_default (BackupRetentionPeriod db) 0)%Z
    then append suggestions review_retention else suggestions in
  suggestions.

(** The body of the loop of [get_all_rds_instances]. *)
Definition db_step (self : monitor) (db : db_instance) : Scan.step :=
  let create_time := InstanceCreateTime db in
  let is_new := (cutoff_time self <=? create_time)%Z in
  match tag_answer db with
  | Failed => Scan.Raise
  | Ok tag_list =>
      let tags := dict_of tag_list in
      let (usage_info, is_unused) := check_rds_usage db in
      let environment := detect_environment_from_tags tags in
      let backup_retention := or_default (BackupRetentionPeriod db) 0%Z in
      let backup_status :=
        if (0 <? backup_retention)%Z
        then "Retention: " ++ str_of_Z backup_retention ++ " days"
        else "No backup" in
      let cost := estimate_rds_cost (DBInstanceClass db) (or_default (Engine db) "") in
      let resource :=
        {| resource_type := "RDS Instance";
           resource_id := DBInstanceIdentifier db;
           resource_name := DBInstanceIdentifier db;
           state := DBInstanceStatus db;
           tags := tags;
           usage_info := usage_info;
           estimated_cost := cost;
           instance_type := "";
           is_unused := is_unused;
           is_new := Some is_new;
           additional_info :=
             "Engine: " ++ str_of_opt (Engine db)
             ++ ", Version: " ++ str_of_opt (EngineVersion db);
           public_ip := "";
           compliance_status := [];
           cost_optimization_suggestions := [];
           risk := Low;
           environment := environment;
           backup_status := backup_status;
           encryption_status :=
             if or_default (StorageEncrypted db) false
             then "Encrypted" else "Not Encrypted" |} in
      let resource := set_suggestions resource (get_rds_optimization_suggestions db) in
      let resource := set_risk resource (Risk.calculate_risk_level resource) in
      Scan.Reach (Some is_new) is_unused resource
  end.

(** [get_all_rds_instances] *)
Definition get_all_rds_instances (self : monitor) (listing : response (list db_instance))
  : Scan.collections :=
  Scan.fetch (db_step self) listing ([], []).

End RDS.

(** ** Object stores *)

Module S3.

Import Py Model.
Local Open Scope list_scope.
Local Open Scope string_scope.

(** A bucket of [list_buckets], with the answers for it: the tag set
    ([get_bucket_tagging]), the [Average] datapoints of [BucketSizeBytes]
    and of [NumberOfObjects] (CloudWatch), and the calls
    [get_bucket_encryption], [get_bucket_versioning] (its [Status]) and
    [get_bucket_lifecycle_configuration]. *)
Record bucket : Type := mkBucket {
  Name : string;
  CreationDate : Z;
  tagging : response tag_list;
  size_bytes_answer : response (list Q);
  object_count_answer : response (list Q);
  encryption_answer : response unit;
  versioning_answer : response (option string);
  lifecycle_answer : response unit
}.

(** [get_s3_bucket_metrics] *)
Definition get_s3_bucket_metrics (b : bucket) : string * bool :=
  match size_bytes_answer b with
  | Failed => ("Metrics unavailable", false)
  | Ok datapoints =>
      let size_bytes :=
        match datapoints with
        | average :: _ => average
        | [] => 0
        end in
      let object_count :=
        match object_count_answer b with
        | Ok (average :: _) => int_of average
        | Ok [] => 0%Z
        | Failed => 0%Z
        end in
      let size_gb := size_bytes / inject_Z (1024 ^ 3) in
      let size_info :=
        "Size: " ++ format_fixed 2 size_gb ++ " GB, Objects: "
        ++ format_commas object_count in
      let is_unused := Qltb size_gb 0.001 && (object_count <? 10)%Z in
      (size_info, is_unused)
  end.

(** A match of [Size: ([\d.]+) GB] at the head of [s]: the group. *)
Definition size_number_gb (s : string) : option string :=
  if prefix "Size: " s
  then
    let (group, rest) := span_digits_dots (drop 6 s) in
    if nonempty group && prefix " GB" rest then Some group else None
  else None.

(** [re.search(r'Size: ([\d.]+) GB', s)]: group 1 of the leftmost match. *)
Fixpoint search_size_gb (s : string) : option string :=
  match size_number_gb s with
  | Some group => Some group
  | None =>
      match s with
      | EmptyString => None
      | String _ s' => search_size_gb s'
      end
  end.

(** [size_gb * 0.023], [0.5] and their sum, on the float that [float]
    reads from the size text. *)
Definition storage_cost (size_gb : Q) : Double.double :=
  Double.mul (Double.of_Q size_gb) (Double.of_Q 0.023).

Definition request_cost : Double.double := Double.of_Q 0.5.

Definition total_monthly (size_gb : Q) : Double.double :=
  Double.add (storage_cost size_gb) request_cost.

(** The rendering at the end of [estimate_s3_cost]. *)
Definition render_cost (size_gb : Q) : string :=
  let storage_cost := storage_cost size_gb in
  let total_monthly := total_monthly size_gb in
  "$" ++ Double.format 2 total_monthly ++ "/month (storage: $"
  ++ Double.format 2 storage_cost ++ ", requests: ~$"
  ++ Double.format 2 request_cost ++ ")".

(** [estimate_s3_cost]: the metrics are fetched again, with the same
    answers, and the size is read back from the usage summary; what raises
    inside the [try] gives the marker of a failed estimation. *)
Definition estimate_s3_cost (b : bucket) : string :=
  let (size_info, _) := get_s3_bucket_metrics b in
  if contains "Size:" size_info
  then
    match search_size_gb size_info with
    | None => "Cost estimation unavailable"
    | Some group =>
        match float_plain group with
        | None => "Cost estimation unavailable"
        | Some size_gb => render_cost size_gb
        end
    end
  else render_cost 0.

Definition delete_or_archive : string :=
  "Delete empty bucket or archive old data to Glacier".
Definition lifecycle_old_versions : string :=
  "Configure lifecycle policies to delete old versions".
Definition enable_encryption : string :=
  "Enable default encryption for security compliance".
Definition add_lifecycle : string :=
  "Add lifecycle policies to move old data to cheaper storage classes".

(** [get_s3_optimization_suggestions] *)
Definition get_s3_optimization_suggestions (b : bucket) (versioning encryption : string)
    (is_unused : bool) : list string :=
  let suggestions := [] in
  let suggestions :=
    if is_unused then append suggestions delete_or_archive else suggestions in
  let suggestions :=
    if String.eqb versioning "Enabled"
    then append suggestions lifecycle_old_versions else suggestions in
  let suggestions :=
    if String.eqb encryption "Not Enabled"
    then append suggestions enable_encryption else suggestions in
  let suggestions :=
    match lifecycle_answer b with
    | Ok _ => suggestions
    | Failed => append suggestions add_lifecycle
    end in
  suggestions.

(** The body of the loop of [get_all_s3_buckets]; with the answers given
    as data nothing in the inner [try] raises. *)
Definition bucket_step (self : monitor) (b : bucket) : Scan.step :=
  let bucket_name := Name b in
  let creation_date := CreationDate b in
  let is_new := (cutoff_time self <=? creation_date)%Z in
  let tags :=
    match tagging b with
    | Ok tag_set => dict_of tag_set
    | Failed => []
    end in
  let (size_info, is_unused) := get_s3_bucket_metrics b in
  let encryption :=
    match encryption_answer b with
    | Ok _ => "Enabled"
    | Failed => "Not Enabled"
    end in
  let versioning :=
    match versioning_answer b with
    | Ok status => or_default status "Disabled"
    | Failed => "Disabled"
    end in
  let cost := estimate_s3_cost b in
  let resource :=
    {| resource_type := "S3 Bucket";
       resource_id := bucket_name;
       resource_name := bucket_name;
       state := "active";
       tags := tags;
       usage_info := size_info;
       estimated_cost := cost;
       instance_type := "";
       is_unused := is_unused;
       is_new := Some is_new;
       additional_info := "Versioning: " ++ versioning ++ ", Encryption: " ++ encryption;
       public_ip := "";
       compliance_status := [];
       cost_optimization_suggestions := [];
       risk := Low;
       environment := detect_environment_from_tags tags;
       backup_status := "";
       encryption_status := encryption |} in
  let resource :=
    set_suggestions resource
      (get_s3_optimization_suggestions b versioning encryption is_unused) in
  let resource := set_risk resource (Risk.calculate_risk_level resource) in
  Scan.Reach (Some is_new) is_unused resource.

(** [get_all_s3_buckets] *)
Definition get_all_s3_buckets (self : monitor) (listing : response (list bucket))
  : Scan.collections :=
  Scan.fetch (bucket_step self) listing ([], []).

End S3.

(** ** Functions *)

Module Lambda.

Import Py Model.
Local Open Scope list_scope.
Local Open Scope string_scope.

(** A function of [list_functions], with the answers of [list_tags] (its
    [Tags], if any) and of CloudWatch (the [Sum] datapoints of
    [Invocations]) for it.  [LastModified] is the instant that
    [datetime.fromisoformat] reads from the provider's text; the provider
    reports no creation time. *)
Record function : Type := mkFunction {
  FunctionName : string;
  LastModified : Z;
  MemorySize : option Z;
  Timeout : option Z;
  State : option string;
  Runtime : option string;
  tag_answer : response (option (dict string));
  invocation_sums : response (list Q)
}.

(** [check_lambda_usage] *)
Definition check_lambda_usage (f : function) : string * bool :=
  match invocation_sums f with
  | Failed => ("Metrics unavailable", false)
  | Ok datapoints =>
      let invocations :=
        match datapoints with
        | sum :: _ => int_of sum
        | [] => 0%Z
        end in
      let usage_info := "Invocations (30d): " ++ format_commas invocations in
      let is_unused := (invocations =? 0)%Z in
      (usage_info, is_unused)
  end.

(** [total] of [estimate_lambda_cost]: the integers are divided as
    Python divides integers, and the products and the sum are taken on
    floats, from the left. *)
Definition total (memory_mb timeout_seconds : Z) : Double.double :=
  let price_per_gb_second := Double.of_Q 0.0000166667 in
  let price_per_request := Double.of_Q 0.0000002 in
  let avg_execution_time := Double.quotient timeout_seconds 2 in
  let gb_seconds := Double.mul (Double.quotient memory_mb 1024) avg_execution_time in
  let monthly_invocations := Double.of_Z 1000 in
  let compute_cost :=
    Double.mul (Double.mul gb_seconds monthly_invocations) price_per_gb_second in
  let request_cost := Double.mul monthly_invocations price_per_request in
  Double.add compute_cost request_cost.

(** [estimate_lambda_cost] *)
Definition estimate_lambda_cost (memory_mb timeout_seconds : Z) : string :=
  "$" ++ Double.format 4 (total memory_mb timeout_seconds)
  ++ "/month (est. 1K invocations)".

Definition delete_unused_function : string := "Delete unused Lambda function".
Definition review_memory : string :=
  "Review memory allocation - may be over-provisioned".

(** The body of the loop of [get_all_lambda_functions]. *)
Definition function_step (self : monitor) (f : function) : Scan.step :=
  let func_name := FunctionName f in
  let last_modified := LastModified f in
  let is_new := (cutoff_time self <=? last_modified)%Z in
  match tag_answer f with
  | Failed => Scan.Raise
  | Ok tags_response =>
      let tags := or_default tags_response [] in
      let (usage_info, is_unused) := check_lambda_usage f in
      let environment := detect_environment_from_tags tags in
      let memory := or_default (MemorySize f) 128%Z in
      let timeout := or_default (Timeout f) 3%Z in
      let cost := estimate_lambda_cost memory timeout in
      let resource :=
        {| resource_type := "Lambda Function";
           resource_id := func_name;
           resource_name := func_name;
           state := or_default (State f) "Active";
           tags := tags;
           usage_info := usage_info;
           estimated_cost := cost;
           instance_type := "";
           is_unused := is_unused;
           is_new := Some is_new;
           additional_info :=
             "Runtime: " ++ or_default (Runtime f) "N/A" ++ ", Memory: "
             ++ str_of_Z memory ++ "MB, Timeout: " ++ str_of_Z timeout ++ "s";
           public_ip := "";
           compliance_status := [];
           cost_optimization_suggestions := [];
           risk := Low;
           environment := environment;
           backup_status := "";
           encryption_status := "" |} in
      let resource :=
        if is_unused
        then set_suggestions resource
               (append (cost_optimization_suggestions resource) delete_unused_function)
        else resource in
      let resource :=
        if (1024 <? memory)%Z
        then set_suggestions resource
               (append (cost_optimization_suggestions resource) review_memory)
        else resource in
      let resource := set_risk resource (Risk.calculate_risk_level resource) in
      Scan.Reach (Some is_new) is_unused resource
  end.

(** [get_all_lambda_functions] *)
Definition get_all_lambda_functions (self : monitor) (listing : response (list function))
  : Scan.collections :=
  Scan.fetch (function_step self) listing ([], []).

(** The life of a function at the provider, which the engine does not
    see: the instant of its creation and the instants of its later
    updates, oldest first.  The provider reports the latest change as
    [LastModified]; for a function never updated that is its creation. *)
Record history : Type := mkHistory {
  created : Z;
  updates : list Z
}.

Definition reported_last_modified (h : history) : Z :=
  List.last (updates h) (created h).

End Lambda.

(** ** Load balancers *)

Module ELB.

Import Py Model.
Local Open Scope list_scope.
Local Open Scope string_scope.

(** A classic load balancer of [describe_load_balancers] (ELB). *)
Record classic : Type := mkClassic {
  Classic_Name : string;
  Classic_CreatedTime : Z;
  Instances : list string;
  AvailabilityZones : list string;
  HealthCheck_Target : option string
}.

(** An application, network or gateway load balancer of
    [describe_load_balancers] (ELBv2), with the answers for it: the tag
    descriptions, for each target group the health states of its targets
    ([describe_target_health]), the [Sum] datapoints of [RequestCount] and
    the listeners. *)
Record balancer : Type := mkBalancer {
  LoadBalancerArn : string;
  LoadBalancerName : string;
  CreatedTime : Z;
  Type_ : string;
  State_Code : string;
  Scheme : option string;
  DNSName : option string;
  tag_descriptions : response (list tag_list);
  target_groups : response (list (response (list string)));
  request_sums : response (list Q);
  listeners : response (list string)
}.

(** [estimate_lb_cost] *)
Definition estimate_lb_cost (lb_type : string) : string :=
  if String.eqb lb_type "classic" then "$18/month + $0.008/GB data"
  else if String.eqb lb_type "application" then "$16.20/month + $0.008/LCU"
  else if String.eqb lb_type "network" then "$16.20/month + $0.006/NLCU"
  else if String.eqb lb_type "gateway" then "$10/month + $0.004/GLCU"
  else "Cost estimation unavailable".

(** The loop over the target groups in [check_lb_usage]: the counts of
    all and of healthy targets, [None] where [describe_target_health]
    raises. *)
Fixpoint count_targets (groups : list (response (list string))) (total healthy : Z)
  : option (Z * Z) :=
  match groups with
  | [] => Some (total, healthy)
  | Failed :: _ => None
  | Ok states :: rest =>
      count_targets rest
        (total + Z.of_nat (List.length states))%Z
        (healthy + Z.of_nat (List.length (filter (String.eqb "healthy") states)))%Z
  end.

Definition usage_unavailable : string * bool := ("Usage metrics unavailable", false).

(** [check_lb_usage]; the name built from the last three pieces of the
    ARN is only sent to CloudWatch, but building it raises on an ARN with
    fewer than three pieces. *)
Definition check_lb_usage (lb : balancer) : string * bool :=
  match target_groups lb with
  | Failed => usage_unavailable
  | Ok groups =>
      match count_targets groups 0 0 with
      | None => usage_unavailable
      | Some (total_targets, healthy_targets) =>
          if (List.length (split "/" (LoadBalancerArn lb)) <? 3)%nat
          then usage_unavailable
          else
            match request_sums lb with
            | Failed => usage_unavailable
            | Ok datapoints =>
                let request_count :=
                  match datapoints with
                  | sum :: _ => int_of sum
                  | [] => 0%Z
                  end in
                let usage_info :=
                  "Targets: " ++ str_of_Z healthy_targets ++ "/"
                  ++ str_of_Z total_targets ++ " healthy, Requests (7d): "
                  ++ format_commas request_count in
                let is_unused :=
                  (total_targets =? 0)%Z
                  || ((healthy_targets =? 0)%Z && (request_count <? 100)%Z) in
                (usage_info, is_unused)
            end
      end
  end.

Definition migrate_classic : string := "Migrate to ALB/NLB or delete if unused".
Definition consolidate_listeners : string :=
  "Consider consolidating listeners to reduce complexity".
Definition delete_unused (lb_type : string) : string :=
  "Delete unused " ++ lb_type ++ " load balancer".

(** The body of the first loop of [get_all_load_balancers]. *)
Definition classic_step (self : monitor) (lb : classic) : Scan.step :=
  let created_time := Classic_CreatedTime lb in
  let is_new := (cutoff_time self <=? created_time)%Z in
  let usage_info :=
    "Instances: " ++ str_of_Z (Z.of_nat (List.length (Instances lb)))
    ++ ", Zones: " ++ join ", " (AvailabilityZones lb) in
  let is_unused := (List.length (Instances lb) =? 0)%nat in
  let health_info := "Target: " ++ or_default (HealthCheck_Target lb) "N/A" in
  let resource :=
    {| resource_type := "Classic Load Balancer";
       resource_id := Classic_Name lb;
       resource_name := Classic_Name lb;
       state := "active";
       tags := [];
       usage_info := usage_info;
       estimated_cost := estimate_lb_cost "classic";
       instance_type := "";
       is_unused := is_unused;
       is_new := Some is_new;
       additional_info := health_info;
       public_ip := "";
       compliance_status := [];
       cost_optimization_suggestions := [];
       risk := Low;
       environment := "";
       backup_status := "";
       encryption_status := "" |} in
  let resource :=
    if is_unused
    then set_suggestions resource
           (append (cost_optimization_suggestions resource) migrate_classic)
    else resource in
  let resource := set_risk resource (Risk.calculate_risk_level resource) in
  Scan.Reach (Some is_new) is_unused resource.

(** The body of the second loop of [get_all_load_balancers]. *)
Definition balancer_step (self : monitor) (lb : balancer) : Scan.step :=
  let created_time := CreatedTime lb in
  let is_new := (cutoff_time self <=? created_time)%Z in
  match tag_descriptions lb with
  | Failed => Scan.Raise
  | Ok descriptions =>
      let tags :=
        match descriptions with
        | first :: _ => dict_of first
        | [] => []
        end in
      let (usage_info, is_unused) := check_lb_usage lb in
      match listeners lb with
      | Failed => Scan.Raise
      | Ok listener_list =>
          let listener_count := Z.of_nat (List.length listener_list) in
          let environment := detect_environment_from_tags tags in
          let resource :=
            {| resource_type := upper (Type_ lb) ++ " Load Balancer";
               resource_id := last_piece (split "/" (LoadBalancerArn lb));
               resource_name := LoadBalancerName lb;
               state := State_Code lb;
               tags := tags;
               usage_info := usage_info ++ ", Listeners: " ++ str_of_Z listener_count;
               estimated_cost := estimate_lb_cost (Type_ lb);
               instance_type := "";
               is_unused := is_unused;
               is_new := Some is_new;
               additional_info :=
                 "Scheme: " ++ or_default (Scheme lb) "N/A" ++ ", DNS: "
                 ++ or_default (DNSName lb) "N/A";
               public_ip := "";
               compliance_status := [];
               cost_optimization_suggestions := [];
               risk := Low;
               environment := environment;
               backup_status := "";
               encryption_status := "" |} in
          let resource :=
            if is_unused
            then set_suggestions resource
                   (append (cost_optimization_suggestions resource)
                      (delete_unused (Type_ lb)))
            else resource in
          let resource :=
            if String.eqb (Type_ lb) "application" && (5 <? listener_count)%Z
            then set_suggestions resource
                   (append (cost_optimization_suggestions resource)
                      consolidate_listeners)
            else resource in
          let resource := set_risk resource (Risk.calculate_risk_level resource) in
          Scan.Reach (Some is_new) is_unused resource
      end
  end.

(** [get_all_load_balancers]: two [try] blocks on the same two lists. *)
Definition get_all_load_balancers (self : monitor)
    (classic_listing : response (list classic))
    (listing : response (list balancer)) : Scan.collections :=
  let acc := Scan.fetch (classic_step self) classic_listing ([], []) in
  Scan.fetch (balancer_step self) listing acc.

End ELB.

(** ** Block volumes *)

Module EBS.

Import Py Model.
Local Open Scope list_scope.
Local Open Scope string_scope.

Record attachment : Type := mkAttachment {
  Attachment_InstanceId : string;
  Device : string
}.

(** A volume of [describe_volumes], with the start times of its completed
    snapshots ([describe_snapshots]). *)
Record volume : Type := mkVolume {
  VolumeId : string;
  CreateTime : Z;
  Tags : tag_list;
  Attachments : list attachment;
  State : string;
  VolumeType : string;
  Size : Z;
  Iops : option Z;
  Encrypted : option bool;
  snapshots : response (list Z)
}.

(** [check_volume_snapshots] *)
Definition check_volume_snapshots (self : monitor) (answer : response (list Z)) : string :=
  match answer with
  | Failed => "Snapshot status unknown"
  | Ok [] => "No snapshots"
  | Ok (s :: ss) =>
      let latest_snapshot := fold_left Z.max ss s in
      let days_since := days_since self latest_snapshot in
      "Last snapshot: " ++ str_of_Z days_since ++ " days ago"
  end.

Definition costs : dict Q :=
  [ ("gp2", 0.10); ("gp3", 0.08); ("io1", 0.125); ("io2", 0.125);
    ("st1", 0.045); ("sc1", 0.025); ("standard", 0.05) ]%Q.

(** [size_gb * cost_per_gb] and [monthly_cost / 30], on floats. *)
Definition monthly_cost (size_gb : Z) (volume_type : string) : Double.double :=
  let cost_per_gb := Double.of_Q (dict_get costs volume_type 0.10) in
  Double.mul (Double.of_Z size_gb) cost_per_gb.

Definition daily_cost (size_gb : Z) (volume_type : string) : Double.double :=
  Double.div (monthly_cost size_gb volume_type) (Double.of_Z 30).

(** [estimate_ebs_cost] *)
Definition estimate_ebs_cost (size_gb : Z) (volume_type : string) : string :=
  let monthly_cost := monthly_cost size_gb volume_type in
  let daily_cost := daily_cost size_gb volume_type in
  "$" ++ Double.format 2 daily_cost ++ "/day, $" ++ Double.format 2 monthly_cost
  ++ "/month".

Definition provisioned_iops (volume_type : string) : bool :=
  String.eqb volume_type "io1" || String.eqb volume_type "io2".

Definition migrate_gp2 : string :=
  "Migrate from gp2 to gp3 for 20% cost savings and better performance".
Definition snapshot_and_delete : string :=
  "Create snapshot and delete unattached volume to save costs".
Definition review_iops : string :=
  "Review IOPS requirements - may be over-provisioned".
Definition review_large : string :=
  "Review large volume usage - consider archiving old data".
Definition enable_encryption : string :=
  "Enable encryption for compliance and security".

(** [get_ebs_optimization_suggestions] *)
Definition get_ebs_optimization_suggestions (v : volume) (is_attached : bool)
  : list string :=
  let suggestions := [] in
  let suggestions :=
    if String.eqb (VolumeType v) "gp2"
    then append suggestions migrate_gp2 else suggestions in
  let suggestions :=
    if negb is_attached
    then append suggestions snapshot_and_delete else suggestions in
  let suggestions :=
    if provisioned_iops (VolumeType v) && (10000 <? or_default (Iops v) 0)%Z
    then append suggestions review_iops else suggestions in
  let suggestions :=
    if (500 <? Size v)%Z
    then append suggestions review_large else suggestions in
  let suggestions :=
    if negb (or_default (Encrypted v) false)
    then append suggestions enable_encryption else suggestions in
  suggestions.

(** The body of the loop of [get_all_ebs_volumes]. *)
Definition volume_step (self : monitor) (v : volume) : Scan.step :=
  let create_time := CreateTime v in
  let is_new := (cutoff_time self <=? create_time)%Z in
  let tags := dict_of (Tags v) in
  let is_attached := (0 <? List.length (Attachments v))%nat in
  let attachment_info :=
    match Attachments v with
    | a :: _ =>
        "Attached to: " ++ Attachment_InstanceId a ++ ", Device: " ++ Device a
    | [] => "Not attached"
    end in
  let is_unused := negb is_attached && String.eqb (State v) "available" in
  let snapshot_info := check_volume_snapshots self (snapshots v) in
  let environment := detect_environment_from_tags tags in
  let iops_cost :=
    if provisioned_iops (VolumeType v)
    then
      let iops := or_default (Iops v) 0%Z in
      let iops_monthly_cost := Double.mul (Double.of_Z iops) (Double.of_Q 0.065) in
      ", IOPS: $" ++ Double.format 2 iops_monthly_cost ++ "/month"
    else "" in
  let resource :=
    {| resource_type := "EBS Volume";
       resource_id := VolumeId v;
       resource_name := dict_get tags "Name" "N/A";
       state := State v;
       tags := tags;
       usage_info :=
         "Size: " ++ str_of_Z (Size v) ++ " GB, Type: " ++ VolumeType v ++ ", "
         ++ attachment_info;
       estimated_cost := estimate_ebs_cost (Size v) (VolumeType v) ++ iops_cost;
       instance_type := "";
       is_unused := is_unused;
       is_new := Some is_new;
       additional_info :=
         "IOPS: " ++ match Iops v with Some n => str_of_Z n | None => "N/A" end
         ++ ", Encrypted: " ++ str_of_bool (or_default (Encrypted v) false)
         ++ ", " ++ snapshot_info;
       public_ip := "";
       compliance_status := [];
       cost_optimization_suggestions := [];
       risk := Low;
       environment := environment;
       backup_status := snapshot_info;
       encryption_status :=
         if or_default (Encrypted v) false then "Encrypted" else "Not Encrypted" |} in
  let resource :=
    set_suggestions resource (get_ebs_optimization_suggestions v is_attached) in
  let resource := set_risk resource (Risk.calculate_risk_level resource) in
  Scan.Reach (Some is_new) is_unused resource.

(** [get_all_ebs_volumes] *)
Definition get_all_ebs_volumes (self : monitor) (listing : response (list volume))
  : Scan.collections :=
  Scan.fetch (volume_step self) listing ([], []).

End EBS.

(** ** Floating addresses *)

Module EIP.

Import Py Model.
Local Open Scope list_scope.
Local Open Scope string_scope.

(** An address of [describe_addresses], with the event times CloudTrail
    answers for its allocation id. *)
Record address : Type := mkAddress {
  AllocationId : option string;
  InstanceId : option string;
  NetworkInterfaceId : option string;
  PublicIp : option string;
  Domain : option string;
  Tags : tag_list;
  allocation_events : response (list Z)
}.

(** [get_resource_allocation_time] *)
Definition get_resource_allocation_time (answer : response (list Z)) : option Z :=
  match answer with
  | Ok (event_time :: _) => Some event_time
  | Ok [] => None
  | Failed => None
  end.

Definition present {A : Type} (o : option A) : bool :=
  match o with
  | Some _ => true
  | None => false
  end.

Definition release_address : string :=
  "Release unassociated Elastic IP to save $3.60/month".

(** The body of the loop of [get_all_elastic_ips]. *)
Definition address_step (self : monitor) (eip : address) : Scan.step :=
  match AllocationId eip with
  | None => Scan.Continue
  | Some allocation_id =>
      let allocation_time := get_resource_allocation_time (allocation_events eip) in
      let is_new :=
        match allocation_time with
        | None => None
        | Some t => Some (cutoff_time self <=? t)%Z
        end in
      let is_associated := present (InstanceId eip) || present (NetworkInterfaceId eip) in
      let association_info :=
        match InstanceId eip, NetworkInterfaceId eip with
        | Some associated_resource, _ => "Associated with EC2: " ++ associated_resource
        | None, Some associated_resource => "Associated with ENI: " ++ associated_resource
        | None, None => "Not associated"
        end in
      let tags := dict_of (Tags eip) in
      let environment := detect_environment_from_tags tags in
      let monthly_cost := if is_associated then 0 else 3.60 in
      let resource :=
        {| resource_type := "Elastic IP";
           resource_id := allocation_id;
           resource_name := or_default (PublicIp eip) "N/A";
           state := "allocated";
           tags := tags;
           usage_info := association_info;
           estimated_cost := "$" ++ format_fixed 2 monthly_cost ++ "/month";
           instance_type := "";
           is_unused := negb is_associated;
           is_new := is_new;
           additional_info :=
             "Domain: " ++ or_default (Domain eip) "vpc" ++ ", IP: "
             ++ or_default (PublicIp eip) "N/A";
           public_ip := or_default (PublicIp eip) "N/A";
           compliance_status := [];
           cost_optimization_suggestions := [];
           risk := Low;
           environment := environment;
           backup_status := "";
           encryption_status := "" |} in
      let resource :=
        if negb is_associated
        then set_suggestions resource
               (append (cost_optimization_suggestions resource) release_address)
        else resource in
      let resource := set_risk resource (Risk.calculate_risk_level resource) in
      Scan.Reach is_new (negb is_associated) resource
  end.

(** [get_all_elastic_ips] *)
Definition get_all_elastic_ips (self : monitor) (listing : response (list address))
  : Scan.collections :=
  Scan.fetch (address_step self) listing ([], []).

End EIP.

(** ** The scan *)

Module Run.

Import Py Model.
Local Open Scope list_scope.

(** The listings the seven fetchers start from. *)
Record account : Type := mkAccount {
  instances : response (list EC2.instance);
  classic_balancers : response (list ELB.classic);
  balancers : response (list ELB.balancer);
  volumes : response (list EBS.volume);
  addresses : response (list EIP.address);
  databases : response (list RDS.db_instance);
  buckets : response (list S3.bucket);
  functions : response (list Lambda.function)
}.

(** [resource_fetchers] of [run], in order. *)
Definition resource_fetchers (self : monitor) (a : account) : list Scan.collections :=
  [ EC2.get_all_ec2_instances self (instances a);
    ELB.get_all_load_balancers self (classic_balancers a) (balancers a);
    EBS.get_all_ebs_volumes self (volumes a);
    EIP.get_all_elastic_ips self (addresses a);
    RDS.get_all_rds_instances self (databases a);
    S3.get_all_s3_buckets self (buckets a);
    Lambda.get_all_lambda_functions self (functions a) ].

(** The fetch loop of [run]: [all_new_resources.extend(new)] and
    [all_unused_resources.extend(unused)] for each fetcher. *)
Definition collect (self : monitor) (a : account) : Scan.collections :=
  fold_left
    (fun all found => (fst all ++ fst found, snd all ++ snd found))
    (resource_fetchers self a) ([], []).

(** The descriptors finished during one scan, family by family. *)
Definition descriptors (self : monitor) (a : account) : list ResourceInfo :=
  Scan.fetched (EC2.instance_step self) (instances a)
  ++ Scan.fetched (ELB.classic_step self) (classic_balancers a)
  ++ Scan.fetched (ELB.balancer_step self) (balancers a)
  ++ Scan.fetched (EBS.volume_step self) (volumes a)
  ++ Scan.fetched (EIP.address_step self) (addresses a)
  ++ Scan.fetched (RDS.db_step self) (databases a)
  ++ Scan.fetched (S3.bucket_step self) (buckets a)
  ++ Scan.fetched (Lambda.function_step self) (functions a).

End Run.

(** ** Cost aggregation of the reports *)

Module Report.

Import Py Model.
Local Open Scope list_scope.
Local Open Scope string_scope.

Section Totals.

(** The numbers of the totals: the totals start from [zero], [+=] is
    [add], and [float] is Python's [float] on a string, [None] where it
    raises [ValueError]. *)
Variable num : Type.
Variable zero : num.
Variable add : num -> num -> num.
Variable float : string -> option num.

(** [r.estimated_cost.split('$')[1].split('/month')[0].split(' ')[0]],
    [None] where an index is out of range. *)
Definition cost_str (estimated_cost : string) : option string :=
  match index (split "$" estimated_cost) 1 with
  | None => None
  | Some after_dollar =>
      match index (split "/month" after_dollar) 0 with
      | None => None
      | Some before_month => index (split " " before_month) 0
      end
  end.

(** The inside of the [try] of the cost loops: the new total, or [None]
    where a statement raises. *)
Definition try_add (total : num) (estimated_cost : string) : option num :=
  if contains "$" estimated_cost && contains "month" estimated_cost
  then
    match cost_str estimated_cost with
    | None => None
    | Some cost_str =>
        match float (replace "," "" cost_str) with
        | None => None
        | Some amount => Some (add total amount)
        end
    end
  else Some total.

(** One turn of a cost loop: [try: ... except: pass]. *)
Definition add_cost (total : num) (r : ResourceInfo) : num :=
  match try_add total (estimated_cost r) with
  | Some total' => total'
  | None => total
  end.

(** [total_monthly_savings] of [send_to_google_sheets] and of
    [send_slack_notification]. *)
Definition total_monthly_savings (unused_resources : list ResourceInfo) : num :=
  fold_left add_cost unused_resources zero.

(** [total_monthly_cost] of [send_to_google_sheets]. *)
Definition total_monthly_cost (new_resources unused_resources : list ResourceInfo) : num :=
  fold_left add_cost (new_resources ++ unused_resources)%list zero.

(** The dollar monthly amount read from a cost string, if it can be
    parsed as one: both markers are there and the text between the first
    ['$'] and the next ['/month'] or space is a number. *)
Definition monthly_amount (estimated_cost : string) : option num :=
  if contains "$" estimated_cost && contains "month" estimated_cost
  then
    match cost_str estimated_cost with
    | None => None
    | Some cost_str => float (replace "," "" cost_str)
    end
  else None.

Definition parseable (r : ResourceInfo) : bool :=
  match monthly_amount (estimated_cost r) with
  | Some _ => true
  | None => false
  end.

(** The amounts of the parseable descriptors of a list, in order, and
    their sum. *)
Definition amounts (resources : list ResourceInfo) : list num :=
  flat_map
    (fun r =>
       match monthly_amount (estimated_cost r) with
       | Some amount => [amount]
       | None => []
       end)
    resources.

Definition sum_of (l : list num) : num := fold_left add l zero.

End Totals.

End Report.

(** ** Sorting, grouping and counting *)

Module Collections.

Import Py.
Local Open Scope list_scope.

(** One insertion into a list in descending order of [key]: the element
    goes before the first element with a smaller key, so after the
    elements with an equal key. *)
Fixpoint insert_desc {A : Type} (key : A -> Q) (x : A) (l : list A) : list A :=
  match l with
  | [] => [x]
  | y :: l' =>
      if Qltb (key y) (key x) then x :: y :: l' else y :: insert_desc key x l'
  end.

(** [sorted(l, key=key, reverse=True)] and [l.sort(key=key, reverse=True)]:
    descending, elements with equal keys in their original order. *)
Definition sorted_desc {A : Type} (key : A -> Q) (l : list A) : list A :=
  fold_left (fun acc x => insert_desc key x acc) l [].

(** [d[k].append(x)] on a [defaultdict(list)]. *)
Fixpoint group_add {A : Type} (d : dict (list A)) (k : string) (x : A)
  : dict (list A) :=
  match d with
  | [] => [(k, [x])]
  | (k', xs) :: d' =>
      if String.eqb k k' then (k', append xs x) :: d'
      else (k', xs) :: group_add d' k x
  end.

(** [for x in l: d[key(x)].append(x)] from an empty [defaultdict(list)]. *)
Definition group_by {A : Type} (key : A -> string) (l : list A) : dict (list A) :=
  fold_left (fun d x => group_add d (key x) x) l [].

(** [d[k] += 1] on a [defaultdict(int)]. *)
Fixpoint count_add (d : dict Z) (k : string) : dict Z :=
  match d with
  | [] => [(k, 1%Z)]
  | (k', n) :: d' =>
      if String.eqb k k' then (k', (n + 1)%Z) :: d'
      else (k', n) :: count_add d' k
  end.

(** [for x in l: d[key(x)] += 1] from an empty [defaultdict(int)]. *)
Definition count_by {A : Type} (key : A -> string) (l : list A) : dict Z :=
  fold_left (fun d x => count_add d (key x)) l [].

(** [sum(1 for x in l if test(x))] *)
Definition count_if {A : Type} (test : A -> bool) (l : list A) : Z :=
  fold_left (fun total x => if test x then (total + 1)%Z else total) l 0%Z.

End Collections.

(** ** The summary of the spreadsheet report *)

Module Sheets.

Import Py Model Collections.
Local Open Scope list_scope.
Local Open Scope string_scope.

Definition is_level (level : risk_level) (r : ResourceInfo) : bool :=
  match level, risk r with
  | Low, Low | Medium, Medium | High, High => true
  | _, _ => false
  end.

(** [high_risk] and [medium_risk] of [send_to_google_sheets]. *)
Definition high_risk (new_resources unused_resources : list ResourceInfo) : Z :=
  count_if (is_level High) (new_resources ++ unused_resources)%list.

Definition medium_risk (new_resources unused_resources : list ResourceInfo) : Z :=
  count_if (is_level Medium) (new_resources ++ unused_resources)%list.

(** [environments]: the number of reported descriptors per environment. *)
Definition environments (new_resources unused_resources : list ResourceInfo) : dict Z :=
  count_by environment (new_resources ++ unused_resources)%list.

Section Opportunities.

(** Python's [float] on a string, [None] where it raises. *)
Variable float : string -> option Q.

(** The inside of the [try] of the opportunity loop: the cost value of one
    resource, [None] where a statement raises.  The amount text ends at
    the first ['/'], whatever the unit after it. *)
Definition cost_value (estimated_cost : string) : option Q :=
  if contains "$" estimated_cost
  then
    match index (split "$" estimated_cost) 1 with
    | None => None
    | Some after_dollar =>
        match index (split "/" after_dollar) 0 with
        | None => None
        | Some before_slash =>
            match index (split " " before_slash) 0 with
            | None => None
            | Some cost_str => float (replace "," "" cost_str)
            end
        end
    end
  else Some 0.

(** The loop over [unused_resources[:10]]: a resource whose cost value
    raises is passed over. *)
Definition collect_opportunities (unused_resources : list ResourceInfo)
  : list (ResourceInfo * Q) :=
  fold_left
    (fun savings_opportunities r =>
       match cost_value (estimated_cost r) with
       | Some value => append savings_opportunities (r, value)
       | None => savings_opportunities
       end)
    (firstn 10 unused_resources) [].

(** [savings_opportunities.sort(key=lambda x: x[1], reverse=True)] and the
    [[:10]] of the row loop. *)
Definition savings_opportunities (unused_resources : list ResourceInfo)
  : list (ResourceInfo * Q) :=
  firstn 10 (sorted_desc snd (collect_opportunities unused_resources)).

(** The three cells of an opportunity row. *)
Definition opportunity_row (entry : ResourceInfo * Q) : list string :=
  let (r, savings) := entry in
  [ resource_type r ++ " - " ++ resource_id r;
    "$" ++ format_fixed 2 savings ++ "/month";
    match cost_optimization_suggestions r with
    | [] => ""
    | _ :: _ => join " | " (firstn 2 (cost_optimization_suggestions r))
    end ].

Definition opportunity_rows (unused_resources : list ResourceInfo) : list (list string) :=
  map opportunity_row (savings_opportunities unused_resources).

End Opportunities.

End Sheets.

(** ** The console summary *)

Module Console.

Import Py Model Collections.
Local Open Scope list_scope.
Local Open Scope string_scope.

(** A match of [.*?month] at the head of [s]: ["month"] comes before any
    newline. *)
Fixpoint month_follows (s : string) : bool :=
  prefix "month" s ||
  match s with
  | EmptyString => false
  | String c s' => if Ascii.eqb c Advisor.newline then false else month_follows s'
  end.

(** A match of [\$([\d.]+).*?month] at the head of [s]: the group.  A
    shorter group would leave digits to [.*?] and change nothing. *)
Definition dollar_number_month (s : string) : option string :=
  if prefix "$" s
  then
    let (group, rest) := span_digits_dots (drop 1 s) in
    if nonempty group && month_follows rest then Some group else None
  else None.

(** [re.search(r'\$([\d.]+).*?month', s)]: group 1 of the leftmost match. *)
Fixpoint search_dollar_month (s : string) : option string :=
  match dollar_number_month s with
  | Some group => Some group
  | None =>
      match s with
      | EmptyString => None
      | String _ s' => search_dollar_month s'
      end
  end.

(** The amount one turn of the savings loop of [print_console_summary]
    adds, [None] where nothing is added: the markers are missing, the
    search finds nothing or [float] refuses the group. *)
Definition savings_amount (estimated_cost : string) : option Q :=
  if contains "$" estimated_cost && contains "month" estimated_cost
  then
    match search_dollar_month estimated_cost with
    | None => None
    | Some cost_str => float_plain cost_str
    end
  else None.

(** [total_monthly_savings] of [print_console_summary]. *)
Definition total_monthly_savings (unused_resources : list ResourceInfo) : Q :=
  fold_left
    (fun total r =>
       match savings_amount (estimated_cost r) with
       | Some amount => total + amount
       | None => total
       end)
    unused_resources 0.

(** A match of [\$([\d.]+)] at the head of [s], and
    [re.search(r'\$([\d.]+)', s)]. *)
Definition dollar_number (s : string) : option string :=
  if prefix "$" s
  then
    let (group, _) := span_digits_dots (drop 1 s) in
    if nonempty group then Some group else None
  else None.

Fixpoint search_dollar (s : string) : option string :=
  match dollar_number s with
  | Some group => Some group
  | None =>
      match s with
      | EmptyString => None
      | String _ s' => search_dollar s'
      end
  end.

(** The cost value of one resource in the top-ten loop, [None] where
    [float] raises. *)
Definition cost_value (estimated_cost : string) : option Q :=
  if contains "$" estimated_cost
  then
    match search_dollar estimated_cost with
    | Some group => float_plain group
    | None => Some 0
    end
  else Some 0.

(** The loop over all of [unused_resources], and the sort. *)
Definition savings_opportunities (unused_resources : list ResourceInfo)
  : list (ResourceInfo * Q) :=
  sorted_desc snd
    (fold_left
       (fun savings_opportunities r =>
          match cost_value (estimated_cost r) with
          | Some value => append savings_opportunities (r, value)
          | None => savings_opportunities
          end)
       unused_resources []).

(** The ten entries printed, and [total_top10_savings]. *)
Definition top_ten (unused_resources : list ResourceInfo) : list (ResourceInfo * Q) :=
  firstn 10 (savings_opportunities unused_resources).

Definition total_top10_savings (unused_resources : list ResourceInfo) : Q :=
  fold_left (fun total entry => total + snd entry) (top_ten unused_resources) 0.

(** [high_risk], [medium_risk] and [low_risk]. *)
Definition risk_count (level : risk_level) (new_resources unused_resources : list ResourceInfo)
  : Z :=
  count_if (Sheets.is_level level) (new_resources ++ unused_resources)%list.

End Console.

(** ** The chat notification *)

Module Slack.

Import Py Model Collections.
Local Open Scope list_scope.
Local Open Scope string_scope.

(** The blocks of a message, by their ["type"], with their text. *)
Inductive block : Type :=
| Header (text : string)
| Divider
| Section (text : string).

(** A message posted to the webhook. *)
Record message : Type := mkMessage {
  text : string;
  blocks : list block
}.

(** A character given by its UTF-8 bytes. *)
Definition utf8 (bytes : list nat) : string :=
  string_of_list_ascii (map ascii_of_nat bytes).

Definition squared_new : string := utf8 [240; 159; 134; 149]%nat.
Definition red_circle : string := utf8 [240; 159; 148; 180]%nat.
Definition warning_sign : string := utf8 [226; 154; 160; 239; 184; 143]%nat.
Definition money_bag : string := utf8 [240; 159; 146; 176]%nat.

(** [new_unused_count] *)
Definition new_unused_count (new_resources : list ResourceInfo) : Z :=
  count_if is_unused new_resources.

(** A match of [([\d.]+)] at the head of [s], and
    [re.search(r'([\d.]+)', s)]: the first run of digits and points. *)
Fixpoint search_number (s : string) : option string :=
  match s with
  | EmptyString => None
  | String c s' =>
      if is_digit_or_dot c then Some (fst (span_digits_dots s))
      else search_number s'
  end.

(** The key of the sort by cost: [0] without a number in the cost string,
    [None] where [float] raises on the run found. *)
Definition cost_key (estimated_cost : string) : option Q :=
  match search_number estimated_cost with
  | None => Some 0
  | Some group => float_plain group
  end.

Fixpoint all_keys (resources : list ResourceInfo) : option (list (ResourceInfo * Q)) :=
  match resources with
  | [] => Some []
  | r :: rest =>
      match cost_key (estimated_cost r), all_keys rest with
      | Some k, Some keyed => Some ((r, k) :: keyed)
      | _, _ => None
      end
  end.

(** [unused_sorted]: the unused resources by descending cost key, [None]
    where a key raises. *)
Definition unused_sorted (unused_resources : list ResourceInfo)
  : option (list ResourceInfo) :=
  option_map (fun keyed => map fst (sorted_desc snd keyed)) (all_keys unused_resources).

Section Batches.

(** The text that [create_resource_block] builds for a resource and its
    number, cut at 3000 characters. *)
Variable resource_text : ResourceInfo -> Z -> string.

(** [create_resource_block]: one section block. *)
Definition create_resource_block (resource : ResourceInfo) (index : Z) : list block :=
  [Section (resource_text resource index)].

(** What differs between the loop over the new and the loop over the
    unused resources: the blocks the first message starts with, the title
    of a group, the text of a part and of the last message, and the text
    that opens a continuation. *)
Record report : Type := mkReport {
  first_blocks : list block;
  group_title : string -> nat -> string;
  part_text : Z -> string;
  continued : string;
  final_text : string
}.

(** The state of the loops: the blocks of the message being built, the
    number of the next resource, and the messages posted so far.  The
    posts are taken to return. *)
Record batch : Type := mkBatch {
  message_blocks : list block;
  index : Z;
  sent : list message
}.

(** The body of the inner loop. *)
Definition resource_turn (rep : report) (st : batch) (resource : ResourceInfo) : batch :=
  let resource_blocks := create_resource_block resource (index st) in
  let message_blocks := (message_blocks st ++ resource_blocks)%list in
  let index := (index st + 1)%Z in
  if (40 <? List.length message_blocks)%nat
  then
    {| message_blocks := [Section (continued rep); Divider];
       index := index;
       sent := append (sent st) (mkMessage (part_text rep index) message_blocks) |}
  else {| message_blocks := message_blocks; index := index; sent := sent st |}.

(** The body of the outer loop: the title of the group, then its resources. *)
Definition group_turn (rep : report) (st : batch) (group : string * list ResourceInfo)
  : batch :=
  let (resource_type, resources) := group in
  let st :=
    {| message_blocks :=
         append (message_blocks st)
           (Section (group_title rep resource_type (List.length resources)));
       index := index st;
       sent := sent st |} in
  fold_left (resource_turn rep) resources st.

(** The two loops and the last message, which is posted when more than two
    blocks remain. *)
Definition send_batches (rep : report) (resources_by_type : dict (list ResourceInfo))
  : list message :=
  let st :=
    fold_left (group_turn rep) resources_by_type
      {| message_blocks := first_blocks rep; index := 1; sent := [] |} in
  if (2 <? List.length (message_blocks st))%nat
  then append (sent st) (mkMessage (final_text rep) (message_blocks st))
  else sent st.

Definition new_report : report :=
  {| first_blocks := [Header (squared_new ++ " NEW RESOURCES (Last 24 Hours)"); Divider];
     group_title := fun resource_type count =>
       "*" ++ resource_type ++ "s (" ++ str_of_Z (Z.of_nat count) ++ " total)*";
     part_text := fun index => "New Resources Report - Part " ++ str_of_Z (index / 20);
     continued := "*...continued (NEW Resources)*";
     final_text := "New Resources Report - Final" |}.

Definition unused_report (unused_count : nat) (total_monthly_savings : Q) : report :=
  {| first_blocks :=
       [ Header (red_circle ++ " UNUSED RESOURCES (All Time)");
         Section
           ("*" ++ warning_sign ++ " Action Required:* "
            ++ str_of_Z (Z.of_nat unused_count) ++ " unused resources detected"
            ++ String Advisor.newline
                 ("*" ++ money_bag ++ " Monthly Savings Opportunity:* $"
                  ++ format_fixed 2 total_monthly_savings));
         Divider ];
     group_title := fun resource_type count =>
       "*" ++ resource_type ++ "s (" ++ str_of_Z (Z.of_nat count) ++ " unused)*";
     part_text := fun index => "Unused Resources Report - Part " ++ str_of_Z (index / 20);
     continued := "*...continued (UNUSED Resources)*";
     final_text := "Unused Resources Report - Final" |}.

(** The messages of the new resources: none for an empty list. *)
Definition send_new_resources (new_resources : list ResourceInfo) : list message :=
  match new_resources with
  | [] => []
  | _ :: _ => send_batches new_report (group_by resource_type new_resources)
  end.

(** The messages of the unused resources, [None] where the sort raises. *)
Definition send_unused_resources (unused_resources : list ResourceInfo)
    (total_monthly_savings : Q) : option (list message) :=
  match unused_resources with
  | [] => Some []
  | _ :: _ =>
      option_map
        (fun unused_sorted =>
           send_batches
             (unused_report (List.length unused_resources) total_monthly_savings)
             (group_by resource_type unused_sorted))
        (unused_sorted unused_resources)
  end.

(** The blocks of a report before it is cut into messages: for each group
    its title and the blocks of its resources, numbered from [index]. *)
Fixpoint resource_blocks (resources : list ResourceInfo) (index : Z) : list block :=
  match resources with
  | [] => []
  | r :: rest => create_resource_block r index ++ resource_blocks rest (index + 1)%Z
  end.

Fixpoint content (rep : report) (groups : dict (list ResourceInfo)) (index : Z)
  : list block :=
  match groups with
  | [] => []
  | (resource_type, resources) :: rest =>
      Section (group_title rep resource_type (List.length resources))
      :: resource_blocks resources index
      ++ content rep rest (index + Z.of_nat (List.length resources))%Z
  end.

(** The blocks of the messages without what each message starts with:
    [first] blocks in the first message, two in each later one. *)
Definition payload (first : nat) (messages : list message) : list block :=
  match messages with
  | [] => []
  | m :: later =>
      skipn first (blocks m) ++ flat_map (fun m' => skipn 2 (blocks m')) later
  end.

(** The title and resource blocks handed over in a state of the loops:
    those of the messages posted and those of the message being built. *)
Definition held (first : nat) (st : batch) : list block :=
  match sent st with
  | [] => skipn first (message_blocks st)
  | _ :: _ => payload first (sent st) ++ skipn 2 (message_blocks st)
  end.

(** The sizes of a posted message: more than the two blocks a message
    starts with, and at most 42, below the limit of 50 of the webhook. *)
Definition fits (m : message) : Prop :=
  (3 <= List.length (blocks m) <= 42)%nat.

End Batches.

End Slack.

(** ** Sample inputs *)

Module Samples.

Import Py Model.
Local Open Scope list_scope.
Local Open Scope string_scope.

(** A monitor started at day 100 of the epoch. *)
Definition self : monitor := init (100 * day).

(** An idle instance launched an hour before the scan: two CPU datapoints,
    10 MB in and 10 MB out over the week, two tags, no public address. *)
Definition idle_instance : EC2.instance :=
  {| EC2.InstanceId := "i-0a1";
     EC2.State_Name := "running";
     EC2.LaunchTime := 100 * day - 3600 * 1000000;
     EC2.Tags := [("Name", "web"); ("Env", "prod")];
     EC2.InstanceType := "t2.micro";
     EC2.PublicIpAddress := None;
     EC2.BlockDeviceMappings := [Some (EC2.mkEbsDevice "vol-1" (Some true))];
     EC2.HttpTokens := Some "required";
     EC2.Monitoring_State := Some "enabled";
     EC2.SecurityGroups := ["default"];
     EC2.IamInstanceProfile_Arn := None;
     EC2.cpu_statistics := Ok [EC2.mkDatapoint 1 5; EC2.mkDatapoint 1 4];
     EC2.network_in := Ok [10485760%Q];
     EC2.network_out := Ok [10485760%Q];
     EC2.disable_api_termination := Ok (Some true);
     EC2.recovery_points := Ok [] |}.

(** The same instance when CloudWatch has no datapoint for it, and when
    the call to CloudWatch raises. *)
Definition with_cpu (i : EC2.instance) (answer : response (list EC2.datapoint))
  : EC2.instance :=
  EC2.mkInstance (EC2.InstanceId i) (EC2.State_Name i) (EC2.LaunchTime i) (EC2.Tags i)
    (EC2.InstanceType i) (EC2.PublicIpAddress i) (EC2.BlockDeviceMappings i)
    (EC2.HttpTokens i) (EC2.Monitoring_State i) (EC2.SecurityGroups i)
    (EC2.IamInstanceProfile_Arn i) answer (EC2.network_in i) (EC2.network_out i)
    (EC2.disable_api_termination i) (EC2.recovery_points i).

Definition silent_instance : EC2.instance := with_cpu idle_instance (Ok []).
Definition unreachable_instance : EC2.instance := with_cpu idle_instance Failed.

(** A database, with no datapoint and with a failing metrics call. *)
Definition database (answer : response (list RDS.datapoint)) : RDS.db_instance :=
  {| RDS.DBInstanceIdentifier := "orders-db";
     RDS.DBInstanceClass := "db.x9.huge";
     RDS.DBInstanceStatus := "available";
     RDS.InstanceCreateTime := 10 * day;
     RDS.BackupRetentionPeriod := Some 7%Z;
     RDS.Engine := Some "postgres";
     RDS.EngineVersion := Some "15.4";
     RDS.MultiAZ := Some false;
     RDS.StorageEncrypted := Some true;
     RDS.tag_answer := Ok [];
     RDS.connections := answer |}.

(** A 100 GB gp2 volume, unattached and unencrypted. *)
Definition legacy_volume : EBS.volume :=
  {| EBS.VolumeId := "vol-0b2";
     EBS.CreateTime := 10 * day;
     EBS.Tags := [];
     EBS.Attachments := [];
     EBS.State := "available";
     EBS.VolumeType := "gp2";
     EBS.Size := 100;
     EBS.Iops := None;
     EBS.Encrypted := Some false;
     EBS.snapshots := Ok [] |}.

(** A function created on day 10 that was never invoked and carries no
    tag; [touched_function] is the same function after an update half an
    hour before the scan. *)
Definition old_function : Lambda.function :=
  {| Lambda.FunctionName := "nightly-report";
     Lambda.LastModified := 10 * day;
     Lambda.MemorySize := Some 128%Z;
     Lambda.Timeout := Some 3%Z;
     Lambda.State := Some "Active";
     Lambda.Runtime := Some "python3.12";
     Lambda.tag_answer := Ok None;
     Lambda.invocation_sums := Ok [] |}.

Definition touched_function : Lambda.function :=
  {| Lambda.FunctionName := "nightly-report";
     Lambda.LastModified := 100 * day - 1800 * 1000000;
     Lambda.MemorySize := Some 128%Z;
     Lambda.Timeout := Some 3%Z;
     Lambda.State := Some "Active";
     Lambda.Runtime := Some "python3.12";
     Lambda.tag_answer := Ok None;
     Lambda.invocation_sums := Ok [] |}.

(** A descriptor that only carries a cost string. *)
Definition costing (cost : string) : ResourceInfo :=
  {| resource_type := "EBS Volume";
     resource_id := "r";
     resource_name := "r";
     state := "available";
     tags := [];
     usage_info := "";
     estimated_cost := cost;
     instance_type := "";
     is_unused := true;
     is_new := Some false;
     additional_info := "";
     public_ip := "";
     compliance_status := [];
     cost_optimization_suggestions := [];
     risk := Low;
     environment := "";
     backup_status := "";
     encryption_status := "" |}.

(** An account with the idle instance, the legacy volume and the old
    function; the listings of classic load balancers and of databases
    fail. *)
Definition sample_account : Run.account :=
  {| Run.instances := Ok [idle_instance];
     Run.classic_balancers := Failed;
     Run.balancers := Ok [];
     Run.volumes := Ok [legacy_volume];
     Run.addresses := Ok [];
     Run.databases := Failed;
     Run.buckets := Ok [];
     Run.functions := Ok [old_function] |}.

End Samples.

(** ** More sample inputs *)

Module Cases.

Import Py Model.
Local Open Scope list_scope.
Local Open Scope string_scope.

(** The descriptor a step finishes, if it finishes one. *)
Definition finished (s : Scan.step) : option ResourceInfo :=
  match s with
  | Scan.Reach _ _ resource => Some resource
  | _ => None
  end.

(** The descriptor of the idle sample instance. *)
Definition idle_descriptor : ResourceInfo :=
  Eval vm_compute in
    or_default (finished (EC2.instance_step Samples.self Samples.idle_instance))
      (Samples.costing "").

(** A database whose tag lookup raises, and one whose lookup answers. *)
Definition database (name : string) (answer : response tag_list) : RDS.db_instance :=
  {| RDS.DBInstanceIdentifier := name;
     RDS.DBInstanceClass := "db.t3.micro";
     RDS.DBInstanceStatus := "available";
     RDS.InstanceCreateTime := 10 * day;
     RDS.BackupRetentionPeriod := Some 0%Z;
     RDS.Engine := Some "mysql";
     RDS.EngineVersion := Some "8.0";
     RDS.MultiAZ := Some false;
     RDS.StorageEncrypted := Some false;
     RDS.tag_answer := answer;
     RDS.connections := Ok [] |}.

(** A function whose tag lookup raises. *)
Definition untagged_function : Lambda.function :=
  {| Lambda.FunctionName := "broken";
     Lambda.LastModified := 10 * day;
     Lambda.MemorySize := None;
     Lambda.Timeout := None;
     Lambda.State := None;
     Lambda.Runtime := None;
     Lambda.tag_answer := Failed;
     Lambda.invocation_sums := Ok [] |}.

(** An application load balancer with one target group, and the same
    balancer when the listing of its listeners raises. *)
Definition balancer (listeners : response (list string)) : ELB.balancer :=
  {| ELB.LoadBalancerArn :=
       "arn:aws:elasticloadbalancing:us-east-1:1:loadbalancer/app/shop/50dc6c495c0c9188";
     ELB.LoadBalancerName := "shop";
     ELB.CreatedTime := 10 * day;
     ELB.Type_ := "application";
     ELB.State_Code := "active";
     ELB.Scheme := Some "internet-facing";
     ELB.DNSName := None;
     ELB.tag_descriptions := Ok [[("Env", "staging")]];
     ELB.target_groups := Ok [Ok ["healthy"; "unhealthy"; "draining"]];
     ELB.request_sums := Ok [1500%Q];
     ELB.listeners := listeners |}.

(** A bucket of 5 GiB without default encryption, and the descriptor
    the scan finishes for it. *)
Definition open_bucket : S3.bucket :=
  S3.mkBucket "reports" (10 * day) (Ok [("Env", "dev")])
    (Ok [5368709120%Q]) (Ok [1200%Q]) Failed (Ok None) (Ok tt).

Definition open_bucket_descriptor : ResourceInfo :=
  Eval vm_compute in
    or_default (finished (S3.bucket_step Samples.self open_bucket))
      (Samples.costing "").

(** The descriptor of the legacy sample volume. *)
Definition legacy_descriptor : ResourceInfo :=
  Eval vm_compute in
    or_default (finished (EBS.volume_step Samples.self Samples.legacy_volume))
      (Samples.costing "").

(** A descriptor that only carries a compliance map. *)
Definition checked (compliance : dict bool) : ResourceInfo :=
  {| resource_type := "EC2 Instance";
     resource_id := "i";
     resource_name := "i";
     state := "running";
     tags := [];
     usage_info := "";
     estimated_cost := "";
     instance_type := "";
     is_unused := false;
     is_new := Some false;
     additional_info := "";
     public_ip := "";
     compliance_status := compliance;
     cost_optimization_suggestions := [];
     risk := Low;
     environment := "";
     backup_status := "";
     encryption_status := "" |}.

(** The idle sample instance with other answers for its two network
    metrics, and with another answer for its CPU. *)
Definition with_network (i : EC2.instance) (answer_in answer_out : response (list Q))
  : EC2.instance :=
  EC2.mkInstance (EC2.InstanceId i) (EC2.State_Name i) (EC2.LaunchTime i) (EC2.Tags i)
    (EC2.InstanceType i) (EC2.PublicIpAddress i) (EC2.BlockDeviceMappings i)
    (EC2.HttpTokens i) (EC2.Monitoring_State i) (EC2.SecurityGroups i)
    (EC2.IamInstanceProfile_Arn i) (EC2.cpu_statistics i) answer_in answer_out
    (EC2.disable_api_termination i) (EC2.recovery_points i).

(** An instance at 1 % CPU whose [NetworkIn] is answered with two [Sum]
    datapoints, of 60 MB and of 70 MB. *)
Definition chatty_instance : EC2.instance :=
  with_network Samples.idle_instance (Ok [62914560%Q; 73400320%Q]) (Ok [10485760%Q]).

(** An instance at 9 % CPU. *)
Definition warm_instance : EC2.instance :=
  Samples.with_cpu Samples.idle_instance (Ok [EC2.mkDatapoint 9 (95 # 10)]).

(** A bucket whose size metric has no datapoint and that has fifty
    objects, and one whose object count cannot be read. *)
Definition bucket_of_fifty : S3.bucket :=
  S3.mkBucket "archive" 0 Failed (Ok []) (Ok [50%Q]) Failed Failed Failed.

Definition bucket_without_count : S3.bucket :=
  S3.mkBucket "logs" 0 Failed (Ok []) Failed Failed Failed Failed.

(** A load balancer without target groups that answered 2,500
    requests. *)
Definition balancer_without_targets : ELB.balancer :=
  {| ELB.LoadBalancerArn :=
       "arn:aws:elasticloadbalancing:us-east-1:1:loadbalancer/net/edge/1a2b";
     ELB.LoadBalancerName := "edge";
     ELB.CreatedTime := 0;
     ELB.Type_ := "network";
     ELB.State_Code := "active";
     ELB.Scheme := None;
     ELB.DNSName := None;
     ELB.tag_descriptions := Ok [];
     ELB.target_groups := Ok [];
     ELB.request_sums := Ok [2500%Q];
     ELB.listeners := Ok [] |}.

(** A load balancer whose listing of target groups raises. *)
Definition balancer_without_groups : ELB.balancer :=
  {| ELB.LoadBalancerArn := "arn:aws:elasticloadbalancing:us-east-1:1:loadbalancer/app/old/77";
     ELB.LoadBalancerName := "old";
     ELB.CreatedTime := 10 * day;
     ELB.Type_ := "application";
     ELB.State_Code := "active";
     ELB.Scheme := None;
     ELB.DNSName := None;
     ELB.tag_descriptions := Ok [];
     ELB.target_groups := Failed;
     ELB.request_sums := Ok [];
     ELB.listeners := Ok [] |}.

End Cases.

(** * Properties *)

Import Py Model.

(** ** Rational comparisons *)

Lemma Qltb_lt (x y : Q) : Qltb x y = true <-> (x < y)%Q.
Proof.
  unfold Qltb. rewrite negb_true_iff. split.
  - intro H. apply Qnot_le_lt. intro Hle.
    apply Qle_bool_iff in Hle. congruence.
  - intro H. destruct (Qle_bool y x) eqn:E; [|reflexivity].
    apply Qle_bool_iff in E. exfalso. exact (Qlt_not_le _ _ H E).
Qed.

Lemma Qltb_ge (x y : Q) : Qltb x y = false <-> (y <= x)%Q.
Proof.
  unfold Qltb. rewrite negb_false_iff. apply Qle_bool_iff.
Qed.

(** ** Risk tiers and risk scores *)

Section RiskFacts.

Import Risk.
Local Open Scope string_scope.
Local Open Scope Z_scope.

(** The three tiers are told apart by the two breakpoints. *)
Lemma risk_tier_cases (score : Z) :
  (score <= 2 /\ risk_tier score = Low)
  \/ (3 <= score <= 5 /\ risk_tier score = Medium)
  \/ (6 <= score /\ risk_tier score = High).
Proof.
  unfold risk_tier.
  destruct (Z.leb_spec 6 score); [right; right; split; [lia|reflexivity]|].
  destruct (Z.leb_spec 3 score); [right; left|left]; (split; [lia|reflexivity]).
Qed.

(** C2.  For every integer risk score, and so for every non-negative one,
    the tier is High iff the score is at least 6, Medium iff it lies
    between 3 and 5, and Low iff it is at most 2; and the tier never
    decreases, in the order Low < Medium < High, when the score grows. *)
Theorem risk_tier_breakpoints (score score' : Z) :
  (risk_tier score = High <-> 6 <= score)
  /\ (risk_tier score = Medium <-> 3 <= score <= 5)
  /\ (risk_tier score = Low <-> score <= 2)
  /\ (score <= score' -> tier_rank (risk_tier score) <= tier_rank (risk_tier score')).
Proof.
  destruct (risk_tier_cases score) as [[H E]|[[H E]|[H E]]];
    rewrite E; (repeat split; try discriminate; try lia; try (intro; exfalso; lia));
    intro Hle;
    destruct (risk_tier_cases score') as [[H' E']|[[H' E']|[H' E']]];
    rewrite E'; simpl; lia.
Qed.

(** The tiers of the scores 0 to 7, and the rank of a later score. *)
Lemma risk_tier_breakpoints_witness :
  map risk_tier [0; 1; 2; 3; 4; 5; 6; 7]
  = [Low; Low; Low; Medium; Medium; Medium; High; High]
  /\ tier_rank (risk_tier 2) <= tier_rank (risk_tier 9).
Proof.
  split; [reflexivity|].
  apply (risk_tier_breakpoints 2 9). lia.
Defined.

Lemma failed_checks_from (l : list bool) (start : Z) :
  fold_left (fun total v => if negb v then total + 1 else total) l start
  = start + Z.of_nat (List.length (filter negb l)).
Proof.
  revert start. induction l as [|v l IH]; intro start; simpl.
  - lia.
  - rewrite IH. destruct v; simpl; lia.
Qed.

Lemma failed_checks_count (compliance : dict bool) :
  failed_checks compliance = Z.of_nat (List.length (filter negb (values compliance))).
Proof.
  unfold failed_checks. rewrite failed_checks_from. lia.
Qed.

(** C3.  The score that [calculate_risk_level] accumulates is the sum of 3
    for a public IP, 2 for an additional-info text that contains
    ["Encrypted: False"], 2 for an unused resource, 3 for a Production
    resource whose backup status contains ["No backup"], and 1 for each
    entry of the compliance map whose value is false; the tier returned is
    the tier of that sum.  The text tested is the one that the volume path
    writes.  The bucket path writes ["Encryption: Not Enabled"] for a
    bucket without encryption: the descriptor that the scan finishes for
    such a bucket says so in its additional-info text and in its
    encryption status, and scores 0, where the unencrypted sample volume
    scores 2 for its encryption. *)
Theorem risk_score_is_weighted_sum (resource : ResourceInfo) :
  risk_score resource
  = (if nonempty (public_ip resource) && negb (String.eqb (public_ip resource) "N/A")
     then 3 else 0)
    + (if contains "Encrypted: False" (additional_info resource) then 2 else 0)
    + (if is_unused resource then 2 else 0)
    + (if String.eqb (environment resource) "Production"
          && contains "No backup" (backup_status resource)
       then 3 else 0)
    + Z.of_nat (List.length
                  (filter (fun check : string * bool => negb (snd check))
                     (compliance_status resource)))
  /\ calculate_risk_level resource = risk_tier (risk_score resource)
  /\ risk_score
       (Cases.checked [("encrypted_volumes", false); ("imdsv2_enabled", true);
                       ("termination_protection", false)]) = 2
  /\ S3.bucket_step Samples.self Cases.open_bucket
     = Scan.Reach (Some false) false Cases.open_bucket_descriptor
  /\ additional_info Cases.open_bucket_descriptor
     = "Versioning: Disabled, Encryption: Not Enabled"%string
  /\ encryption_status Cases.open_bucket_descriptor = "Not Enabled"%string
  /\ risk_score Cases.open_bucket_descriptor = 0
  /\ risk Cases.open_bucket_descriptor = Low
  /\ EBS.volume_step Samples.self Samples.legacy_volume
     = Scan.Reach (Some false) true Cases.legacy_descriptor
  /\ additional_info Cases.legacy_descriptor
     = "IOPS: N/A, Encrypted: False, No snapshots"%string
  /\ risk_score Cases.legacy_descriptor = 2 + 2.
Proof.
  split.
  { unfold risk_score, failed_checks, values.
    rewrite failed_checks_from, filter_map_swap, List.length_map.
    destruct (nonempty (public_ip resource) && negb (String.eqb (public_ip resource) "N/A"));
      destruct (contains "Encrypted: False" (additional_info resource));
      destruct (is_unused resource);
      destruct (String.eqb (environment resource) "Production"
                && contains "No backup" (backup_status resource));
      (destruct (compliance_status resource) as [|c cs];
       [cbn [filter List.length]|]; lia). }
  split; [reflexivity|].
  repeat split; vm_compute; reflexivity.
Qed.

End RiskFacts.

(** ** Usage evaluators *)

Section UsageFacts.

Local Open Scope Q_scope.

Lemma maximum_below (bound : Q) (others : list Q) (first : Q) :
  EC2.maximum first others < bound
  <-> first < bound /\ Forall (fun x => x < bound) others.
Proof.
  unfold EC2.maximum. revert first.
  induction others as [|x others IH]; intro first; simpl.
  - split; [intro H; split; [exact H|constructor]|tauto].
  - rewrite IH. destruct (Qltb first x) eqn:E.
    + apply Qltb_lt in E. split.
      * intros [Hx Ho]. split; [exact (Qlt_trans _ _ _ E Hx)|now constructor].
      * intros [_ Ho]. inversion Ho; subst. tauto.
    + apply Qltb_ge in E. split.
      * intros [Hf Ho]. split; [exact Hf|].
        constructor; [exact (Qle_lt_trans _ _ _ E Hf)|exact Ho].
      * intros [Hf Ho]. inversion Ho; subst. tauto.
Qed.

Lemma total_from (l : list Q) (start : Q) :
  fold_left Qplus l start == start + fold_right Qplus 0 l.
Proof.
  revert start. induction l as [|x l IH]; intro start; cbn [fold_left fold_right].
  - ring.
  - rewrite IH. ring.
Qed.

(** The average of the evaluator is the sum of the values over their
    number. *)
Lemma average_spec (l : list Q) :
  EC2.average l == fold_right Qplus 0 l / inject_Z (Z.of_nat (List.length l)).
Proof.
  unfold EC2.average, EC2.total. now rewrite total_from, Qplus_0_l.
Qed.

(** C4.  For an instance with CPU datapoints, the evaluator answers
    "unused" iff the sum of the daily CPU averages over their number is
    below 2, every daily CPU maximum is below 10, and the first [Sum]
    datapoint of [NetworkIn] and the first one of [NetworkOut], in
    megabytes, are below 100, a metric without datapoint or whose call
    raises counting as 0.  The network amounts are the first datapoint of
    each answer and not the sum of the datapoints: an instance at 1 % CPU
    whose [NetworkIn] is answered with 60 MB and 70 MB, 130 MB in all, is
    called unused.  An instance at 9 % CPU is not. *)
Theorem ec2_idle_predicate :
  (forall (i : EC2.instance) (d : EC2.datapoint) (ds : list EC2.datapoint),
     EC2.cpu_statistics i = Ok (d :: ds) ->
     let first_mb (answer : response (list Q)) :=
       match answer with
       | Ok (sum :: _) => sum / inject_Z (1024 * 1024)
       | _ => 0
       end in
     snd (EC2.check_ec2_usage i) = true
     <-> fold_right Qplus 0 (map EC2.Average (d :: ds))
         / inject_Z (Z.of_nat (List.length (d :: ds))) < 2
         /\ Forall (fun p => EC2.Maximum p < 10) (d :: ds)
         /\ first_mb (EC2.network_in i) < 100
         /\ first_mb (EC2.network_out i) < 100)
  /\ EC2.network_in Cases.chatty_instance = Ok [62914560; 73400320]
  /\ (62914560 + 73400320) / inject_Z (1024 * 1024) == 130
  /\ EC2.check_ec2_usage Cases.chatty_instance
     = ("Avg CPU (7d): 1.00%, Max CPU: 5.00%, Network In: 60.00 MB, Network Out: 10.00 MB"%string,
        true)
  /\ EC2.check_ec2_usage Cases.warm_instance
     = ("Avg CPU (7d): 9.00%, Max CPU: 9.50%, Network In: 10.00 MB, Network Out: 10.00 MB"%string,
        false).
Proof.
  split.
  { intros i d ds Hcpu. cbv zeta. unfold EC2.check_ec2_usage.
    rewrite Hcpu. cbn [snd].
    rewrite !andb_true_iff, !Qltb_lt, maximum_below.
    rewrite Forall_cons_iff, Forall_map, average_spec, List.length_map.
    unfold EC2.get_metric_sum.
    destruct (EC2.network_in i) as [[|sum_in more_in]|];
      destruct (EC2.network_out i) as [[|sum_out more_out]|]; tauto. }
  repeat split; vm_compute; reflexivity.
Qed.

(** C5.  Without datapoints the evaluators of compute instances and of
    databases answer a degraded summary and "unused"; when the call to the
    metrics provider raises they answer a degraded summary and "not
    unused". *)
Theorem degraded_usage_defaults (silent unreachable : EC2.instance)
    (quiet failing : RDS.db_instance) :
  EC2.cpu_statistics silent = Ok [] ->
  EC2.cpu_statistics unreachable = Failed ->
  RDS.connections quiet = Ok [] ->
  RDS.connections failing = Failed ->
  EC2.check_ec2_usage silent = ("No metrics available"%string, true)
  /\ EC2.check_ec2_usage unreachable = ("Metrics unavailable"%string, false)
  /\ RDS.check_rds_usage quiet = ("No connection metrics available"%string, true)
  /\ RDS.check_rds_usage failing = ("Metrics unavailable"%string, false).
Proof.
  intros H1 H2 H3 H4.
  unfold EC2.check_ec2_usage, RDS.check_rds_usage.
  now rewrite H1, H2, H3, H4.
Qed.

Lemma degraded_usage_defaults_witness :
  EC2.check_ec2_usage Samples.silent_instance = ("No metrics available"%string, true)
  /\ EC2.check_ec2_usage Samples.unreachable_instance
     = ("Metrics unavailable"%string, false)
  /\ RDS.check_rds_usage (Samples.database (Ok []))
     = ("No connection metrics available"%string, true)
  /\ RDS.check_rds_usage (Samples.database Failed)
     = ("Metrics unavailable"%string, false).
Proof.
  apply (degraded_usage_defaults Samples.silent_instance Samples.unreachable_instance
           (Samples.database (Ok [])) (Samples.database Failed));
    reflexivity.
Defined.

End UsageFacts.

(** ** Cost estimators *)

Section CostFacts.

Local Open Scope string_scope.

Lemma dict_get_found {V : Type} (d : dict V) (k : string) (v default : V) :
  dict_get_opt d k = Some v -> dict_get d k default = v.
Proof. unfold dict_get. now intros ->. Qed.

Lemma dict_get_missing {V : Type} (d : dict V) (k : string) (default : V) :
  dict_get_opt d k = None -> dict_get d k default = default.
Proof. unfold dict_get. now intros ->. Qed.

(** C7.  The cost estimators of compute instances and of databases are
    functions of the type or class string alone and return the rendering
    of an amount for every string, never the marker of a failed
    estimation; equal inputs give equal results; a type of the table gets
    its table price; a type outside the table gets 100 per month, and a
    class outside the table 150 per month plus 20 for storage. *)
Theorem cost_estimators_fall_back
    (instance_type instance_type' instance_class instance_class' engine : string) :
  (EC2.estimate_ec2_cost instance_type = EC2.render_cost (EC2.monthly_cost instance_type)
   /\ EC2.estimate_ec2_cost instance_type <> "Cost estimation unavailable")
  /\ (RDS.estimate_rds_cost instance_class engine
      = RDS.render_cost (RDS.monthly_cost instance_class) RDS.storage_cost
      /\ RDS.estimate_rds_cost instance_class engine <> "Cost estimation unavailable")
  /\ (instance_type = instance_type' ->
      EC2.estimate_ec2_cost instance_type = EC2.estimate_ec2_cost instance_type')
  /\ (instance_class = instance_class' ->
      RDS.estimate_rds_cost instance_class engine
      = RDS.estimate_rds_cost instance_class' engine)
  /\ (forall price, dict_get_opt EC2.cost_map instance_type = Some price ->
      EC2.monthly_cost instance_type = price)
  /\ (forall price, dict_get_opt RDS.base_costs instance_class = Some price ->
      RDS.monthly_cost instance_class = price)
  /\ (dict_get_opt EC2.cost_map instance_type = None ->
      EC2.monthly_cost instance_type = 100%Q
      /\ EC2.estimate_ec2_cost instance_type = "$0.139/hr, $3.33/day, $100.00/month")
  /\ (dict_get_opt RDS.base_costs instance_class = None ->
      RDS.monthly_cost instance_class = 150%Z
      /\ RDS.storage_cost = 20%Z
      /\ RDS.estimate_rds_cost instance_class engine
         = "$170.00/month (instance: $150, storage: ~$20)").
Proof.
  repeat split.
  - unfold EC2.estimate_ec2_cost, EC2.render_cost. simpl. discriminate.
  - unfold RDS.estimate_rds_cost, RDS.render_cost. simpl. discriminate.
  - now intros ->.
  - now intros ->.
  - intros price H. now apply dict_get_found.
  - intros price H. now apply dict_get_found.
  - now apply dict_get_missing.
  - unfold EC2.estimate_ec2_cost, EC2.monthly_cost.
    rewrite (dict_get_missing _ _ _ H). reflexivity.
  - now apply dict_get_missing.
  - unfold RDS.estimate_rds_cost, RDS.monthly_cost.
    rewrite (dict_get_missing _ _ _ H). reflexivity.
Qed.

(** The fallback at a type and a class that the tables do not list. *)
Lemma cost_estimators_fall_back_witness :
  (EC2.monthly_cost "x9.mega" = 100%Q
   /\ EC2.estimate_ec2_cost "x9.mega" = "$0.139/hr, $3.33/day, $100.00/month")
  /\ (RDS.monthly_cost "db.x9.huge" = 150%Z
      /\ RDS.storage_cost = 20%Z
      /\ RDS.estimate_rds_cost "db.x9.huge" "postgres"
         = "$170.00/month (instance: $150, storage: ~$20)").
Proof.
  pose proof (cost_estimators_fall_back "x9.mega" "x9.mega" "db.x9.huge" "db.x9.huge"
                "postgres") as [_ [_ [_ [_ [_ [_ [Hec2 Hrds]]]]]]].
  split; [apply Hec2|apply Hrds]; reflexivity.
Defined.

End CostFacts.

(** ** Advisors *)

Section AdvisorFacts.

Local Open Scope string_scope.

(** C8.  A gp2 volume that is unattached and unencrypted gets the
    tier-upgrade, the snapshot-and-delete and the enable-encryption
    suggestions, whatever its size and whatever else is suggested. *)
Theorem legacy_volume_suggestions (self : monitor) (v : EBS.volume) :
  EBS.VolumeType v = "gp2" ->
  EBS.Attachments v = [] ->
  or_default (EBS.Encrypted v) false = false ->
  exists is_new is_unused resource,
    EBS.volume_step self v = Scan.Reach is_new is_unused resource
    /\ cost_optimization_suggestions resource
       = EBS.get_ebs_optimization_suggestions v false
    /\ In EBS.migrate_gp2 (cost_optimization_suggestions resource)
    /\ In EBS.snapshot_and_delete (cost_optimization_suggestions resource)
    /\ In EBS.enable_encryption (cost_optimization_suggestions resource).
Proof.
  intros Htype Hatt Henc.
  unfold EBS.volume_step. rewrite Hatt. cbn [List.length Nat.ltb Nat.leb negb andb].
  eexists _, _, _. split; [reflexivity|]. cbn [cost_optimization_suggestions set_risk set_suggestions].
  split; [reflexivity|].
  unfold EBS.get_ebs_optimization_suggestions.
  rewrite Htype, Henc. cbn [String.eqb Ascii.eqb Bool.eqb negb andb EBS.provisioned_iops orb].
  unfold append.
  destruct (500 <? EBS.Size v)%Z; simpl; tauto.
Qed.

(** The three suggestions on the 100 GB sample volume. *)
Lemma legacy_volume_suggestions_witness :
  exists is_new is_unused resource,
    EBS.volume_step Samples.self Samples.legacy_volume
    = Scan.Reach is_new is_unused resource
    /\ cost_optimization_suggestions resource
       = EBS.get_ebs_optimization_suggestions Samples.legacy_volume false
    /\ In EBS.migrate_gp2 (cost_optimization_suggestions resource)
    /\ In EBS.snapshot_and_delete (cost_optimization_suggestions resource)
    /\ In EBS.enable_encryption (cost_optimization_suggestions resource).
Proof.
  apply (legacy_volume_suggestions Samples.self Samples.legacy_volume); reflexivity.
Defined.

End AdvisorFacts.

(** ** New functions *)

Section LambdaFacts.

Local Open Scope Z_scope.

Lemma lambda_step_reaches (self : monitor) (f : Lambda.function)
    (tags : option (dict string)) :
  Lambda.tag_answer f = Ok tags ->
  exists resource,
    Lambda.function_step self f
    = Scan.Reach (Some (cutoff_time self <=? Lambda.LastModified f))
        (snd (Lambda.check_lambda_usage f)) resource
    /\ is_new resource = Some (cutoff_time self <=? Lambda.LastModified f)
    /\ is_unused resource = snd (Lambda.check_lambda_usage f).
Proof.
  intro Htags. unfold Lambda.function_step. rewrite Htags.
  destruct (Lambda.check_lambda_usage f) as [usage_info is_unused].
  eexists. split; [reflexivity|].
  destruct is_unused; destruct (1024 <? or_default (Lambda.MemorySize f) 128);
    split; reflexivity.
Qed.

(** C10.  The [is_new] flag of a function is decided by its last
    modification: the descriptor is flagged, and placed in the New
    collection, when the last modification the provider reports is at or
    after the cutoff, even for a function created before the cutoff; and a
    function created before the cutoff and never updated is not new. *)
Theorem lambda_new_by_last_modified (self : monitor) (f : Lambda.function)
    (h : Lambda.history) (tags : option (dict string)) :
  Lambda.tag_answer f = Ok tags ->
  Lambda.LastModified f = Lambda.reported_last_modified h ->
  exists is_unused resource,
    Lambda.function_step self f = Scan.Reach (is_new resource) is_unused resource
    /\ is_new resource = Some (cutoff_time self <=? Lambda.LastModified f)
    /\ (Lambda.created h < cutoff_time self ->
        cutoff_time self <= Lambda.reported_last_modified h ->
        truthy (is_new resource) = true
        /\ fst (Lambda.get_all_lambda_functions self (Ok [f])) = [resource])
    /\ (Lambda.updates h = [] ->
        Lambda.created h < cutoff_time self ->
        truthy (is_new resource) = false
        /\ fst (Lambda.get_all_lambda_functions self (Ok [f])) = []).
Proof.
  intros Htags Hlast.
  destruct (lambda_step_reaches self f tags Htags) as [resource [Hstep [Hnew Hunused]]].
  exists (snd (Lambda.check_lambda_usage f)), resource.
  rewrite Hnew. split; [exact Hstep|]. split; [reflexivity|].
  unfold Lambda.get_all_lambda_functions, Scan.fetch, Scan.for_each.
  rewrite Hstep. unfold Scan.place. cbn [truthy fst].
  split.
  - intros _ Hwithin. rewrite Hlast.
    destruct (Z.leb_spec (cutoff_time self) (Lambda.reported_last_modified h));
      [split; reflexivity|lia].
  - intros Hnever Hold. rewrite Hlast.
    unfold Lambda.reported_last_modified. rewrite Hnever. cbn [List.last].
    destruct (Z.leb_spec (cutoff_time self) (Lambda.created h));
      [lia|split; reflexivity].
Qed.

(** The sample function, created on day 10: updated half an hour before
    the scan of day 100 it is new, never updated it is not. *)
Lemma lambda_new_by_last_modified_witness :
  (exists is_unused resource,
     Lambda.function_step Samples.self Samples.touched_function
     = Scan.Reach (is_new resource) is_unused resource
     /\ truthy (is_new resource) = true
     /\ fst (Lambda.get_all_lambda_functions Samples.self (Ok [Samples.touched_function]))
        = [resource])
  /\ (exists is_unused resource,
        Lambda.function_step Samples.self Samples.old_function
        = Scan.Reach (is_new resource) is_unused resource
        /\ truthy (is_new resource) = false
        /\ fst (Lambda.get_all_lambda_functions Samples.self (Ok [Samples.old_function]))
           = []).
Proof.
  split.
  - destruct (lambda_new_by_last_modified Samples.self Samples.touched_function
                (Lambda.mkHistory (10 * day) [100 * day - 1800 * 1000000]) None
                eq_refl eq_refl)
      as [u [r [Hstep [_ [Hwithin _]]]]].
    exists u, r. split; [exact Hstep|].
    apply Hwithin; vm_compute; [reflexivity|discriminate].
  - destruct (lambda_new_by_last_modified Samples.self Samples.old_function
                (Lambda.mkHistory (10 * day) []) None eq_refl eq_refl)
      as [u [r [Hstep [_ [_ Hnever]]]]].
    exists u, r. split; [exact Hstep|].
    apply Hnever; [reflexivity|vm_compute; reflexivity].
Defined.

End LambdaFacts.

(** ** The general suggestions *)

Section GeneralSuggestionFacts.

Local Open Scope string_scope.

Lemma ec2_instance_suggestions_range (resource : ResourceInfo) (l : list string) :
  Advisor.ec2_instance_suggestions resource = Some l ->
  forall s, In s l ->
    s = Advisor.downsize \/ s = Advisor.review_sizing
    \/ s = Advisor.newer_generation \/ s = Advisor.reserved_instances.
Proof.
  unfold Advisor.ec2_instance_suggestions, append.
  destruct (contains "Avg CPU" (usage_info resource));
    [destruct (Advisor.search_avg_cpu (usage_info resource)); [|discriminate];
     destruct (float_plain s); [|discriminate];
     destruct (Qltb q 5); [|destruct (Qltb q 20)]|];
    destruct (startswith_any _ (instance_type resource));
    destruct (String.eqb (environment resource) "Production"
              && String.eqb (state resource) "running");
    intro H; inversion H; subst; simpl; intros s0 Hin;
    repeat (destruct Hin as [Hin|Hin]; [subst; tauto|]); contradiction.
Qed.

(** What the type-specific branches can suggest is never the tagging
    suggestion. *)
Lemma by_type_never_tagging (resource : ResourceInfo) (l : list string) :
  (if String.eqb (resource_type resource) "EC2 Instance"
   then Advisor.ec2_instance_suggestions resource
   else if String.eqb (resource_type resource) "EBS Volume"
   then Some (Advisor.ebs_volume_suggestions resource)
   else if contains "Load Balancer" (resource_type resource)
   then Some (Advisor.load_balancer_suggestions resource)
   else Some []) = Some l ->
  ~ In Advisor.add_tagging l.
Proof.
  destruct (String.eqb (resource_type resource) "EC2 Instance").
  - intros H Hin.
    destruct (ec2_instance_suggestions_range resource l H _ Hin)
      as [E|[E|[E|E]]]; discriminate E.
  - destruct (String.eqb (resource_type resource) "EBS Volume");
      [|destruct (contains "Load Balancer" (resource_type resource))];
      intro H; inversion H; subst;
      unfold Advisor.ebs_volume_suggestions, Advisor.load_balancer_suggestions, append;
      try destruct (contains "gp2" (usage_info resource));
      destruct (is_unused resource); simpl; intro Hin;
      repeat (destruct Hin as [Hin|Hin]; [discriminate Hin|]); contradiction.
Qed.

(** On every descriptor it is called on, the generic advisor reminds of
    the savings of an unused resource, and suggests tagging exactly when
    there are fewer than 3 tags. *)
Lemma generic_advisor_general_suggestions (resource : ResourceInfo) (l : list string) :
  Advisor.get_cost_optimization_suggestions resource = Some l ->
  (is_unused resource = true ->
   In (Advisor.savings_reminder (estimated_cost resource)) l)
  /\ ((List.length (tags resource) < 3)%nat <-> In Advisor.add_tagging l).
Proof.
  unfold Advisor.get_cost_optimization_suggestions.
  match goal with |- option_map _ ?b = _ -> _ => destruct b as [by_type|] eqn:Hby end;
    [|discriminate].
  pose proof (by_type_never_tagging resource by_type Hby) as Hnever.
  cbn [option_map]. intro H. inversion H as [Hl]. clear H.
  unfold Advisor.general_suggestions, append.
  split.
  - intros ->. destruct (tags resource) as [|t ts];
      [|destruct (Z.of_nat (List.length (t :: ts)) <? 3)%Z];
      rewrite ?in_app_iff; simpl; tauto.
  - assert (Hsav : Advisor.add_tagging
                   <> Advisor.savings_reminder (estimated_cost resource))
      by (unfold Advisor.savings_reminder; simpl; discriminate).
    destruct (is_unused resource); destruct (tags resource) as [|t ts] eqn:Et.
    + rewrite !in_app_iff. cbn [In List.length]. split; [tauto|lia].
    + destruct (Z.ltb_spec (Z.of_nat (List.length (t :: ts))) 3).
      * rewrite !in_app_iff. cbn [In]. split; [tauto|intros _; lia].
      * rewrite in_app_iff. cbn [In]. split; [lia|].
        intros [Hin|[Heq|[]]]; [contradiction|]. symmetry in Heq. contradiction.
    + rewrite in_app_iff. cbn [In List.length]. split; [tauto|lia].
    + destruct (Z.ltb_spec (Z.of_nat (List.length (t :: ts))) 3).
      * rewrite in_app_iff. cbn [In]. split; [tauto|intros _; lia].
      * split; [lia|]. intro Hin. contradiction.
Qed.

(** The compute path runs the generic advisor, so its descriptors carry
    the general suggestions. *)
Lemma ec2_path_general_suggestions (self : monitor) (i : EC2.instance)
    (is_new : option bool) (is_unused' : bool) (resource : ResourceInfo) :
  EC2.instance_step self i = Scan.Reach is_new is_unused' resource ->
  (is_unused resource = true ->
   In (Advisor.savings_reminder (estimated_cost resource))
      (cost_optimization_suggestions resource))
  /\ ((List.length (tags resource) < 3)%nat
      <-> In Advisor.add_tagging (cost_optimization_suggestions resource)).
Proof.
  unfold EC2.instance_step.
  destruct (String.eqb (EC2.State_Name i) "terminated"); [discriminate|].
  destruct (EC2.check_ec2_usage i) as [usage unused].
  match goal with
  | |- match Advisor.get_cost_optimization_suggestions ?r with _ => _ end = _ -> _ =>
      destruct (Advisor.get_cost_optimization_suggestions r) as [l|] eqn:Hl;
      [pose proof (generic_advisor_general_suggestions r l Hl) as Hgen|discriminate]
  end.
  intro H. inversion H; subst. exact Hgen.
Qed.

(** C6, on the function path of the code.  The sample function is unused
    and has no tag, and its suggestion list is the single
    function-specific suggestion: it holds neither the savings reminder
    nor the tagging suggestion, which only the generic advisor appends and
    which only the compute path calls. *)
Theorem lambda_path_lacks_general_suggestions :
  exists resource,
    Lambda.function_step Samples.self Samples.old_function
    = Scan.Reach (Some false) true resource
    /\ is_unused resource = true
    /\ tags resource = []
    /\ cost_optimization_suggestions resource = [Lambda.delete_unused_function]
    /\ ~ In (Advisor.savings_reminder (estimated_cost resource))
         (cost_optimization_suggestions resource)
    /\ ~ In Advisor.add_tagging (cost_optimization_suggestions resource).
Proof.
  eexists. split; [vm_compute; reflexivity|].
  repeat split; simpl; intros [H|[]]; discriminate H.
Qed.

End GeneralSuggestionFacts.

(** ** The two collections *)

Section LoopFacts.

Context {I : Type} (body : I -> Scan.step).

(** The local flags a loop body places a descriptor by are the flags it
    stored in the descriptor. *)
Hypothesis stored_flags :
  forall item is_new' is_unused' resource,
    body item = Scan.Reach is_new' is_unused' resource ->
    is_new resource = is_new' /\ is_unused resource = is_unused'.

Lemma for_each_filters (items : list I) (acc : Scan.collections) :
  Scan.for_each body items acc
  = (fst acc ++ filter Scan.flagged_new (Scan.produced body items),
     snd acc ++ filter Scan.flagged_unused_only (Scan.produced body items)).
Proof.
  revert acc. induction items as [|item rest IH]; intros [new_resources unused_resources].
  - simpl. now rewrite !app_nil_r.
  - simpl. destruct (body item) as [| |n u r] eqn:Hbody.
    + apply IH.
    + simpl. now rewrite !app_nil_r.
    + destruct (stored_flags _ _ _ _ Hbody) as [Hn Hu].
      rewrite IH. unfold Scan.place, append.
      cbn [filter fst snd]. unfold Scan.flagged_new, Scan.flagged_unused_only.
      rewrite Hn, Hu.
      destruct (truthy n); destruct u; cbn [andb negb];
        now rewrite <- ?app_assoc.
Qed.

Lemma fetch_filters (listing : response (list I)) (acc : Scan.collections) :
  Scan.fetch body listing acc
  = (fst acc ++ filter Scan.flagged_new (Scan.fetched body listing),
     snd acc ++ filter Scan.flagged_unused_only (Scan.fetched body listing)).
Proof.
  destruct listing as [items|]; simpl.
  - apply for_each_filters.
  - destruct acc. now rewrite !app_nil_r.
Qed.

End LoopFacts.

Section PlacementFacts.

Variable self : monitor.

Ltac flags_of_step :=
  repeat match goal with
         | |- context [if ?c then set_suggestions _ _ else _] => destruct c
         end;
  intro H; inversion H; subst; split; reflexivity.

Lemma instance_step_flags (i : EC2.instance) n u r :
  EC2.instance_step self i = Scan.Reach n u r -> is_new r = n /\ is_unused r = u.
Proof.
  unfold EC2.instance_step.
  destruct (String.eqb (EC2.State_Name i) "terminated"); [discriminate|].
  destruct (EC2.check_ec2_usage i).
  destruct (Advisor.get_cost_optimization_suggestions _); [|discriminate].
  flags_of_step.
Qed.

Lemma classic_step_flags (lb : ELB.classic) n u r :
  ELB.classic_step self lb = Scan.Reach n u r -> is_new r = n /\ is_unused r = u.
Proof. unfold ELB.classic_step. flags_of_step. Qed.

Lemma balancer_step_flags (lb : ELB.balancer) n u r :
  ELB.balancer_step self lb = Scan.Reach n u r -> is_new r = n /\ is_unused r = u.
Proof.
  unfold ELB.balancer_step.
  destruct (ELB.tag_descriptions lb); [|discriminate].
  destruct (ELB.check_lb_usage lb).
  destruct (ELB.listeners lb); [|discriminate].
  flags_of_step.
Qed.

Lemma volume_step_flags (v : EBS.volume) n u r :
  EBS.volume_step self v = Scan.Reach n u r -> is_new r = n /\ is_unused r = u.
Proof. unfold EBS.volume_step. flags_of_step. Qed.

Lemma address_step_flags (eip : EIP.address) n u r :
  EIP.address_step self eip = Scan.Reach n u r -> is_new r = n /\ is_unused r = u.
Proof.
  unfold EIP.address_step.
  destruct (EIP.AllocationId eip); [|discriminate].
  flags_of_step.
Qed.

Lemma db_step_flags (db : RDS.db_instance) n u r :
  RDS.db_step self db = Scan.Reach n u r -> is_new r = n /\ is_unused r = u.
Proof.
  unfold RDS.db_step.
  destruct (RDS.tag_answer db); [|discriminate].
  destruct (RDS.check_rds_usage db).
  flags_of_step.
Qed.

Lemma bucket_step_flags (b : S3.bucket) n u r :
  S3.bucket_step self b = Scan.Reach n u r -> is_new r = n /\ is_unused r = u.
Proof.
  unfold S3.bucket_step.
  destruct (S3.get_s3_bucket_metrics b).
  flags_of_step.
Qed.

Lemma function_step_flags (f : Lambda.function) n u r :
  Lambda.function_step self f = Scan.Reach n u r -> is_new r = n /\ is_unused r = u.
Proof.
  unfold Lambda.function_step.
  destruct (Lambda.tag_answer f); [|discriminate].
  destruct (Lambda.check_lambda_usage f).
  flags_of_step.
Qed.

(** The collections of a scan are the finished descriptors filtered by
    their flags, in the order of the scan. *)
Lemma collect_filters (a : Run.account) :
  Run.collect self a
  = (filter Scan.flagged_new (Run.descriptors self a),
     filter Scan.flagged_unused_only (Run.descriptors self a)).
Proof.
  unfold Run.collect, Run.resource_fetchers, Run.descriptors.
  unfold EC2.get_all_ec2_instances, ELB.get_all_load_balancers,
    EBS.get_all_ebs_volumes, EIP.get_all_elastic_ips, RDS.get_all_rds_instances,
    S3.get_all_s3_buckets, Lambda.get_all_lambda_functions.
  rewrite (fetch_filters _ instance_step_flags).
  rewrite (fetch_filters _ balancer_step_flags).
  rewrite (fetch_filters _ classic_step_flags).
  rewrite (fetch_filters _ volume_step_flags).
  rewrite (fetch_filters _ address_step_flags).
  rewrite (fetch_filters _ db_step_flags).
  rewrite (fetch_filters _ bucket_step_flags).
  rewrite (fetch_filters _ function_step_flags).
  cbn [fold_left fst snd app].
  now rewrite !filter_app, <- !app_assoc.
Qed.

(** C1.  A descriptor finished during a scan is in the New collection iff
    its [is_new] flag is true, and in the Unused collection iff its
    [is_unused] flag is true and its [is_new] flag is not; so no
    descriptor is in both collections. *)
Theorem placement_by_flags (a : Run.account) (r : ResourceInfo) :
  (In r (fst (Run.collect self a))
   <-> In r (Run.descriptors self a) /\ truthy (is_new r) = true)
  /\ (In r (snd (Run.collect self a))
      <-> In r (Run.descriptors self a)
          /\ is_unused r = true /\ truthy (is_new r) = false)
  /\ ~ (In r (fst (Run.collect self a)) /\ In r (snd (Run.collect self a))).
Proof.
  rewrite collect_filters. cbn [fst snd]. rewrite !filter_In.
  unfold Scan.flagged_new, Scan.flagged_unused_only.
  rewrite andb_true_iff, negb_true_iff.
  repeat split; try tauto.
  intros [[_ Hnew] [_ [_ Hold]]]. congruence.
Qed.

End PlacementFacts.

(** ** Cost totals *)

Section TotalFacts.

Variable num : Type.
Variable zero : num.
Variable add : num -> num -> num.
Variable float : string -> option num.

Local Abbreviation monthly_amount := (Report.monthly_amount num float).
Local Abbreviation parseable := (Report.parseable num float).
Local Abbreviation amounts := (Report.amounts num float).
Local Abbreviation add_cost := (Report.add_cost num add float).
Local Abbreviation sum_of := (Report.sum_of num zero add).

(** One turn of a cost loop adds the monthly amount, if there is one. *)
Lemma add_cost_amount (total : num) (r : ResourceInfo) :
  add_cost total r
  = match monthly_amount (estimated_cost r) with
    | Some amount => add total amount
    | None => total
    end.
Proof.
  unfold Report.add_cost, Report.try_add, Report.monthly_amount.
  destruct (contains "$" (estimated_cost r) && contains "month" (estimated_cost r));
    [|reflexivity].
  destruct (Report.cost_str (estimated_cost r)) as [s|]; [|reflexivity].
  now destruct (float (replace "," "" s)).
Qed.

Lemma fold_add_cost (resources : list ResourceInfo) (total : num) :
  fold_left add_cost resources total = fold_left add (amounts resources) total.
Proof.
  revert total. induction resources as [|r rest IH]; intro total; [reflexivity|].
  cbn [fold_left]. rewrite IH, add_cost_amount.
  unfold Report.amounts. cbn [flat_map].
  now destruct (monthly_amount (estimated_cost r)).
Qed.

Lemma amounts_of_parseable (resources : list ResourceInfo) :
  amounts (filter parseable resources) = amounts resources.
Proof.
  induction resources as [|r rest IH]; [reflexivity|].
  cbn [filter]. unfold Report.parseable at 1.
  destruct (monthly_amount (estimated_cost r)) as [amount|] eqn:E.
  - unfold Report.amounts in *. cbn [flat_map]. now rewrite E, IH.
  - rewrite IH. unfold Report.amounts. cbn [flat_map]. now rewrite E.
Qed.

(** C9.  A descriptor whose cost string lacks the ['$'] or the ['month']
    marker, or whose amount text is refused by [float], is not parseable;
    a descriptor that is not parseable leaves a total as it is; and the
    savings total and the cost total are the sums, in order, of the
    amounts of the parseable descriptors of their lists.  The totals are
    functions defined on every list: no cost string makes them fail. *)
Theorem unparseable_costs_are_skipped (new_resources unused_resources : list ResourceInfo) :
  (forall r, contains "$" (estimated_cost r) = false
             \/ contains "month" (estimated_cost r) = false ->
             parseable r = false)
  /\ (forall r s, Report.cost_str (estimated_cost r) = Some s ->
                  float (replace "," "" s) = None ->
                  parseable r = false)
  /\ (forall r total, parseable r = false -> add_cost total r = total)
  /\ Report.total_monthly_savings num zero add float unused_resources
     = sum_of (amounts (filter parseable unused_resources))
  /\ Report.total_monthly_cost num zero add float new_resources unused_resources
     = sum_of (amounts (filter parseable (new_resources ++ unused_resources))).
Proof.
  repeat split.
  - intros r H. unfold Report.parseable, Report.monthly_amount.
    destruct H as [H|H]; rewrite H; [reflexivity|].
    now rewrite andb_false_r.
  - intros r s Hs Hf. unfold Report.parseable, Report.monthly_amount.
    rewrite Hs, Hf. now destruct (_ && _).
  - intros r total H. rewrite add_cost_amount.
    unfold Report.parseable in H.
    now destruct (monthly_amount (estimated_cost r)).
  - unfold Report.total_monthly_savings, Report.sum_of.
    now rewrite fold_add_cost, amounts_of_parseable.
  - unfold Report.total_monthly_cost, Report.sum_of.
    now rewrite fold_add_cost, amounts_of_parseable.
Qed.

End TotalFacts.

(** The totals over rational amounts: a new compute instance whose cost
    string starts with its hourly amount, a database, a resource without
    an estimate and a floating address.  Only the database and the address
    are parseable; the savings are 170 + 3.60. *)
Lemma unparseable_costs_are_skipped_witness :
  let new_resources := [Samples.costing "$0.139/hr, $3.33/day, $100.00/month"] in
  let unused_resources :=
    [ Samples.costing "$170.00/month (instance: $150, storage: ~$20)";
      Samples.costing "Cost estimation unavailable";
      Samples.costing "$3.60/month" ] in
  Report.parseable Q float_plain (Samples.costing "Cost estimation unavailable") = false
  /\ Report.parseable Q float_plain
       (Samples.costing "$0.139/hr, $3.33/day, $100.00/month") = false
  /\ Report.add_cost Q Qplus float_plain 170
       (Samples.costing "Cost estimation unavailable") = 170
  /\ Report.total_monthly_savings Q 0 Qplus float_plain unused_resources
     = Report.sum_of Q 0 Qplus [170.00; 3.60]
  /\ Report.total_monthly_cost Q 0 Qplus float_plain new_resources unused_resources
     = Report.sum_of Q 0 Qplus [170.00; 3.60].
Proof.
  intros new_resources unused_resources.
  destruct (unparseable_costs_are_skipped Q 0 Qplus float_plain
              new_resources unused_resources)
    as [Hmarker [Hfloat [Hskip [Hsavings Hcost]]]].
  split; [apply Hmarker; left; reflexivity|].
  split; [apply (Hfloat _ "0.139/hr,"%string); reflexivity|].
  split; [apply Hskip, Hmarker; left; reflexivity|].
  split; [exact Hsavings|exact Hcost].
Defined.

(** ** The tagging suggestion across the families *)

Section TaggingFacts.

Variable self : monitor.

Local Open Scope string_scope.

Lemma produced_from_step {I : Type} (body : I -> Scan.step) (items : list I)
    (r : ResourceInfo) :
  In r (Scan.produced body items) ->
  exists item is_new' is_unused', body item = Scan.Reach is_new' is_unused' r.
Proof.
  induction items as [|item rest IH]; simpl; [contradiction|].
  destruct (body item) as [| |n u r'] eqn:Hbody; [exact IH|contradiction|].
  intros [->|Hin]; [now exists item, n, u|now apply IH].
Qed.

Lemma fetched_from_step {I : Type} (body : I -> Scan.step)
    (listing : response (list I)) (r : ResourceInfo) :
  In r (Scan.fetched body listing) ->
  exists item is_new' is_unused', body item = Scan.Reach is_new' is_unused' r.
Proof.
  destruct listing as [items|]; simpl; [apply produced_from_step|contradiction].
Qed.

Ltac no_tagging :=
  let H := fresh "H" in
  let Hin := fresh "Hin" in
  intro H; inversion H; subst;
  cbn [cost_optimization_suggestions set_risk set_suggestions];
  unfold append; simpl; intro Hin;
  repeat (destruct Hin as [Hin|Hin]; [discriminate Hin|]); contradiction.

Lemma classic_step_no_tagging (lb : ELB.classic) n u r :
  ELB.classic_step self lb = Scan.Reach n u r ->
  ~ In Advisor.add_tagging (cost_optimization_suggestions r).
Proof.
  unfold ELB.classic_step.
  destruct (List.length (ELB.Instances lb) =? 0)%nat; no_tagging.
Qed.

Lemma balancer_step_no_tagging (lb : ELB.balancer) n u r :
  ELB.balancer_step self lb = Scan.Reach n u r ->
  ~ In Advisor.add_tagging (cost_optimization_suggestions r).
Proof.
  unfold ELB.balancer_step.
  destruct (ELB.tag_descriptions lb); [|discriminate].
  destruct (ELB.check_lb_usage lb) as [usage unused].
  destruct (ELB.listeners lb); [|discriminate].
  destruct unused;
    destruct (String.eqb (ELB.Type_ lb) "application" && _); no_tagging.
Qed.

Lemma volume_step_no_tagging (v : EBS.volume) n u r :
  EBS.volume_step self v = Scan.Reach n u r ->
  ~ In Advisor.add_tagging (cost_optimization_suggestions r).
Proof.
  unfold EBS.volume_step, EBS.get_ebs_optimization_suggestions.
  destruct (String.eqb (EBS.VolumeType v) "gp2");
    destruct (negb (0 <? List.length (EBS.Attachments v))%nat);
    destruct (EBS.provisioned_iops (EBS.VolumeType v)
              && (10000 <? or_default (EBS.Iops v) 0)%Z);
    destruct (500 <? EBS.Size v)%Z;
    destruct (negb (or_default (EBS.Encrypted v) false));
    no_tagging.
Qed.

Lemma address_step_no_tagging (eip : EIP.address) n u r :
  EIP.address_step self eip = Scan.Reach n u r ->
  ~ In Advisor.add_tagging (cost_optimization_suggestions r).
Proof.
  unfold EIP.address_step.
  destruct (EIP.AllocationId eip); [|discriminate].
  destruct (negb (EIP.present (EIP.InstanceId eip)
                  || EIP.present (EIP.NetworkInterfaceId eip))) eqn:E;
    rewrite ?E; no_tagging.
Qed.

Lemma db_step_no_tagging (db : RDS.db_instance) n u r :
  RDS.db_step self db = Scan.Reach n u r ->
  ~ In Advisor.add_tagging (cost_optimization_suggestions r).
Proof.
  unfold RDS.db_step, RDS.get_rds_optimization_suggestions.
  destruct (RDS.tag_answer db); [|discriminate].
  destruct (RDS.check_rds_usage db).
  destruct (startswith_any _ (RDS.DBInstanceClass db));
    destruct (or_default (RDS.MultiAZ db) false && _);
    destruct (7 <? or_default (RDS.BackupRetentionPeriod db) 0)%Z;
    no_tagging.
Qed.

Lemma bucket_step_no_tagging (b : S3.bucket) n u r :
  S3.bucket_step self b = Scan.Reach n u r ->
  ~ In Advisor.add_tagging (cost_optimization_suggestions r).
Proof.
  unfold S3.bucket_step, S3.get_s3_optimization_suggestions.
  destruct (S3.get_s3_bucket_metrics b) as [info unused].
  destruct unused;
    destruct (String.eqb _ "Enabled");
    destruct (String.eqb _ "Not Enabled");
    destruct (S3.lifecycle_answer b);
    no_tagging.
Qed.

Lemma function_step_no_tagging (f : Lambda.function) n u r :
  Lambda.function_step self f = Scan.Reach n u r ->
  ~ In Advisor.add_tagging (cost_optimization_suggestions r).
Proof.
  unfold Lambda.function_step.
  destruct (Lambda.tag_answer f); [|discriminate].
  destruct (Lambda.check_lambda_usage f) as [usage unused].
  destruct unused; destruct (1024 <? or_default (Lambda.MemorySize f) 128)%Z;
    no_tagging.
Qed.

(** In every family, a descriptor with three tags or more never carries
    the tagging suggestion. *)
Lemma tagging_only_below_three_tags (a : Run.account) (r : ResourceInfo) :
  In r (Run.descriptors self a) ->
  In Advisor.add_tagging (cost_optimization_suggestions r) ->
  (List.length (tags r) < 3)%nat.
Proof.
  unfold Run.descriptors. rewrite !in_app_iff.
  intros [H|[H|[H|[H|[H|[H|[H|H]]]]]]] Htag;
    apply fetched_from_step in H; destruct H as [item [n [u Hstep]]].
  - now apply (ec2_path_general_suggestions self item n u r Hstep).
  - now apply classic_step_no_tagging in Hstep.
  - now apply balancer_step_no_tagging in Hstep.
  - now apply volume_step_no_tagging in Hstep.
  - now apply address_step_no_tagging in Hstep.
  - now apply db_step_no_tagging in Hstep.
  - now apply bucket_step_no_tagging in Hstep.
  - now apply function_step_no_tagging in Hstep.
Qed.

End TaggingFacts.

(** ** Scenarios *)

Section Scenarios.

Local Open Scope string_scope.

(** The idle Production instance: 1% average and 5% maximum CPU, 10 MB in
    and out, two tags, running, no public address.  It is unused, it is
    advised to downsize and to tag, and its risk is Medium (2 for being
    unused, 3 for Production without backup). *)
Example idle_production_instance :
  exists resource,
    EC2.instance_step Samples.self Samples.idle_instance
    = Scan.Reach (Some true) true resource
    /\ usage_info resource
       = "Avg CPU (7d): 1.00%, Max CPU: 5.00%, Network In: 10.00 MB, Network Out: 10.00 MB"
    /\ environment resource = "Production"
    /\ cost_optimization_suggestions resource
       = [ Advisor.downsize; Advisor.newer_generation; Advisor.reserved_instances;
           Advisor.savings_reminder "$0.012/hr, $0.28/day, $8.50/month";
           Advisor.add_tagging ]
    /\ Risk.risk_score resource = 5%Z
    /\ risk resource = Medium.
Proof.
  eexists. split; [vm_compute; reflexivity|].
  repeat split; vm_compute; reflexivity.
Qed.

(** A scan of the sample account: the idle instance is new, and unused
    as well; the legacy volume and the old function are unused and not
    new. *)
Example sample_scan :
  map resource_id (fst (Run.collect Samples.self Samples.sample_account))
  = ["i-0a1"]
  /\ map resource_id (snd (Run.collect Samples.self Samples.sample_account))
     = ["vol-0b2"; "nightly-report"]
  /\ map is_unused (fst (Run.collect Samples.self Samples.sample_account)) = [true].
Proof. repeat split; vm_compute; reflexivity. Qed.

(** The cost string of a compute instance starts with its hourly amount,
    so the cost loops of the reports pass over it; the string of a
    database is read as its monthly total. *)
Example compute_cost_is_skipped :
  Report.monthly_amount Q float_plain (EC2.estimate_ec2_cost "t3.micro") = None
  /\ Report.monthly_amount Q float_plain (RDS.estimate_rds_cost "db.t3.micro" "mysql")
     = Some 35.00%Q.
Proof. split; vm_compute; reflexivity. Qed.

End Scenarios.

(** * Further properties *)

(** ** The tagging suggestion on a scanned descriptor *)

(** The descriptor of the idle sample instance carries the tagging
    suggestion, and has two tags. *)
Lemma tagging_only_below_three_tags_witness :
  (List.length (tags Cases.idle_descriptor) < 3)%nat.
Proof.
  apply (tagging_only_below_three_tags Samples.self Samples.sample_account
           Cases.idle_descriptor).
  - vm_compute. left. reflexivity.
  - vm_compute. do 4 right. left. reflexivity.
Defined.

(** ** Loops that end on an exception *)

Section RaiseFacts.

Variable self : monitor.

Lemma for_each_stops_at_raise {I : Type} (body : I -> Scan.step)
    (before after : list I) (item : I) (acc : Scan.collections) :
  body item = Scan.Raise ->
  Scan.for_each body (before ++ item :: after) acc = Scan.for_each body before acc.
Proof.
  intro Hraise. revert acc.
  induction before as [|first rest IH]; intro acc; simpl.
  - now rewrite Hraise.
  - destruct (body first); [apply IH|reflexivity|apply IH].
Qed.

(** A database or a function whose tag lookup raises, or a load balancer
    whose tag or listener lookup raises, ends the loop of its family: the
    resources listed before it are kept, and the ones listed after it are
    never looked at, whatever they are. *)
Theorem raising_resource_hides_later_ones
    (db : RDS.db_instance) (dbs dbs' : list RDS.db_instance)
    (f : Lambda.function) (fs fs' : list Lambda.function)
    (lb : ELB.balancer) (lbs lbs' : list ELB.balancer)
    (classics : response (list ELB.classic)) :
  RDS.tag_answer db = Failed ->
  Lambda.tag_answer f = Failed ->
  ELB.tag_descriptions lb = Failed \/ ELB.listeners lb = Failed ->
  RDS.get_all_rds_instances self (Ok (dbs ++ db :: dbs'))
  = RDS.get_all_rds_instances self (Ok dbs)
  /\ Lambda.get_all_lambda_functions self (Ok (fs ++ f :: fs'))
     = Lambda.get_all_lambda_functions self (Ok fs)
  /\ ELB.get_all_load_balancers self classics (Ok (lbs ++ lb :: lbs'))
     = ELB.get_all_load_balancers self classics (Ok lbs).
Proof.
  intros Hdb Hf Hlb.
  unfold RDS.get_all_rds_instances, Lambda.get_all_lambda_functions,
    ELB.get_all_load_balancers, Scan.fetch.
  repeat split; apply for_each_stops_at_raise.
  - unfold RDS.db_step. now rewrite Hdb.
  - unfold Lambda.function_step. now rewrite Hf.
  - unfold ELB.balancer_step. destruct Hlb as [Hlb|Hlb]; rewrite Hlb; [reflexivity|].
    destruct (ELB.tag_descriptions lb); [|reflexivity].
    now destruct (ELB.check_lb_usage lb).
Qed.

End RaiseFacts.

(** Two databases around one whose tag lookup raises: only the first is
    reported.  The same for a function and for a load balancer. *)
Lemma raising_resource_hides_later_ones_witness :
  map resource_id
    (snd (RDS.get_all_rds_instances Samples.self
            (Ok [Cases.database "first" (Ok []); Cases.database "second" Failed;
                 Cases.database "third" (Ok [])])))
  = ["first"%string]
  /\ Lambda.get_all_lambda_functions Samples.self
       (Ok [Cases.untagged_function; Samples.old_function])
     = ([], [])
  /\ ELB.get_all_load_balancers Samples.self Failed
       (Ok [Cases.balancer Failed; Cases.balancer (Ok [])])
     = ([], []).
Proof.
  destruct (raising_resource_hides_later_ones Samples.self
              (Cases.database "second" Failed)
              [Cases.database "first" (Ok [])] [Cases.database "third" (Ok [])]
              Cases.untagged_function [] [Samples.old_function]
              (Cases.balancer Failed) [] [Cases.balancer (Ok [])] Failed
              eq_refl eq_refl (or_intror eq_refl))
    as [Hdb [Hf Hlb]].
  split; [|split].
  - change ([Cases.database "first" (Ok []); Cases.database "second" Failed;
             Cases.database "third" (Ok [])])
      with ([Cases.database "first" (Ok [])]
            ++ Cases.database "second" Failed :: [Cases.database "third" (Ok [])]).
    rewrite Hdb. vm_compute. reflexivity.
  - change ([Cases.untagged_function; Samples.old_function])
      with ([] ++ Cases.untagged_function :: [Samples.old_function]).
    rewrite Hf. reflexivity.
  - change ([Cases.balancer Failed; Cases.balancer (Ok [])])
      with ([] ++ Cases.balancer Failed :: [Cases.balancer (Ok [])]).
    rewrite Hlb. reflexivity.
Defined.

(** ** Counts of the collections *)

Section CountFacts.

Variable self : monitor.

Lemma count_if_from {A : Type} (test : A -> bool) (l : list A) (start : Z) :
  fold_left (fun total x => if test x then (total + 1)%Z else total) l start
  = (start + Z.of_nat (List.length (filter test l)))%Z.
Proof.
  revert start. induction l as [|x l IH]; intro start; simpl; [lia|].
  rewrite IH. destruct (test x); simpl; lia.
Qed.

Lemma count_if_length {A : Type} (test : A -> bool) (l : list A) :
  Collections.count_if test l = Z.of_nat (List.length (filter test l)).
Proof. unfold Collections.count_if. rewrite count_if_from. lia. Qed.

Lemma split_by_flags (ds : list ResourceInfo) :
  (List.length (filter Scan.flagged_new ds)
   + List.length (filter Scan.flagged_unused_only ds) <= List.length ds)%nat
  /\ (List.length (filter is_unused (filter Scan.flagged_new ds))
      + List.length (filter Scan.flagged_unused_only ds)
      = List.length (filter is_unused ds))%nat.
Proof.
  induction ds as [|d ds [IH1 IH2]]; [split; reflexivity|].
  unfold Scan.flagged_new, Scan.flagged_unused_only in *.
  cbn [filter].
  destruct (truthy (is_new d)); destruct (is_unused d) eqn:Hu;
    cbn [andb negb filter List.length]; rewrite ?Hu; cbn [List.length];
    split; lia.
Qed.

(** Each finished descriptor is reported at most once, so the "total
    monitored" of the notification, the sum of the two lengths, never
    exceeds the number of descriptors; and the count of new-and-unused
    resources plus the length of the Unused collection is the number of
    unused descriptors of the scan. *)
Theorem collections_count_once (a : Run.account) :
  (List.length (fst (Run.collect self a)) + List.length (snd (Run.collect self a))
   <= List.length (Run.descriptors self a))%nat
  /\ (Slack.new_unused_count (fst (Run.collect self a))
      + Z.of_nat (List.length (snd (Run.collect self a)))
      = Z.of_nat (List.length (filter is_unused (Run.descriptors self a))))%Z.
Proof.
  rewrite collect_filters. cbn [fst snd].
  unfold Slack.new_unused_count. rewrite count_if_length.
  destruct (split_by_flags (Run.descriptors self a)) as [H1 H2].
  split; [exact H1|lia].
Qed.

End CountFacts.

(** ** The compliance map and the range of the risk score *)

Section ScoreFacts.

Variable self : monitor.

Local Open Scope string_scope.

(** The compliance map of an instance always has the same six checks in
    the same order; the check of the security groups always passes, so at
    most five checks fail; and when the termination attribute cannot be
    read, termination protection counts as off. *)
Theorem compliance_map_shape (i : EC2.instance) :
  keys (EC2.analyze_security_compliance i)
  = [ "public_ip_restricted"; "encrypted_volumes"; "imdsv2_enforced";
      "monitoring_enabled"; "termination_protection"; "security_groups_reviewed" ]
  /\ dict_get_opt (EC2.analyze_security_compliance i) "security_groups_reviewed"
     = Some true
  /\ dict_get_opt (EC2.analyze_security_compliance i) "public_ip_restricted"
     = Some (negb (EC2.has_public_address i))
  /\ dict_get_opt (EC2.analyze_security_compliance i) "encrypted_volumes"
     = Some (negb (existsb EC2.unencrypted_device (EC2.BlockDeviceMappings i)))
  /\ (Risk.failed_checks (EC2.analyze_security_compliance i) <= 5)%Z
  /\ (EC2.disable_api_termination i = Failed ->
      dict_get_opt (EC2.analyze_security_compliance i) "termination_protection"
      = Some false).
Proof.
  unfold EC2.analyze_security_compliance.
  destruct (existsb EC2.unencrypted_device (EC2.BlockDeviceMappings i));
    destruct (EC2.HttpTokens i) as [t|];
    try destruct (String.eqb t "required");
    destruct (EC2.disable_api_termination i) as [value|];
    try destruct (or_default value false);
    destruct (negb (EC2.has_public_address i));
    destruct (EC2.Monitoring_State i) as [m|];
    try destruct (String.eqb m "enabled");
    (repeat split; try reflexivity; try discriminate;
     try (vm_compute; discriminate)).
Qed.

(** The termination attribute of the sample instance, when the call for
    it raises. *)
Lemma compliance_map_shape_witness :
  dict_get_opt
    (EC2.analyze_security_compliance
       (EC2.mkInstance "i-0c3" "running" 0 [] "m5.large" None [] None None [] None
          Failed Failed Failed Failed Failed))
    "termination_protection"
  = Some false.
Proof.
  apply (compliance_map_shape
           (EC2.mkInstance "i-0c3" "running" 0 [] "m5.large" None [] None None [] None
              Failed Failed Failed Failed Failed)).
  reflexivity.
Defined.

Ltac fields_of_step :=
  let H := fresh "H" in
  repeat match goal with
         | |- context [if ?c then set_suggestions _ _ else _] => destruct c
         end;
  intro H; inversion H; subst; split; reflexivity.

Lemma instance_step_fields (i : EC2.instance) n u r :
  EC2.instance_step self i = Scan.Reach n u r ->
  risk r = Risk.calculate_risk_level r
  /\ compliance_status r = EC2.analyze_security_compliance i.
Proof.
  unfold EC2.instance_step.
  destruct (String.eqb (EC2.State_Name i) "terminated"); [discriminate|].
  destruct (EC2.check_ec2_usage i).
  destruct (Advisor.get_cost_optimization_suggestions _); [|discriminate].
  fields_of_step.
Qed.

Lemma classic_step_fields (lb : ELB.classic) n u r :
  ELB.classic_step self lb = Scan.Reach n u r ->
  risk r = Risk.calculate_risk_level r /\ compliance_status r = [].
Proof. unfold ELB.classic_step. fields_of_step. Qed.

Lemma balancer_step_fields (lb : ELB.balancer) n u r :
  ELB.balancer_step self lb = Scan.Reach n u r ->
  risk r = Risk.calculate_risk_level r /\ compliance_status r = [].
Proof.
  unfold ELB.balancer_step.
  destruct (ELB.tag_descriptions lb); [|discriminate].
  destruct (ELB.check_lb_usage lb).
  destruct (ELB.listeners lb); [|discriminate].
  fields_of_step.
Qed.

Lemma volume_step_fields (v : EBS.volume) n u r :
  EBS.volume_step self v = Scan.Reach n u r ->
  risk r = Risk.calculate_risk_level r /\ compliance_status r = [].
Proof. unfold EBS.volume_step. fields_of_step. Qed.

Lemma address_step_fields (eip : EIP.address) n u r :
  EIP.address_step self eip = Scan.Reach n u r ->
  risk r = Risk.calculate_risk_level r /\ compliance_status r = [].
Proof.
  unfold EIP.address_step.
  destruct (EIP.AllocationId eip); [|discriminate].
  fields_of_step.
Qed.

Lemma db_step_fields (db : RDS.db_instance) n u r :
  RDS.db_step self db = Scan.Reach n u r ->
  risk r = Risk.calculate_risk_level r /\ compliance_status r = [].
Proof.
  unfold RDS.db_step.
  destruct (RDS.tag_answer db); [|discriminate].
  destruct (RDS.check_rds_usage db).
  fields_of_step.
Qed.

Lemma bucket_step_fields (b : S3.bucket) n u r :
  S3.bucket_step self b = Scan.Reach n u r ->
  risk r = Risk.calculate_risk_level r /\ compliance_status r = [].
Proof.
  unfold S3.bucket_step.
  destruct (S3.get_s3_bucket_metrics b).
  fields_of_step.
Qed.

Lemma function_step_fields (f : Lambda.function) n u r :
  Lambda.function_step self f = Scan.Reach n u r ->
  risk r = Risk.calculate_risk_level r /\ compliance_status r = [].
Proof.
  unfold Lambda.function_step.
  destruct (Lambda.tag_answer f); [|discriminate].
  destruct (Lambda.check_lambda_usage f).
  fields_of_step.
Qed.

(** What every finished descriptor of a scan keeps: its stored tier is
    the tier of its own final fields, and its compliance map is empty or
    the map of an instance. *)
Lemma descriptor_fields (a : Run.account) (r : ResourceInfo) :
  In r (Run.descriptors self a) ->
  risk r = Risk.calculate_risk_level r
  /\ (compliance_status r = []
      \/ exists i, compliance_status r = EC2.analyze_security_compliance i).
Proof.
  unfold Run.descriptors. rewrite !in_app_iff.
  intros [H|[H|[H|[H|[H|[H|[H|H]]]]]]];
    apply fetched_from_step in H; destruct H as [item [n [u Hstep]]].
  - apply instance_step_fields in Hstep. destruct Hstep as [H1 H2].
    split; [exact H1|right; now exists item].
  - apply classic_step_fields in Hstep. tauto.
  - apply balancer_step_fields in Hstep. tauto.
  - apply volume_step_fields in Hstep. tauto.
  - apply address_step_fields in Hstep. tauto.
  - apply db_step_fields in Hstep. tauto.
  - apply bucket_step_fields in Hstep. tauto.
  - apply function_step_fields in Hstep. tauto.
Qed.

(** The tier stored in a descriptor of the collections is the tier of the
    descriptor as it is reported, suggestions included: the risk is
    computed last in every family. *)
Theorem stored_risk_is_final (a : Run.account) (r : ResourceInfo) :
  In r (fst (Run.collect self a)) \/ In r (snd (Run.collect self a)) ->
  risk r = Risk.calculate_risk_level r.
Proof.
  rewrite collect_filters. cbn [fst snd]. rewrite !filter_In.
  intros [[H _]|[H _]]; now apply (descriptor_fields a r).
Qed.

Lemma risk_score_range (r : ResourceInfo) :
  (0 <= Risk.risk_score r <= 10 + Risk.failed_checks (compliance_status r))%Z
  /\ (0 <= Risk.failed_checks (compliance_status r)
      <= Z.of_nat (List.length (compliance_status r)))%Z.
Proof.
  assert (Hf : (0 <= Risk.failed_checks (compliance_status r)
                <= Z.of_nat (List.length (compliance_status r)))%Z).
  { rewrite failed_checks_count. unfold values.
    pose proof (filter_length_le negb (map snd (compliance_status r))) as Hle.
    rewrite length_map in Hle. lia. }
  split; [|exact Hf].
  unfold Risk.risk_score.
  destruct (nonempty (public_ip r) && negb (String.eqb (public_ip r) "N/A"));
    destruct (contains "Encrypted: False" (additional_info r));
    destruct (is_unused r);
    destruct (String.eqb (environment r) "Production"
              && contains "No backup" (backup_status r));
    (revert Hf; destruct (compliance_status r) as [|c cs]; intro Hf; lia).
Qed.

Lemma instance_failed_checks (i : EC2.instance) :
  (Risk.failed_checks (EC2.analyze_security_compliance i) <= 5)%Z.
Proof.
  unfold EC2.analyze_security_compliance.
  destruct (existsb EC2.unencrypted_device (EC2.BlockDeviceMappings i));
    destruct (EC2.HttpTokens i) as [t|];
    try destruct (String.eqb t "required");
    destruct (EC2.disable_api_termination i) as [value|];
    try destruct (or_default value false);
    destruct (negb (EC2.has_public_address i));
    destruct (EC2.Monitoring_State i) as [m|];
    try destruct (String.eqb m "enabled");
    vm_compute; discriminate.
Qed.

(** The risk score is never negative and never above 10 plus the number
    of compliance checks; on a descriptor of a scan it is at most 15, and
    at most 10 outside the compute family, whose descriptors alone carry
    compliance checks. *)
Theorem risk_score_bounds (a : Run.account) (r : ResourceInfo) :
  (0 <= Risk.risk_score r
   <= 10 + Z.of_nat (List.length (compliance_status r)))%Z
  /\ (In r (Run.descriptors self a) ->
      (Risk.risk_score r <= 15)%Z
      /\ (compliance_status r = [] -> (Risk.risk_score r <= 10)%Z)).
Proof.
  destruct (risk_score_range r) as [Hs Hf].
  split; [lia|].
  intro Hin. destruct (descriptor_fields a r Hin) as [_ [Hc|[i Hc]]].
  - rewrite Hc in *. change (Risk.failed_checks []) with 0%Z in Hs.
    split; [lia|intros _; lia].
  - split.
    + pose proof (instance_failed_checks i) as Hfive.
      rewrite Hc in Hs. lia.
    + intro Hnil. rewrite Hnil in Hs.
      change (Risk.failed_checks []) with 0%Z in Hs. lia.
Qed.

End ScoreFacts.

Lemma stored_risk_is_final_witness :
  risk Cases.idle_descriptor = Risk.calculate_risk_level Cases.idle_descriptor.
Proof.
  apply (stored_risk_is_final Samples.self Samples.sample_account Cases.idle_descriptor).
  left. vm_compute. left. reflexivity.
Defined.

Lemma risk_score_bounds_witness :
  (Risk.risk_score Cases.idle_descriptor <= 15)%Z.
Proof.
  assert (Hin : In Cases.idle_descriptor
                  (Run.descriptors Samples.self Samples.sample_account))
    by (vm_compute; left; reflexivity).
  exact (proj1 (proj2 (risk_score_bounds Samples.self Samples.sample_account
                         Cases.idle_descriptor) Hin)).
Defined.

(** ** Substrings and characters *)

Section StringFacts.

Local Open Scope string_scope.

Lemma prefix_append (sub s t : string) :
  prefix sub s = true -> prefix sub (s ++ t) = true.
Proof.
  revert s. induction sub as [|c sub IH]; intros s H; [now destruct (s ++ t)|].
  destruct s as [|a s]; [discriminate|]. simpl in *.
  destruct (ascii_dec c a); [now apply IH|discriminate].
Qed.

Lemma contains_append_l (sub s t : string) :
  contains sub s = true -> contains sub (s ++ t) = true.
Proof.
  induction s as [|a s IH]; simpl.
  - rewrite orb_false_r. intro H. destruct sub; [now destruct t|discriminate].
  - intro H. apply orb_true_iff in H. destruct H as [H|H].
    + apply (prefix_append sub (String a s) t) in H. simpl in H.
      rewrite H. reflexivity.
    + rewrite (IH H). apply orb_true_r.
Qed.

Lemma contains_append_r (sub p s : string) :
  contains sub s = true -> contains sub (p ++ s) = true.
Proof.
  intro H. induction p as [|a p IH]; [exact H|].
  simpl. rewrite IH. apply orb_true_r.
Qed.

Lemma contains_join (sub sep x : string) (l : list string) :
  In x l -> contains sub x = true -> contains sub (join sep l) = true.
Proof.
  unfold join. intros Hin Hx. induction l as [|y l IH]; [contradiction|].
  destruct l as [|z l].
  - destruct Hin as [->|[]]. exact Hx.
  - cbn [String.concat]. destruct Hin as [->|Hin].
    + now apply contains_append_l.
    + apply contains_append_r, contains_append_r. now apply IH.
Qed.

Lemma chars_append (s t : string) :
  list_ascii_of_string (s ++ t) = (list_ascii_of_string s ++ list_ascii_of_string t)%list.
Proof. induction s as [|a s IH]; simpl; [reflexivity|now rewrite IH]. Qed.

(** A string that contains [String c sub] has the character [c]. *)
Lemma contains_first_char (c : ascii) (sub s : string) :
  contains (String c sub) s = true -> In c (list_ascii_of_string s).
Proof.
  induction s as [|a s IH]; simpl; [discriminate|].
  destruct (ascii_dec c a) as [->|Hne].
  - intros _. now left.
  - simpl. intro H. right. now apply IH.
Qed.

Lemma uint_digits (d : Decimal.uint) (c : ascii) :
  In c (list_ascii_of_string (NilEmpty.string_of_uint d)) -> is_digit c = true.
Proof.
  induction d; simpl; try contradiction;
    (intros [<-|H]; [reflexivity|now apply IHd]).
Qed.

(** The decimal rendering of an integer has digits and at most a sign. *)
Lemma str_of_Z_chars (n : Z) (c : ascii) :
  In c (list_ascii_of_string (str_of_Z n)) -> is_digit c = true \/ c = "-"%char.
Proof.
  unfold str_of_Z, NilZero.string_of_int, NilZero.string_of_uint.
  destruct (Z.to_int n) as [d|d].
  - destruct d; try (intro H; left; revert H; apply uint_digits).
    simpl. intros [<-|[]]. now left.
  - simpl. intros [<-|H]; [now right|].
    left. destruct d; try (revert H; apply uint_digits).
    simpl in H. destruct H as [<-|[]]. reflexivity.
Qed.

End StringFacts.

(** ** The environment of a resource *)

Section EnvironmentFacts.

Local Open Scope string_scope.

(** The environment read from the tags is one of six names; it is Unknown
    without tags; and a tag key or value that contains "prod", in any
    case and anywhere in it, makes it Production whatever the other tags
    say. *)
Theorem environment_detection (tags : dict string) :
  In (detect_environment_from_tags tags)
     ["Production"; "Staging"; "Development"; "Testing"; "Demo"; "Unknown"]
  /\ (tags = [] -> detect_environment_from_tags tags = "Unknown")
  /\ ((exists k v, In (k, v) tags
                   /\ (contains "prod" (lower k) = true
                       \/ contains "prod" (lower v) = true)) ->
      detect_environment_from_tags tags = "Production").
Proof.
  split; [|split].
  - unfold detect_environment_from_tags, env_keywords. cbn [find snd].
    repeat match goal with
           | |- context [if ?c then _ else _] => destruct c
           end;
      vm_compute; auto 10.
  - intros ->. reflexivity.
  - intros [k [v [Hin Hprod]]].
    unfold detect_environment_from_tags.
    set (combined := join " " (map lower (values tags)) ++ " "
                     ++ join " " (map lower (keys tags))).
    assert (Hc : contains "prod" combined = true).
    { unfold combined. destruct Hprod as [Hk|Hv].
      - apply contains_append_r, contains_append_r.
        apply (contains_join _ _ (lower k)); [|exact Hk].
        unfold keys. rewrite map_map. apply in_map_iff. now exists (k, v).
      - apply contains_append_l.
        apply (contains_join _ _ (lower v)); [|exact Hv].
        unfold values. rewrite map_map. apply in_map_iff. now exists (k, v). }
    unfold env_keywords. cbn [find snd existsb]. rewrite Hc. reflexivity.
Qed.

(** A team tag "Product" makes a resource a Production resource. *)
Lemma environment_detection_witness :
  detect_environment_from_tags [("Team", "Product"); ("Env", "dev")] = "Production".
Proof.
  apply (environment_detection [("Team", "Product"); ("Env", "dev")]).
  exists "Team", "Product". split; [left; reflexivity|right; reflexivity].
Defined.

End EnvironmentFacts.

(** ** The backup signal of the risk score *)

Section BackupFacts.

Variable self : monitor.

Local Open Scope string_scope.

(** A string without the character [c] has no match of a text that
    starts with [c]. *)
Lemma no_match_without_char (c : ascii) (sub s : string) :
  existsb (Ascii.eqb c) (list_ascii_of_string s) = false ->
  contains (String c sub) s = false.
Proof.
  intro H. destruct (contains (String c sub) s) eqn:E; [|reflexivity].
  apply contains_first_char in E.
  assert (Hex : existsb (Ascii.eqb c) (list_ascii_of_string s) = true).
  { apply existsb_exists. exists c. split; [exact E|apply Ascii.eqb_refl]. }
  congruence.
Qed.

(** A letter does not occur in a text made of two fixed parts around the
    rendering of an integer, when it occurs in neither part. *)
Lemma no_letter_around_number (c : ascii) (before after : string) (n : Z) :
  is_digit c = false ->
  Ascii.eqb c "-" = false ->
  existsb (Ascii.eqb c) (list_ascii_of_string before) = false ->
  existsb (Ascii.eqb c) (list_ascii_of_string after) = false ->
  existsb (Ascii.eqb c) (list_ascii_of_string (before ++ str_of_Z n ++ after)) = false.
Proof.
  intros Hd Hm Hb Ha. rewrite !chars_append, !existsb_app, Hb, Ha.
  rewrite orb_false_r. cbn [orb].
  destruct (existsb (Ascii.eqb c) (list_ascii_of_string (str_of_Z n))) eqn:E;
    [|reflexivity].
  apply existsb_exists in E. destruct E as [x [Hin Hx]].
  apply Ascii.eqb_eq in Hx. subst x.
  destruct (str_of_Z_chars n c Hin) as [H|H]; [congruence|].
  subst c. discriminate Hm.
Qed.

Lemma backup_status_signal (answer : response (list Z)) :
  contains "No backup" (EC2.check_backup_status self answer)
  = match answer with
    | Ok [] => true
    | _ => false
    end.
Proof.
  unfold EC2.check_backup_status.
  destruct answer as [[|p ps]|]; try reflexivity.
  destruct (_ =? 0)%Z; [reflexivity|].
  destruct (_ <=? 7)%Z; apply no_match_without_char;
    apply (no_letter_around_number "N"); reflexivity.
Qed.

Lemma snapshot_info_chars (c : ascii) (answer : response (list Z)) :
  is_digit c = false ->
  Ascii.eqb c "-" = false ->
  existsb (Ascii.eqb c)
    (list_ascii_of_string "Snapshot status unknownNo snapshotsLast snapshot:  days ago")
  = false ->
  existsb (Ascii.eqb c)
    (list_ascii_of_string (EBS.check_volume_snapshots self answer)) = false.
Proof.
  intros Hd Hm Hlit.
  change "Snapshot status unknownNo snapshotsLast snapshot:  days ago"
    with ("Snapshot status unknown" ++ "No snapshots" ++ "Last snapshot: " ++ " days ago")
    in Hlit.
  rewrite !chars_append, !existsb_app in Hlit.
  apply orb_false_iff in Hlit. destruct Hlit as [H1 Hlit].
  apply orb_false_iff in Hlit. destruct Hlit as [H2 Hlit].
  apply orb_false_iff in Hlit. destruct Hlit as [H3 H4].
  unfold EBS.check_volume_snapshots.
  destruct answer as [[|s ss]|]; [exact H2| |exact H1].
  now apply no_letter_around_number.
Qed.

Lemma snapshot_info_signal (answer : response (list Z)) :
  contains "No backup" (EBS.check_volume_snapshots self answer) = false.
Proof.
  unfold EBS.check_volume_snapshots.
  destruct answer as [[|s ss]|]; try reflexivity.
  apply no_match_without_char. apply (no_letter_around_number "N"); reflexivity.
Qed.

(** Where the three points for "Production without backup" can come from.
    On an instance the backup status says so only when the lookup of its
    recovery points answered with none: not when the lookup raised, and
    not when the latest backup is old.  On a database it says so exactly
    when the retention period is absent or not positive.  On a volume it
    never says so, with or without snapshots. *)
Theorem backup_signal_sources (i : EC2.instance) (db : RDS.db_instance)
    (v : EBS.volume) (ri rdb rv : ResourceInfo) ni ui ndb udb nv uv :
  EC2.instance_step self i = Scan.Reach ni ui ri ->
  RDS.db_step self db = Scan.Reach ndb udb rdb ->
  EBS.volume_step self v = Scan.Reach nv uv rv ->
  (contains "No backup" (backup_status ri) = true <-> EC2.recovery_points i = Ok [])
  /\ (contains "No backup" (backup_status rdb) = true
      <-> (or_default (RDS.BackupRetentionPeriod db) 0 <= 0)%Z)
  /\ contains "No backup" (backup_status rv) = false
  /\ Risk.production_without_backup rv = false.
Proof.
  intros Hi Hdb Hv.
  assert (Ei : backup_status ri = EC2.check_backup_status self (EC2.recovery_points i)).
  { revert Hi. unfold EC2.instance_step.
    destruct (String.eqb (EC2.State_Name i) "terminated"); [discriminate|].
    destruct (EC2.check_ec2_usage i).
    destruct (Advisor.get_cost_optimization_suggestions _); [|discriminate].
    intro H. inversion H. reflexivity. }
  assert (Edb : backup_status rdb
                = if (0 <? or_default (RDS.BackupRetentionPeriod db) 0)%Z
                  then "Retention: "
                       ++ str_of_Z (or_default (RDS.BackupRetentionPeriod db) 0%Z)
                       ++ " days"
                  else "No backup").
  { revert Hdb. unfold RDS.db_step.
    destruct (RDS.tag_answer db); [|discriminate].
    destruct (RDS.check_rds_usage db).
    intro H. inversion H. reflexivity. }
  assert (Ev : backup_status rv = EBS.check_volume_snapshots self (EBS.snapshots v)).
  { revert Hv. unfold EBS.volume_step. intro H. inversion H. reflexivity. }
  split; [|split; [|split]].
  - rewrite Ei, backup_status_signal.
    destruct (EC2.recovery_points i) as [[|p ps]|]; split; congruence.
  - rewrite Edb.
    destruct (Z.ltb_spec 0 (or_default (RDS.BackupRetentionPeriod db) 0%Z)).
    + rewrite no_match_without_char
        by (apply (no_letter_around_number "N"); reflexivity).
      split; [discriminate|lia].
    + split; [intros _; lia|reflexivity].
  - rewrite Ev. apply snapshot_info_signal.
  - unfold Risk.production_without_backup.
    rewrite Ev, snapshot_info_signal. apply andb_false_r.
Qed.

End BackupFacts.

(** The idle instance (no recovery point), a database with retention 0
    and the legacy volume (no snapshot). *)
Lemma backup_signal_sources_witness :
  contains "No backup" (backup_status Cases.idle_descriptor) = true
  /\ (exists r n u,
        RDS.db_step Samples.self (Cases.database "first" (Ok [])) = Scan.Reach n u r
        /\ contains "No backup" (backup_status r) = true)
  /\ (exists r n u,
        EBS.volume_step Samples.self Samples.legacy_volume = Scan.Reach n u r
        /\ backup_status r = "No snapshots"%string
        /\ Risk.production_without_backup r = false).
Proof.
  destruct (EBS.volume_step Samples.self Samples.legacy_volume) as [| |nv uv rv] eqn:Ev;
    try (vm_compute in Ev; discriminate Ev).
  destruct (RDS.db_step Samples.self (Cases.database "first" (Ok []))) as [| |nd ud rd]
    eqn:Ed; try (vm_compute in Ed; discriminate Ed).
  assert (Ei : EC2.instance_step Samples.self Samples.idle_instance
               = Scan.Reach (Some true) true Cases.idle_descriptor)
    by (vm_compute; reflexivity).
  destruct (backup_signal_sources Samples.self Samples.idle_instance
              (Cases.database "first" (Ok [])) Samples.legacy_volume
              Cases.idle_descriptor rd rv _ _ _ _ _ _ Ei Ed Ev)
    as [Hi [Hd [_ Hv]]].
  split; [apply Hi; reflexivity|].
  split.
  - exists rd, nd, ud. split; [reflexivity|]. apply Hd. vm_compute. discriminate.
  - exists rv, nv, uv. split; [reflexivity|]. split; [|exact Hv].
    vm_compute in Ev. inversion Ev. reflexivity.
Defined.

(** ** The risk of a volume *)

Section VolumeRiskFacts.

Variable self : monitor.

Local Open Scope string_scope.

Lemma number_without_letter (c : ascii) (n : Z) :
  is_digit c = false ->
  Ascii.eqb c "-" = false ->
  existsb (Ascii.eqb c) (list_ascii_of_string (str_of_Z n)) = false.
Proof.
  intros Hd Hm.
  destruct (existsb (Ascii.eqb c) (list_ascii_of_string (str_of_Z n))) eqn:E;
    [|reflexivity].
  apply existsb_exists in E. destruct E as [x [Hin Hx]].
  apply Ascii.eqb_eq in Hx. subst x.
  destruct (str_of_Z_chars n c Hin) as [H|H]; [congruence|].
  subst c. discriminate Hm.
Qed.

Lemma prefix_chars (sub s : string) (c : ascii) :
  prefix sub s = true ->
  In c (list_ascii_of_string sub) -> In c (list_ascii_of_string s).
Proof.
  revert s. induction sub as [|a sub IH]; intros s Hp Hin; [contradiction|].
  destruct s as [|b s]; [discriminate|]. simpl in Hp.
  destruct (ascii_dec a b) as [->|]; [|discriminate].
  destruct Hin as [->|Hin]; [now left|right; now apply IH].
Qed.

(** A string without one of the characters of a text has no match of it. *)
Lemma no_match_without_any_char (c : ascii) (sub s : string) :
  In c (list_ascii_of_string sub) ->
  existsb (Ascii.eqb c) (list_ascii_of_string s) = false ->
  contains sub s = false.
Proof.
  intros Hsub H. destruct (contains sub s) eqn:E; [|reflexivity].
  assert (Hin : In c (list_ascii_of_string s)).
  { clear H. induction s as [|a s IH]; simpl in E.
    - rewrite orb_false_r in E. now apply (prefix_chars sub "" c).
    - apply orb_true_iff in E. destruct E as [E|E].
      + now apply (prefix_chars sub (String a s) c).
      + right. now apply IH. }
  assert (Hex : existsb (Ascii.eqb c) (list_ascii_of_string s) = true).
  { apply existsb_exists. exists c. split; [exact Hin|apply Ascii.eqb_refl]. }
  congruence.
Qed.

(** The additional-info text of a volume says "Encrypted: False" exactly
    when the volume is not encrypted. *)
Lemma volume_info_signal (v : EBS.volume) (snapshot_answer : response (list Z)) :
  contains "Encrypted: False"
    ("IOPS: "
     ++ match EBS.Iops v with
        | Some n => str_of_Z n
        | None => "N/A"
        end
     ++ ", Encrypted: " ++ str_of_bool (or_default (EBS.Encrypted v) false)
     ++ ", " ++ EBS.check_volume_snapshots self snapshot_answer)
  = negb (or_default (EBS.Encrypted v) false).
Proof.
  destruct (or_default (EBS.Encrypted v) false); cbn [negb str_of_bool].
  - apply (no_match_without_any_char "F"); [vm_compute; tauto|].
    rewrite !chars_append, !existsb_app.
    rewrite (snapshot_info_chars self "F" snapshot_answer) by reflexivity.
    destruct (EBS.Iops v) as [n|];
      [rewrite number_without_letter by reflexivity|]; reflexivity.
  - apply contains_append_r, contains_append_r. vm_compute. reflexivity.
Qed.

(** The risk score of a volume is 2 if it is unused plus 2 if it is not
    encrypted, and nothing else: a volume is never High risk, and it is
    Medium exactly when it is both unused and unencrypted. *)
Theorem volume_risk (v : EBS.volume) (is_new' : option bool) (is_unused' : bool)
    (r : ResourceInfo) :
  EBS.volume_step self v = Scan.Reach is_new' is_unused' r ->
  Risk.risk_score r
  = (Risk.weight 2 (is_unused r)
     + Risk.weight 2 (negb (or_default (EBS.Encrypted v) false)))%Z
  /\ risk r <> High
  /\ (risk r = Medium
      <-> is_unused r = true /\ or_default (EBS.Encrypted v) false = false).
Proof.
  intro Hstep.
  destruct (volume_step_fields self v _ _ _ Hstep) as [Hrisk Hcompliance].
  assert (E : public_ip r = ""
              /\ backup_status r = EBS.check_volume_snapshots self (EBS.snapshots v)
              /\ additional_info r
                 = "IOPS: "
                   ++ match EBS.Iops v with
                      | Some n => str_of_Z n
                      | None => "N/A"
                      end
                   ++ ", Encrypted: " ++ str_of_bool (or_default (EBS.Encrypted v) false)
                   ++ ", " ++ EBS.check_volume_snapshots self (EBS.snapshots v)).
  { revert Hstep. unfold EBS.volume_step. intro H. inversion H.
    repeat split; reflexivity. }
  destruct E as [Hip [Hbackup Hinfo]].
  assert (Hscore : Risk.risk_score r
                   = (Risk.weight 2 (is_unused r)
                      + Risk.weight 2 (negb (or_default (EBS.Encrypted v) false)))%Z).
  { unfold Risk.risk_score.
    rewrite Hip, Hbackup, Hinfo, Hcompliance, volume_info_signal, snapshot_info_signal.
    rewrite andb_false_r. cbn [nonempty String.eqb negb andb].
    unfold Risk.weight.
    destruct (negb (or_default (EBS.Encrypted v) false)); destruct (is_unused r); lia. }
  split; [exact Hscore|].
  rewrite Hrisk. unfold Risk.calculate_risk_level. rewrite Hscore.
  unfold Risk.weight.
  destruct (is_unused r); destruct (or_default (EBS.Encrypted v) false);
    cbn; (split; [discriminate|]); split; try discriminate; try tauto;
    intros [? ?]; discriminate.
Qed.

End VolumeRiskFacts.

(** The legacy sample volume, unused and unencrypted, is Medium. *)
Lemma volume_risk_witness :
  exists n u r,
    EBS.volume_step Samples.self Samples.legacy_volume = Scan.Reach n u r
    /\ Risk.risk_score r = 4%Z
    /\ risk r = Medium.
Proof.
  destruct (EBS.volume_step Samples.self Samples.legacy_volume) as [| |n u r] eqn:E;
    try (vm_compute in E; discriminate E).
  destruct (volume_risk Samples.self Samples.legacy_volume n u r E) as [Hs [_ Hm]].
  assert (Hu : is_unused r = true) by (vm_compute in E; inversion E; reflexivity).
  exists n, u, r. split; [reflexivity|]. split.
  - rewrite Hs, Hu. reflexivity.
  - apply Hm. split; [exact Hu|reflexivity].
Defined.

(** ** Cost strings read back by the reports *)

Section ReadBackFacts.

Local Open Scope string_scope.

Lemma dict_get_cases {V : Type} (d : dict V) (k : string) (default : V) :
  dict_get d k default = default \/ In (dict_get d k default) (values d).
Proof.
  unfold dict_get. induction d as [|[k' v] d IH]; simpl; [now left|].
  destruct (String.eqb k k'); [right; now left|].
  destruct IH as [IH|IH]; [now left|right; now right].
Qed.

(** The cost string of a compute instance starts with its hourly amount.
    For every instance type, the cost loops of the spreadsheet and of the
    notification add nothing for it, while the savings loop of the console
    summary and the opportunity rows of the spreadsheet read the hourly
    amount, which is below one dollar for every type, as if it were the
    monthly one.  The amounts are the ones the program prints: 117 / 720
    is read as 0.163 for [r6i.large]. *)
Theorem compute_cost_is_misread (instance_type : string) :
  Report.monthly_amount Q float_plain (EC2.estimate_ec2_cost instance_type) = None
  /\ Console.savings_amount (EC2.estimate_ec2_cost instance_type)
     = float_plain (Double.format 3 (EC2.hourly_cost (EC2.monthly_cost instance_type)))
  /\ Sheets.cost_value float_plain (EC2.estimate_ec2_cost instance_type)
     = float_plain (Double.format 3 (EC2.hourly_cost (EC2.monthly_cost instance_type)))
  /\ (exists hourly,
        float_plain (Double.format 3 (EC2.hourly_cost (EC2.monthly_cost instance_type)))
        = Some hourly
        /\ hourly < 1)
  /\ EC2.estimate_ec2_cost "r6i.large" = "$0.163/hr, $3.90/day, $117.00/month"
  /\ Console.savings_amount (EC2.estimate_ec2_cost "r6i.large") = Some (163 # 1000).
Proof.
  assert (Hsample : EC2.estimate_ec2_cost "r6i.large"
                    = "$0.163/hr, $3.90/day, $117.00/month"
                    /\ Console.savings_amount (EC2.estimate_ec2_cost "r6i.large")
                       = Some (163 # 1000))
    by (vm_compute; split; reflexivity).
  assert (Hall : forall monthly : Q,
             monthly = 100 \/ In monthly (values EC2.cost_map) ->
             Report.monthly_amount Q float_plain (EC2.render_cost monthly) = None
             /\ Console.savings_amount (EC2.render_cost monthly)
                = float_plain (Double.format 3 (EC2.hourly_cost monthly))
             /\ Sheets.cost_value float_plain (EC2.render_cost monthly)
                = float_plain (Double.format 3 (EC2.hourly_cost monthly))
             /\ exists hourly,
                  float_plain (Double.format 3 (EC2.hourly_cost monthly)) = Some hourly
                  /\ hourly < 1).
  { intros monthly H. unfold EC2.cost_map, values in H. cbn [map snd In] in H.
    repeat (destruct H as [H|H];
            [subst monthly; vm_compute;
             repeat (split; [reflexivity|]); eexists; split; reflexivity|]).
    contradiction. }
  destruct (Hall (EC2.monthly_cost instance_type)) as [H1 [H2 [H3 H4]]].
  { unfold EC2.monthly_cost.
    destruct (dict_get_cases EC2.cost_map instance_type 100%Q) as [H|H];
      [now left|now right]. }
  unfold EC2.estimate_ec2_cost.
  repeat (split; [assumption|]). exact Hsample.
Qed.

(** The cost strings of databases and of load balancers start with their
    monthly amount, and the three readers agree on them: for every
    database class they read the instance amount plus the storage amount,
    and for a load balancer its monthly base price, or nothing for a type
    without an estimate. *)
Theorem monthly_costs_read_back (instance_class engine lb_type : string) :
  (exists amount,
     Report.monthly_amount Q float_plain (RDS.estimate_rds_cost instance_class engine)
     = Some amount
     /\ Console.savings_amount (RDS.estimate_rds_cost instance_class engine) = Some amount
     /\ Sheets.cost_value float_plain (RDS.estimate_rds_cost instance_class engine)
        = Some amount
     /\ (amount == inject_Z (RDS.monthly_cost instance_class + RDS.storage_cost))%Q)
  /\ Report.monthly_amount Q float_plain (ELB.estimate_lb_cost lb_type)
     = Console.savings_amount (ELB.estimate_lb_cost lb_type)
  /\ (Report.monthly_amount Q float_plain (ELB.estimate_lb_cost lb_type) = None
      <-> ELB.estimate_lb_cost lb_type = "Cost estimation unavailable")
  /\ (In lb_type ["classic"; "application"; "network"; "gateway"]
      <-> ELB.estimate_lb_cost lb_type <> "Cost estimation unavailable").
Proof.
  split; [|split; [|split]].
  - unfold RDS.estimate_rds_cost, RDS.monthly_cost.
    destruct (dict_get_cases RDS.base_costs instance_class 150%Z) as [H|H].
    + rewrite H. eexists. vm_compute. repeat split; reflexivity.
    + revert H. generalize (dict_get RDS.base_costs instance_class 150%Z). intros z H.
      unfold RDS.base_costs, values in H. cbn [map snd In] in H.
      repeat (destruct H as [H|H];
              [subst z; eexists; vm_compute; repeat split; reflexivity|]).
      contradiction.
  - unfold ELB.estimate_lb_cost.
    repeat match goal with
           | |- context [if ?c then _ else _] => destruct c
           end; vm_compute; reflexivity.
  - unfold ELB.estimate_lb_cost.
    repeat match goal with
           | |- context [if ?c then _ else _] => destruct c
           end; vm_compute; split; intro H; try discriminate H; reflexivity.
  - unfold ELB.estimate_lb_cost. cbn [In].
    destruct (String.eqb_spec lb_type "classic") as [->|H1];
      [split; [discriminate|intros _; now left]|].
    destruct (String.eqb_spec lb_type "application") as [->|H2];
      [split; [discriminate|intros _; right; now left]|].
    destruct (String.eqb_spec lb_type "network") as [->|H3];
      [split; [discriminate|intros _; do 2 right; now left]|].
    destruct (String.eqb_spec lb_type "gateway") as [->|H4];
      [split; [discriminate|intros _; do 3 right; now left]|].
    split; [|intro H; now contradiction H].
    intros [H|[H|[H|[H|[]]]]]; symmetry in H; contradiction.
Qed.

End ReadBackFacts.

(** ** The other usage evaluators *)

Section EvaluatorFacts.

Variable self : monitor.

Local Open Scope string_scope.

(** The evaluators of functions, buckets and load balancers degrade as
    the compute evaluator does.  A function whose invocation metric has
    no datapoint is unused, and one whose metrics call raises is not.  A
    bucket whose size metric has no datapoint is unused only where it has
    fewer than ten objects, an object count that cannot be read counting
    as none; a bucket whose size call raises is not unused, and is still
    estimated at the flat request cost.  A load balancer without any
    target group is unused whatever its requests are, provided that its
    name can be built and that the request call answers; where the
    request call raises, where the name cannot be built or where the
    listing of the target groups raises, it is not unused. *)
Theorem other_evaluators_degrade
    (f : Lambda.function) (b : S3.bucket) (lb : ELB.balancer) :
  (Lambda.invocation_sums f = Ok [] ->
   Lambda.check_lambda_usage f = ("Invocations (30d): 0", true))
  /\ (Lambda.invocation_sums f = Failed ->
      Lambda.check_lambda_usage f = ("Metrics unavailable", false))
  /\ (S3.size_bytes_answer b = Ok [] ->
      let object_count :=
        match S3.object_count_answer b with
        | Ok (average :: _) => int_of average
        | _ => 0%Z
        end in
      S3.get_s3_bucket_metrics b
      = ("Size: 0.00 GB, Objects: " ++ format_commas object_count,
         (object_count <? 10)%Z))
  /\ (S3.size_bytes_answer b = Failed ->
      S3.get_s3_bucket_metrics b = ("Metrics unavailable", false)
      /\ S3.estimate_s3_cost b = "$0.50/month (storage: $0.00, requests: ~$0.50)")
  /\ (ELB.target_groups lb = Ok [] ->
      (3 <= List.length (split "/" (ELB.LoadBalancerArn lb)))%nat ->
      (forall sums,
         ELB.request_sums lb = Ok sums ->
         ELB.check_lb_usage lb
         = ("Targets: 0/0 healthy, Requests (7d): "
            ++ format_commas match sums with sum :: _ => int_of sum | [] => 0%Z end,
            true))
      /\ (ELB.request_sums lb = Failed ->
          ELB.check_lb_usage lb = ("Usage metrics unavailable", false)))
  /\ (ELB.target_groups lb = Ok [] ->
      (List.length (split "/" (ELB.LoadBalancerArn lb)) < 3)%nat ->
      ELB.check_lb_usage lb = ("Usage metrics unavailable", false))
  /\ (ELB.target_groups lb = Failed ->
      ELB.check_lb_usage lb = ("Usage metrics unavailable", false))
  /\ S3.get_s3_bucket_metrics Cases.bucket_of_fifty
     = ("Size: 0.00 GB, Objects: 50", false)
  /\ S3.get_s3_bucket_metrics Cases.bucket_without_count
     = ("Size: 0.00 GB, Objects: 0", true)
  /\ ELB.check_lb_usage Cases.balancer_without_targets
     = ("Targets: 0/0 healthy, Requests (7d): 2,500", true).
Proof.
  unfold Lambda.check_lambda_usage, S3.estimate_s3_cost, S3.get_s3_bucket_metrics,
    ELB.check_lb_usage.
  split; [now intros ->|]. split; [now intros ->|].
  split.
  { intros ->. cbv zeta.
    destruct (S3.object_count_answer b) as [[|average more]|]; reflexivity. }
  split; [intros ->; split; reflexivity|].
  split.
  { intros -> Harn. cbn [ELB.count_targets].
    apply Nat.ltb_ge in Harn. rewrite Harn.
    split; [intros sums ->|intros ->]; reflexivity. }
  split.
  { intros -> Harn. cbn [ELB.count_targets].
    apply Nat.ltb_lt in Harn. now rewrite Harn. }
  split; [now intros ->|].
  repeat split; vm_compute; reflexivity.
Qed.

Lemma count_targets_range (groups : list (response (list string)))
    (total healthy total' healthy' : Z) :
  ELB.count_targets groups total healthy = Some (total', healthy') ->
  (total <= total' /\ healthy <= healthy' /\ healthy' - healthy <= total' - total)%Z.
Proof.
  revert total healthy. induction groups as [|[states|] groups IH];
    intros total healthy H; cbn [ELB.count_targets] in H.
  - inversion H. lia.
  - apply IH in H.
    pose proof (filter_length_le (String.eqb "healthy") states). lia.
  - discriminate.
Qed.

(** The targets a load balancer is judged by: the healthy targets are
    never more than all targets, a balancer with a healthy target is
    never unused, and neither is one with a hundred requests or more that
    has a target. *)
Theorem balancer_usage (lb : ELB.balancer) (groups : list (response (list string)))
    (total healthy : Z) (sums : list Q) :
  ELB.target_groups lb = Ok groups ->
  ELB.count_targets groups 0 0 = Some (total, healthy) ->
  ELB.request_sums lb = Ok sums ->
  (0 <= healthy <= total)%Z
  /\ ((0 < healthy)%Z -> snd (ELB.check_lb_usage lb) = false)
  /\ ((0 < total)%Z ->
      (100 <= match sums with s :: _ => int_of s | [] => 0 end)%Z ->
      snd (ELB.check_lb_usage lb) = false).
Proof.
  intros Hg Hc Hs.
  pose proof (count_targets_range groups 0 0 total healthy Hc) as Hr.
  split; [lia|].
  unfold ELB.check_lb_usage. rewrite Hg, Hc, Hs.
  destruct (List.length (split "/" (ELB.LoadBalancerArn lb)) <? 3)%nat;
    [split; reflexivity|].
  cbn [snd]. split.
  - intro Hh. apply orb_false_iff. split; [apply Z.eqb_neq; lia|].
    apply andb_false_iff. left. apply Z.eqb_neq. lia.
  - intros Ht Hreq. apply orb_false_iff. split; [apply Z.eqb_neq; lia|].
    apply andb_false_iff. right. apply Z.ltb_ge. exact Hreq.
Qed.

(** The sample balancer has one healthy target among three. *)
Lemma balancer_usage_witness :
  snd (ELB.check_lb_usage (Cases.balancer (Ok []))) = false.
Proof.
  destruct (balancer_usage (Cases.balancer (Ok []))
              [Ok ["healthy"; "unhealthy"; "draining"]] 3 1 [1500%Q]
              eq_refl eq_refl eq_refl) as [_ [H _]].
  apply H. reflexivity.
Defined.

End EvaluatorFacts.

(** ** Floating addresses *)

Section AddressFacts.

Variable self : monitor.

Local Open Scope string_scope.

(** An address without an allocation id is never reported.  An address
    whose allocation time cannot be found (the lookup raises or finds no
    event) is never new, so it is reported exactly when it is not
    associated, as unused.  An associated address costs nothing and an
    unassociated one 3.60 a month, which the reports read back. *)
Theorem address_edge_cases (eip : EIP.address) :
  (EIP.AllocationId eip = None ->
   EIP.get_all_elastic_ips self (Ok [eip]) = ([], []))
  /\ (forall id, EIP.AllocationId eip = Some id ->
      exists r,
        EIP.address_step self eip = Scan.Reach (is_new r) (is_unused r) r
        /\ is_unused r
           = negb (EIP.present (EIP.InstanceId eip)
                   || EIP.present (EIP.NetworkInterfaceId eip))
        /\ estimated_cost r = (if is_unused r then "$3.60/month" else "$0.00/month")
        /\ Report.monthly_amount Q float_plain (estimated_cost r)
           = Some (if is_unused r then 3.60 else 0.00)%Q
        /\ (EIP.get_resource_allocation_time (EIP.allocation_events eip) = None ->
            is_new r = None
            /\ EIP.get_all_elastic_ips self (Ok [eip])
               = ([], if is_unused r then [r] else []))).
Proof.
  split.
  - intro H. unfold EIP.get_all_elastic_ips, Scan.fetch, Scan.for_each, EIP.address_step.
    now rewrite H.
  - intros id Hid.
    unfold EIP.get_all_elastic_ips, Scan.fetch, Scan.for_each, EIP.address_step.
    rewrite Hid.
    destruct (EIP.present (EIP.InstanceId eip) || EIP.present (EIP.NetworkInterfaceId eip));
      cbn [negb];
      match goal with
      | |- exists r, Scan.Reach _ _ ?x = _ /\ _ => exists x
      end; (split; [reflexivity|]);
      cbn [is_unused is_new estimated_cost set_risk set_suggestions];
      (split; [reflexivity|]); (split; [reflexivity|]); (split; [reflexivity|]);
      intros ->; split; reflexivity.
Qed.

End AddressFacts.

Section AddressCases.

Local Open Scope string_scope.

(** An unassociated address without allocation event, and an address of
    the classic platform, which has no allocation id. *)
Lemma address_edge_cases_witness :
  EIP.get_all_elastic_ips Samples.self
    (Ok [EIP.mkAddress None None None (Some "198.51.100.7") (Some "standard") [] (Ok [])])
  = ([], [])
  /\ map estimated_cost
       (snd (EIP.get_all_elastic_ips Samples.self
               (Ok [EIP.mkAddress (Some "eipalloc-1") None None (Some "198.51.100.8")
                      None [] Failed])))
     = ["$3.60/month"].
Proof.
  split.
  - apply (address_edge_cases Samples.self
             (EIP.mkAddress None None None (Some "198.51.100.7") (Some "standard") []
                (Ok []))).
    reflexivity.
  - destruct (address_edge_cases Samples.self
                (EIP.mkAddress (Some "eipalloc-1") None None (Some "198.51.100.8")
                   None [] Failed)) as [_ H].
    destruct (H "eipalloc-1" eq_refl) as [r [_ [Hu [Hc [_ Hn]]]]].
    destruct (Hn eq_refl) as [_ Hall]. rewrite Hall.
    cbn in Hu. rewrite Hu in *. cbn [snd map]. now rewrite Hc.
Defined.

End AddressCases.

(** * Reports *)

From Stdlib Require Import Permutation Sorted DecimalFacts DecimalPos.

(** ** The batches of the chat notification *)

Section BatchFacts.

Import Collections Slack.

Variable resource_text : ResourceInfo -> Z -> string.

Local Open Scope list_scope.
Local Open Scope nat_scope.

(** A state whose message keeps the blocks it started with. *)
Local Abbreviation started first st :=
  (match sent st with
   | [] => first <= List.length (message_blocks st)
   | _ :: _ => 2 <= List.length (message_blocks st)
   end).

Lemma skipn_app_le {A : Type} (n : nat) (l l' : list A) :
  n <= List.length l -> skipn n (l ++ l') = skipn n l ++ l'.
Proof.
  intro H. rewrite List.skipn_app.
  replace (n - List.length l) with 0 by lia. reflexivity.
Qed.

Lemma payload_append (first : nat) (m0 : message) (later : list message) (m : message) :
  payload first (Py.append (m0 :: later) m)
  = payload first (m0 :: later) ++ skipn 2 (blocks m).
Proof.
  unfold Py.append. cbn [payload app]. rewrite List.flat_map_app. cbn [flat_map].
  rewrite List.app_nil_r, List.app_assoc. reflexivity.
Qed.

Lemma resource_turn_held (rep : report) (first : nat) (st : batch) (r : ResourceInfo) :
  started first st ->
  let st' := resource_turn resource_text rep st r in
  held first st' = held first st ++ create_resource_block resource_text r (index st)
  /\ started first st'
  /\ index st' = (index st + 1)%Z.
Proof.
  intros Hst. unfold resource_turn. cbv zeta.
  destruct (40 <? List.length (message_blocks st ++ create_resource_block resource_text r (index st))) eqn:E.
  - unfold held. cbn [sent message_blocks index].
    destruct (sent st) as [|m0 later] eqn:Es.
    + cbn [Py.append app payload flat_map blocks skipn]. rewrite !List.app_nil_r.
      split; [now apply skipn_app_le|]. split; [simpl; lia|reflexivity].
    + rewrite payload_append. cbn [blocks].
      change (skipn 2 [Section (continued rep); Divider]) with (@nil block).
      rewrite List.app_nil_r.
      split; [|split; [simpl; lia|reflexivity]].
      rewrite skipn_app_le by exact Hst. now rewrite List.app_assoc.
  - unfold held. cbn [sent message_blocks index].
    destruct (sent st) as [|m0 later] eqn:Es.
    + split; [now apply skipn_app_le|]. split; [|reflexivity].
      rewrite List.length_app. lia.
    + split; [|split; [rewrite List.length_app; lia|reflexivity]].
      rewrite skipn_app_le by exact Hst. now rewrite List.app_assoc.
Qed.

Lemma resources_held (rep : report) (first : nat) (rs : list ResourceInfo) (st : batch) :
  started first st ->
  let st' := fold_left (resource_turn resource_text rep) rs st in
  held first st' = held first st ++ resource_blocks resource_text rs (index st)
  /\ started first st'
  /\ index st' = (index st + Z.of_nat (List.length rs))%Z.
Proof.
  revert st. induction rs as [|r rs IH]; intros st Hst; cbv zeta.
  - cbn [fold_left resource_blocks List.length]. rewrite List.app_nil_r.
    split; [reflexivity|]. split; [exact Hst|]. cbn. lia.
  - cbn [fold_left resource_blocks].
    destruct (resource_turn_held rep first st r Hst) as [Hh [Hs Hi]].
    destruct (IH _ Hs) as [Hh' [Hs' Hi']].
    rewrite Hh', Hh, Hi', Hi. split; [now rewrite <- List.app_assoc|].
    split; [exact Hs'|]. cbn [List.length]. lia.
Qed.

Lemma group_turn_held (rep : report) (first : nat) (st : batch)
    (group : string * list ResourceInfo) :
  started first st ->
  let st' := group_turn resource_text rep st group in
  held first st' = held first st ++ content resource_text rep [group] (index st)
  /\ started first st'
  /\ index st' = (index st + Z.of_nat (List.length (snd group)))%Z.
Proof.
  intro Hst. destruct group as [resource_type resources]. cbv zeta.
  unfold group_turn.
  set (st1 := {| message_blocks := Py.append (message_blocks st) _;
                 index := index st; sent := sent st |}).
  assert (Hst1 : started first st1).
  { subst st1. cbn [sent message_blocks]. unfold Py.append. rewrite List.length_app.
    destruct (sent st); lia. }
  destruct (resources_held rep first resources st1 Hst1) as [Hh [Hs Hi]].
  rewrite Hh, Hi. split; [|split; [exact Hs|reflexivity]].
  cbn [content]. rewrite List.app_nil_r.
  assert (H1 : held first st1
               = held first st
                 ++ [Section (group_title rep resource_type (List.length resources))]).
  { subst st1. unfold held. cbn [sent message_blocks]. unfold Py.append.
    destruct (sent st).
    - now apply skipn_app_le.
    - rewrite skipn_app_le by exact Hst. now rewrite List.app_assoc. }
  rewrite H1. subst st1. cbn [index]. rewrite <- List.app_assoc. reflexivity.
Qed.

Lemma groups_held (rep : report) (first : nat) (groups : dict (list ResourceInfo))
    (st : batch) :
  started first st ->
  let st' := fold_left (group_turn resource_text rep) groups st in
  held first st' = held first st ++ content resource_text rep groups (index st)
  /\ started first st'.
Proof.
  revert st. induction groups as [|g groups IH]; intros st Hst; cbv zeta.
  - cbn [fold_left content]. rewrite List.app_nil_r. now split.
  - cbn [fold_left].
    destruct (group_turn_held rep first st g Hst) as [Hh [Hs Hi]].
    destruct (IH _ Hs) as [Hh' Hs'].
    rewrite Hh', Hh, Hi. split; [|exact Hs'].
    destruct g as [k rs]. cbn [content snd]. rewrite List.app_nil_r, <- !List.app_assoc.
    reflexivity.
Qed.

(** Nothing is lost and nothing is repeated between the messages. *)
Lemma send_batches_payload (rep : report) (groups : dict (list ResourceInfo)) :
  2 <= List.length (first_blocks rep) ->
  payload (List.length (first_blocks rep)) (send_batches resource_text rep groups)
  = content resource_text rep groups 1.
Proof.
  intro Hf. unfold send_batches. cbv zeta.
  set (st0 := {| message_blocks := first_blocks rep; index := 1%Z; sent := [] |}).
  assert (H0 : started (List.length (first_blocks rep)) st0) by (cbn; lia).
  destruct (groups_held rep _ groups st0 H0) as [Hh Hs].
  assert (Hh0 : held (List.length (first_blocks rep)) st0 = []).
  { unfold held. cbn [st0 sent message_blocks]. apply List.skipn_all. }
  rewrite Hh0 in Hh. cbn [app] in Hh. subst st0. cbn [index] in Hh. rewrite <- Hh.
  set (st := fold_left _ _ _) in *. clearbody st.
  unfold held.
  destruct (2 <? List.length (message_blocks st)) eqn:E.
  - destruct (sent st) as [|m0 later].
    + cbn [Py.append app payload flat_map blocks]. now rewrite List.app_nil_r.
    + now rewrite payload_append.
  - apply Nat.ltb_ge in E.
    destruct (sent st) as [|m0 later].
    + cbn [payload]. symmetry. apply List.skipn_all2. lia.
    + rewrite (List.skipn_all2 (message_blocks st)) by exact E. now rewrite List.app_nil_r.
Qed.

(** *** Sizes *)

Lemma resource_turn_fits (rep : report) (st : batch) (r : ResourceInfo) :
  List.length (message_blocks st) <= 41 ->
  Forall fits (sent st) ->
  let st' := resource_turn resource_text rep st r in
  List.length (message_blocks st') <= 40 /\ Forall fits (sent st').
Proof.
  intros Hl Hs. unfold resource_turn. cbv zeta.
  destruct (40 <? _) eqn:E; cbn [message_blocks sent].
  - apply Nat.ltb_lt in E. split; [simpl; lia|].
    unfold Py.append. apply Forall_app. split; [exact Hs|].
    constructor; [|constructor]. unfold fits. cbn [blocks].
    rewrite List.length_app in *. cbn [create_resource_block List.length] in *. lia.
  - apply Nat.ltb_ge in E. split; [exact E|exact Hs].
Qed.

Lemma resources_fit (rep : report) (rs : list ResourceInfo) (st : batch) :
  rs <> [] ->
  List.length (message_blocks st) <= 41 ->
  Forall fits (sent st) ->
  let st' := fold_left (resource_turn resource_text rep) rs st in
  List.length (message_blocks st') <= 40 /\ Forall fits (sent st').
Proof.
  intros Hne Hl Hs. destruct rs as [|r rs]; [contradiction|clear Hne].
  cbn [fold_left]. destruct (resource_turn_fits rep st r Hl Hs) as [Hl' Hs'].
  revert Hl' Hs'. generalize (resource_turn resource_text rep st r). clear.
  induction rs as [|r rs IH]; intros st Hl Hs; [now split|].
  cbn [fold_left].
  destruct (resource_turn_fits rep st r) as [Hl' Hs']; [lia|exact Hs|].
  now apply IH.
Qed.

Lemma groups_fit (rep : report) (groups : dict (list ResourceInfo)) (st : batch) :
  Forall (fun group => snd group <> []) groups ->
  List.length (message_blocks st) <= 40 ->
  Forall fits (sent st) ->
  let st' := fold_left (group_turn resource_text rep) groups st in
  List.length (message_blocks st') <= 40 /\ Forall fits (sent st').
Proof.
  intro Hg. revert st. induction Hg as [|[k rs] groups Hne Hg IH]; intros st Hl Hs.
  - now split.
  - cbn [fold_left]. apply IH; unfold group_turn;
      apply resources_fit; try exact Hne; cbn [message_blocks sent];
      try exact Hs; unfold Py.append; rewrite List.length_app; simpl; lia.
Qed.

Lemma send_batches_fit (rep : report) (groups : dict (list ResourceInfo)) :
  Forall (fun group => snd group <> []) groups ->
  List.length (first_blocks rep) <= 40 ->
  Forall fits (send_batches resource_text rep groups).
Proof.
  intros Hg Hf. unfold send_batches. cbv zeta.
  destruct (groups_fit rep groups
              {| message_blocks := first_blocks rep; index := 1%Z; sent := [] |} Hg)
    as [Hl Hs]; [exact Hf|constructor|].
  destruct (2 <? _) eqn:E; [|exact Hs].
  apply Nat.ltb_lt in E. unfold Py.append. apply Forall_app. split; [exact Hs|].
  constructor; [|constructor]. unfold fits. cbn [blocks]. lia.
Qed.

(** *** Groups *)

Lemma group_add_nonempty {A : Type} (d : dict (list A)) (k : string) (x : A) :
  Forall (fun group => snd group <> []) d ->
  Forall (fun group => snd group <> []) (group_add d k x).
Proof.
  induction 1 as [|[k' xs] d H Hd IH]; cbn [group_add].
  - constructor; [discriminate|constructor].
  - destruct (String.eqb k k'); constructor; try assumption.
    cbn [snd Py.append]. now destruct xs.
Qed.

Lemma group_add_size {A : Type} (d : dict (list A)) (k : string) (x : A) :
  List.length (concat (map snd (group_add d k x)))
  = S (List.length (concat (map snd d))).
Proof.
  induction d as [|[k' xs] d IH]; cbn [group_add]; [reflexivity|].
  destruct (String.eqb k k'); cbn [map snd concat]; rewrite !List.length_app.
  - unfold Py.append. rewrite List.length_app. simpl. lia.
  - rewrite IH. lia.
Qed.

Lemma group_by_groups {A : Type} (key : A -> string) (l : list A) :
  Forall (fun group => snd group <> []) (group_by key l)
  /\ List.length (concat (map snd (group_by key l))) = List.length l.
Proof.
  unfold group_by.
  assert (H : forall d,
             Forall (fun group : string * list A => snd group <> []) d ->
             Forall (fun group => snd group <> [])
               (fold_left (fun d x => group_add d (key x) x) l d)
             /\ List.length
                  (concat (map snd (fold_left (fun d x => group_add d (key x) x) l d)))
                = List.length (concat (map snd d)) + List.length l).
  { induction l as [|x l IH]; intros d Hd; cbn [fold_left].
    - split; [exact Hd|]. simpl. lia.
    - destruct (IH (group_add d (key x) x)) as [H1 H2];
        [now apply group_add_nonempty|].
      split; [exact H1|]. rewrite H2, group_add_size. simpl. lia. }
  destruct (H [] (Forall_nil _)) as [H1 H2]. split; [exact H1|exact H2].
Qed.

Lemma resource_blocks_length (rs : list ResourceInfo) (index : Z) :
  List.length (resource_blocks resource_text rs index) = List.length rs.
Proof.
  revert index. induction rs as [|r rs IH]; intro index; [reflexivity|].
  cbn [resource_blocks create_resource_block app List.length]. now rewrite IH.
Qed.

Lemma content_length (rep : report) (groups : dict (list ResourceInfo)) (index : Z) :
  List.length (content resource_text rep groups index)
  = List.length groups + List.length (concat (map snd groups)).
Proof.
  revert index. induction groups as [|[k rs] groups IH]; intro index; [reflexivity|].
  cbn [content map snd concat List.length].
  rewrite !List.length_app, resource_blocks_length, IH. lia.
Qed.

(** The messages of a report carry, between them, the title of every
    group and one block for every resource, in the order of the groups
    and numbered from 1: nothing is lost where a message is cut, although
    the message that follows a cut starts with two blocks of its own.
    Every message posted has between 3 and 42 blocks.  Where a sort key of
    the unused resources raises, nothing is posted for them. *)
Theorem batches_keep_every_block (new_resources unused_resources : list ResourceInfo)
    (total_monthly_savings : Q) :
  Forall fits (send_new_resources resource_text new_resources)
  /\ payload 2 (send_new_resources resource_text new_resources)
     = content resource_text new_report (group_by resource_type new_resources) 1
  /\ List.length (payload 2 (send_new_resources resource_text new_resources))
     = List.length (group_by resource_type new_resources) + List.length new_resources
  /\ match unused_sorted unused_resources with
     | Some sorted =>
         exists messages,
           send_unused_resources resource_text unused_resources total_monthly_savings
           = Some messages
           /\ Forall fits messages
           /\ payload 3 messages
              = content resource_text
                  (unused_report (List.length unused_resources) total_monthly_savings)
                  (group_by resource_type sorted) 1
     | None =>
         send_unused_resources resource_text unused_resources total_monthly_savings
         = None
     end.
Proof.
  assert (Hnew : payload 2 (send_new_resources resource_text new_resources)
                 = content resource_text new_report
                     (group_by resource_type new_resources) 1).
  { unfold send_new_resources. destruct new_resources as [|r rs]; [reflexivity|].
    apply (send_batches_payload new_report). simpl. lia. }
  split; [|split; [exact Hnew|split]].
  - unfold send_new_resources. destruct new_resources as [|r rs]; [constructor|].
    apply send_batches_fit; [apply group_by_groups|simpl; lia].
  - rewrite Hnew, content_length.
    now rewrite (proj2 (group_by_groups resource_type new_resources)).
  - unfold send_unused_resources.
    destruct unused_resources as [|r rs].
    + cbn. exists []. repeat split. constructor.
    + destruct (unused_sorted (r :: rs)) as [sorted|]; [|reflexivity].
      cbn [option_map]. eexists. split; [reflexivity|]. split.
      * apply send_batches_fit; [apply group_by_groups|simpl; lia].
      * apply (send_batches_payload
                 (unused_report (List.length (r :: rs)) total_monthly_savings)).
        simpl. lia.
Qed.

End BatchFacts.

(** ** Sorting and the top opportunities *)

Section SliceFacts.

Local Open Scope list_scope.

Lemma in_slices {A : Type} (n : nat) (l : list A) (x : A) :
  In x (firstn n l) \/ In x (skipn n l) -> In x l.
Proof.
  intro H. rewrite <- (List.firstn_skipn n l). apply List.in_or_app. exact H.
Qed.

End SliceFacts.

Section SortFacts.

Import Collections.

Local Open Scope list_scope.

Context {A : Type} (key : A -> Q).

(** Descending order of the keys. *)
Local Abbreviation descending := (StronglySorted (fun a b : A => (key b <= key a)%Q)).

Lemma insert_desc_permutation (x : A) (l : list A) :
  Permutation (insert_desc key x l) (x :: l).
Proof.
  induction l as [|y l IH]; cbn [insert_desc]; [reflexivity|].
  destruct (Qltb (key y) (key x)); [reflexivity|].
  rewrite IH. apply perm_swap.
Qed.

Lemma insert_desc_descending (x : A) (l : list A) :
  descending l -> descending (insert_desc key x l).
Proof.
  induction 1 as [|y l Hl IH Hy]; cbn [insert_desc].
  - constructor; constructor.
  - destruct (Qltb (key y) (key x)) eqn:E.
    + apply Qltb_lt in E. constructor; [now constructor|].
      constructor; [now apply Qlt_le_weak|].
      rewrite Forall_forall in *. intros z Hz.
      apply Qle_trans with (key y); [now apply Hy|now apply Qlt_le_weak].
    + apply Qltb_ge in E. constructor; [exact IH|].
      rewrite Forall_forall in *. intros z Hz.
      apply (Permutation_in _ (insert_desc_permutation x l)) in Hz.
      destruct Hz as [<-|Hz]; [exact E|now apply Hy].
Qed.

Lemma sorted_desc_from (l acc : list A) :
  descending acc ->
  descending (fold_left (fun acc x => insert_desc key x acc) l acc)
  /\ Permutation (fold_left (fun acc x => insert_desc key x acc) l acc) (acc ++ l).
Proof.
  revert acc. induction l as [|x l IH]; intros acc Hacc; cbn [fold_left].
  - rewrite List.app_nil_r. now split.
  - destruct (IH _ (insert_desc_descending x acc Hacc)) as [H1 H2].
    split; [exact H1|]. rewrite H2, insert_desc_permutation.
    apply Permutation_middle.
Qed.

(** [sorted(..., reverse=True)] orders by descending key and keeps the
    elements. *)
Lemma sorted_desc_spec (l : list A) :
  descending (sorted_desc key l) /\ Permutation (sorted_desc key l) l.
Proof.
  unfold sorted_desc. apply (sorted_desc_from l []). constructor.
Qed.

(** The first [n] of a descending list are its [n] largest. *)
Lemma descending_firstn (n : nat) (l : list A) (a b : A) :
  descending l -> In a (firstn n l) -> In b (skipn n l) -> (key b <= key a)%Q.
Proof.
  intro H. revert n. induction H as [|y l Hl IH Hy]; intros n Ha Hb.
  - rewrite List.firstn_nil in Ha. contradiction.
  - destruct n as [|n]; [contradiction|].
    cbn [firstn skipn] in Ha, Hb. destruct Ha as [<-|Ha].
    + rewrite Forall_forall in Hy. apply Hy. apply (in_slices n). now right.
    + now apply (IH n).
Qed.

End SortFacts.

Section OpportunityFacts.

Import Collections.

Local Open Scope list_scope.

(** The loop that collects the opportunities keeps, in order, the
    resources whose cost value does not raise. *)
Lemma collected_from {A : Type} (value : A -> option Q) (l : list A)
    (acc : list (A * Q)) (e : A * Q) :
  In e (fold_left
          (fun acc r =>
             match value r with
             | Some v => Py.append acc (r, v)
             | None => acc
             end)
          l acc)
  <-> In e acc \/ (In (fst e) l /\ value (fst e) = Some (snd e)).
Proof.
  revert acc. induction l as [|r l IH]; intro acc; cbn [fold_left].
  - split; [now left|]. intros [H|[[] _]]. exact H.
  - rewrite IH. destruct (value r) as [v|] eqn:E.
    + unfold Py.append. rewrite List.in_app_iff. cbn [In]. split.
      * intros [[H|[<-|[]]]|[H1 H2]]; [now left| |right; split; [now right|exact H2]].
        right. split; [now left|exact E].
      * intros [H|[[H1|H1] H2]]; [left; now left| |right; now split].
        left. right. left. destruct e as [r' v']. cbn [fst snd] in *. congruence.
    + split.
      * intros [H|[H1 H2]]; [now left|right; split; [now right|exact H2]].
      * intros [H|[[H1|H1] H2]]; [now left|congruence|right; now split].
Qed.

Lemma collected_length {A : Type} (value : A -> option Q) (l : list A)
    (acc : list (A * Q)) :
  (List.length
     (fold_left
        (fun acc r =>
           match value r with
           | Some v => Py.append acc (r, v)
           | None => acc
           end)
        l acc)
   <= List.length acc + List.length l)%nat.
Proof.
  revert acc. induction l as [|r l IH]; intro acc; cbn [fold_left List.length]; [lia|].
  destruct (value r).
  - etransitivity; [apply IH|]. unfold Py.append. rewrite List.length_app. simpl. lia.
  - etransitivity; [apply IH|]. lia.
Qed.

Variable float : string -> option Q.

(** The opportunity rows of the spreadsheet are drawn from the first ten
    unused resources in the order of the scan, not from the ten with the
    highest cost: the cut to ten comes before the sort, and the cut after
    the sort removes nothing.  The rows are in descending order of the
    cost value read from the cost string. *)
Theorem sheet_opportunities_from_first_ten (unused_resources : list ResourceInfo) :
  let top := Sheets.savings_opportunities float unused_resources in
  (forall r value,
     In (r, value) top
     <-> In r (firstn 10 unused_resources)
         /\ Sheets.cost_value float (estimated_cost r) = Some value)
  /\ Permutation top (Sheets.collect_opportunities float unused_resources)
  /\ StronglySorted (fun a b => (snd b <= snd a)%Q) top
  /\ (List.length top <= 10)%nat.
Proof.
  cbv zeta. unfold Sheets.savings_opportunities.
  destruct (sorted_desc_spec (@snd ResourceInfo Q)
              (Sheets.collect_opportunities float unused_resources)) as [Hs Hp].
  assert (Hl : (List.length (sorted_desc snd
                               (Sheets.collect_opportunities float unused_resources))
                <= 10)%nat).
  { rewrite (Permutation_length Hp). unfold Sheets.collect_opportunities.
    etransitivity; [apply collected_length|].
    rewrite List.length_firstn. cbn [List.length]. lia. }
  rewrite List.firstn_all2 by exact Hl.
  split; [|split; [exact Hp|split; [exact Hs|exact Hl]]].
  intros r value. split.
  - intro H. apply (Permutation_in _ Hp) in H.
    unfold Sheets.collect_opportunities in H.
    apply (collected_from (fun r => Sheets.cost_value float (estimated_cost r))) in H.
    destruct H as [[]|H]. exact H.
  - intro H. apply (Permutation_in _ (Permutation_sym Hp)).
    unfold Sheets.collect_opportunities.
    apply (collected_from (fun r => Sheets.cost_value float (estimated_cost r))).
    right. exact H.
Qed.

(** The ten opportunities printed by the console summary are ten largest
    among all the unused resources whose cost value can be read: an
    unused resource is either among them or has a cost value that is at
    most the one of each of them, and then they are ten. *)
Theorem console_top_ten_are_largest (unused_resources : list ResourceInfo) :
  let top := Console.top_ten unused_resources in
  (forall entry, In entry top ->
     In (fst entry) unused_resources
     /\ Console.cost_value (estimated_cost (fst entry)) = Some (snd entry))
  /\ StronglySorted (fun a b => (snd b <= snd a)%Q) top
  /\ (forall r value,
        In r unused_resources ->
        Console.cost_value (estimated_cost r) = Some value ->
        In (r, value) top
        \/ (List.length top = 10%nat
            /\ forall entry, In entry top -> (value <= snd entry)%Q)).
Proof.
  cbv zeta. unfold Console.top_ten, Console.savings_opportunities.
  set (collected := fold_left _ unused_resources []).
  destruct (sorted_desc_spec (@snd ResourceInfo Q) collected) as [Hs Hp].
  assert (Hc : forall e, In e collected
                 <-> In (fst e) unused_resources
                     /\ Console.cost_value (estimated_cost (fst e)) = Some (snd e)).
  { intro e. subst collected.
    rewrite (collected_from (fun r => Console.cost_value (estimated_cost r))).
    split; [intros [[]|H]; exact H|intro H; now right]. }
  split; [|split].
  - intros entry H. apply Hc. apply (Permutation_in _ Hp).
    apply (in_slices 10). now left.
  - revert Hs. generalize (sorted_desc snd collected). intros l Hs.
    generalize 10%nat. induction Hs as [|y l Hl IH Hy]; intro n.
    + rewrite List.firstn_nil. constructor.
    + destruct n as [|n]; [constructor|]. cbn [firstn]. constructor; [apply IH|].
      rewrite Forall_forall in *. intros z Hz. apply Hy. apply (in_slices n). now left.
  - intros r value Hin Hv.
    assert (H : In (r, value) (sorted_desc snd collected)).
    { apply (Permutation_in _ (Permutation_sym Hp)). apply Hc. now split. }
    rewrite <- (List.firstn_skipn 10 (sorted_desc snd collected)) in H.
    apply List.in_app_iff in H. destruct H as [H|H]; [now left|right].
    split.
    + rewrite List.length_firstn. apply Nat.min_l.
      destruct (Nat.le_gt_cases 10 (List.length (sorted_desc snd collected)))
        as [Hle|Hgt]; [exact Hle|].
      rewrite List.skipn_all2 in H by lia. contradiction.
    + intros entry He.
      exact (descending_firstn (@snd ResourceInfo Q) 10 _ entry (r, value) Hs He H).
Qed.

End OpportunityFacts.

(** ** The environment breakdown *)

Section BreakdownFacts.

Import Collections.

Local Open Scope list_scope.
Local Open Scope Z_scope.

Lemma count_add_keys (d : dict Z) (k k' : string) :
  In k' (keys (count_add d k)) <-> k' = k \/ In k' (keys d).
Proof.
  unfold keys. induction d as [|[k0 n] d IH]; cbn [count_add map fst In].
  - split; [intros [H|[]]; now left|intros [H|[]]; now left].
  - destruct (String.eqb_spec k k0) as [->|Hne]; cbn [map fst In].
    + split; [intros [H|H]; [right; now left|right; now right]|].
      intros [H|[H|H]]; [left; now symmetry|now left|now right].
    + rewrite IH. tauto.
Qed.

Lemma count_add_nodup (d : dict Z) (k : string) :
  NoDup (keys d) -> NoDup (keys (count_add d k)).
Proof.
  unfold keys. induction d as [|[k0 n] d IH]; cbn [count_add map fst]; intro H.
  - constructor; [intros []|constructor].
  - destruct (String.eqb_spec k k0) as [->|Hne]; cbn [map fst]; [exact H|].
    inversion H as [|? ? Hnot Hd]; subst. constructor; [|now apply IH].
    intro Hin. apply (count_add_keys d k k0) in Hin.
    destruct Hin as [Hin|Hin]; [now apply Hne|now apply Hnot].
Qed.

Lemma count_add_get (d : dict Z) (k k' : string) :
  dict_get (count_add d k) k' 0
  = dict_get d k' 0 + (if String.eqb k k' then 1 else 0).
Proof.
  unfold dict_get. induction d as [|[k0 n] d IH]; cbn [count_add dict_get_opt].
  - rewrite (String.eqb_sym k' k). now destruct (String.eqb k k').
  - destruct (String.eqb_spec k k0) as [->|Hne]; cbn [dict_get_opt].
    + rewrite (String.eqb_sym k' k0). destruct (String.eqb k0 k'); lia.
    + destruct (String.eqb_spec k' k0) as [->|Hne']; [|exact IH].
      destruct (String.eqb_spec k k0); [contradiction|lia].
Qed.

Lemma count_add_sum (d : dict Z) (k : string) :
  fold_right Z.add 0 (values (count_add d k)) = fold_right Z.add 0 (values d) + 1.
Proof.
  unfold values. induction d as [|[k0 n] d IH]; cbn [count_add map snd fold_right];
    [lia|].
  destruct (String.eqb k k0); cbn [map snd fold_right]; [lia|]. rewrite IH. lia.
Qed.

Lemma count_by_from {A : Type} (key : A -> string) (l : list A) (d : dict Z) :
  let d' := fold_left (fun d x => count_add d (key x)) l d in
  (NoDup (keys d) -> NoDup (keys d'))
  /\ (forall k,
        dict_get d' k 0
        = dict_get d k 0
          + fold_left (fun total x => if String.eqb (key x) k then total + 1 else total)
              l 0)
  /\ (forall k, In k (keys d') <-> In k (keys d) \/ exists x, In x l /\ key x = k)
  /\ fold_right Z.add 0 (values d')
     = fold_right Z.add 0 (values d) + Z.of_nat (List.length l).
Proof.
  cbv zeta. revert d. induction l as [|x l IH]; intro d; cbn [fold_left].
  - split; [tauto|]. split; [intro k; lia|]. split; [|cbn; lia].
    intro k. split; [now left|]. intros [H|[x [[] _]]]. exact H.
  - destruct (IH (count_add d (key x))) as [H1 [H2 [H3 H4]]].
    split; [intro H; now apply H1, count_add_nodup|].
    split; [|split].
    + intro k. rewrite H2, count_add_get.
      assert (Hshift : forall (l0 : list A) (z : Z),
                 fold_left
                   (fun total x0 => if String.eqb (key x0) k then total + 1 else total)
                   l0 z
                 = z + fold_left
                         (fun total x0 =>
                            if String.eqb (key x0) k then total + 1 else total)
                         l0 0).
      { clear. induction l0 as [|y l0 IH0]; intro z; cbn [fold_left]; [lia|].
        rewrite IH0. rewrite (IH0 (if String.eqb (key y) k then 0 + 1 else 0)).
        destruct (String.eqb (key y) k); lia. }
      rewrite (Hshift l (if String.eqb (key x) k then 0 + 1 else 0)).
      destruct (String.eqb (key x) k); lia.
    + intro k. rewrite H3, count_add_keys. cbn [In]. split.
      * intros [[->|H]|[y [Hy Hk]]]; [right; exists x; split; [now left|reflexivity]
                                      |now left|right; exists y; split; [now right|exact Hk]].
      * intros [H|[y [[<-|Hy] Hk]]]; [left; now right|left; now left|].
        right. now exists y.
    + rewrite H4, count_add_sum. cbn [List.length]. lia.
Qed.

(** The rows of the environment breakdown: one row for every environment
    that a reported descriptor has and for no other, with the number of
    reported descriptors of that environment; the rows add up to the
    number of NEW resources plus the number of UNUSED resources of the
    executive summary. *)
Theorem environment_breakdown (new_resources unused_resources : list ResourceInfo) :
  let rows := Sheets.environments new_resources unused_resources in
  NoDup (keys rows)
  /\ (forall env,
        dict_get rows env 0
        = count_if (fun r => String.eqb (environment r) env)
            (new_resources ++ unused_resources))
  /\ (forall env,
        In env (keys rows)
        <-> exists r, In r (new_resources ++ unused_resources) /\ environment r = env)
  /\ fold_right Z.add 0 (values rows)
     = Z.of_nat (List.length new_resources) + Z.of_nat (List.length unused_resources).
Proof.
  cbv zeta. unfold Sheets.environments, count_by.
  destruct (count_by_from environment (new_resources ++ unused_resources) [])
    as [H1 [H2 [H3 H4]]].
  split; [apply H1; constructor|]. split; [|split].
  - intro env. rewrite H2. reflexivity.
  - intro env. rewrite H3. cbn [keys map In]. tauto.
  - rewrite H4, List.length_app. cbn [values map fold_right]. lia.
Qed.

End BreakdownFacts.

(** ** Amounts as text *)

Section TextFacts.

Local Open Scope string_scope.

Local Abbreviation chars := list_ascii_of_string.

Lemma append_nil_r (s : string) : s ++ "" = s.
Proof. induction s as [|c s IH]; simpl; [reflexivity|now rewrite IH]. Qed.

Lemma append_assoc (s t u : string) : (s ++ t) ++ u = s ++ t ++ u.
Proof. induction s as [|c s IH]; simpl; [reflexivity|now rewrite IH]. Qed.

Lemma length_append (s t : string) :
  String.length (s ++ t) = (String.length s + String.length t)%nat.
Proof. induction s as [|c s IH]; simpl; [reflexivity|now rewrite IH]. Qed.

Lemma rev_string_onto_append (acc s : string) :
  rev_string_onto acc s = rev_string_onto "" s ++ acc.
Proof.
  revert acc. induction s as [|c s IH]; intro acc; cbn [rev_string_onto]; [reflexivity|].
  rewrite (IH (String c acc)), (IH (String c "")), append_assoc. reflexivity.
Qed.

(** The piece under construction, once closed, is what was read. *)
Lemma rev_string_pushed (cur s : string) :
  rev_string (rev_string_onto cur s) = rev_string cur ++ s.
Proof.
  revert cur. induction s as [|c s IH]; intro cur; cbn [rev_string_onto].
  - now rewrite append_nil_r.
  - rewrite IH. unfold rev_string. cbn [rev_string_onto].
    rewrite (rev_string_onto_append (String c "")), append_assoc. reflexivity.
Qed.

Lemma prefix_other_char (a c : ascii) (sep s : string) :
  c <> a -> prefix (String a sep) (String c s) = false.
Proof.
  intro H. cbn [prefix]. destruct (ascii_dec a c) as [->|_]; [now contradiction H|].
  reflexivity.
Qed.

(** [split] passes over a text without the first character of the
    separator. *)
Lemma split_from_free (a : ascii) (sep s1 s2 cur : string) :
  ~ In a (chars s1) ->
  split_from (String a sep) 0 cur (s1 ++ s2)
  = split_from (String a sep) 0 (rev_string_onto cur s1) s2.
Proof.
  revert cur. induction s1 as [|c s1 IH]; intros cur H; [reflexivity|].
  cbn [String.append split_from rev_string_onto].
  rewrite prefix_other_char by (intro Hc; apply H; left; now symmetry).
  apply IH. intro Hin. apply H. now right.
Qed.

Lemma split_absent (sep s : string) :
  contains sep s = false -> split sep s = [s].
Proof.
  unfold split.
  assert (H : forall cur, contains sep s = false ->
                          split_from sep 0 cur s = [rev_string cur ++ s]).
  { induction s as [|c s IH]; intros cur Hc; cbn [split_from].
    - now rewrite append_nil_r.
    - cbn [contains] in Hc. apply orb_false_iff in Hc. destruct Hc as [Hp Hc].
      rewrite Hp, (IH _ Hc). unfold rev_string. cbn [rev_string_onto].
      rewrite (rev_string_onto_append (String c "")), append_assoc. reflexivity. }
  intro Hc. now rewrite (H "" Hc).
Qed.

Lemma contains_free (a : ascii) (sep s1 s2 : string) :
  ~ In a (chars s1) ->
  contains (String a sep) (s1 ++ s2) = contains (String a sep) s2.
Proof.
  induction s1 as [|c s1 IH]; intro H; [reflexivity|].
  cbn [String.append contains].
  rewrite prefix_other_char by (intro Hc; apply H; left; now symmetry).
  apply IH. intro Hin. apply H. now right.
Qed.

(** The first piece of [split] ends where the separator first stands. *)
Lemma split_free_then (a : ascii) (sep s1 s2 : string) :
  ~ In a (chars s1) ->
  prefix (String a sep) s2 = true ->
  split (String a sep) (s1 ++ s2)
  = s1 :: split_from (String a sep) (String.length sep) "" (drop 1 s2).
Proof.
  intros H Hp. unfold split. rewrite split_from_free by exact H.
  destruct s2 as [|c s2]; [discriminate|].
  cbn [split_from drop]. rewrite Hp, rev_string_pushed.
  replace (String.length (String a sep) - 1)%nat with (String.length sep)
    by (cbn [String.length]; lia).
  reflexivity.
Qed.

Lemma prefix_here (s t : string) : prefix s (s ++ t) = true.
Proof.
  induction s as [|c s IH]; [now destruct t|]. cbn [String.append prefix].
  destruct (ascii_dec c c) as [_|H]; [exact IH|now contradiction H].
Qed.

Lemma free_append (a : ascii) (s t : string) :
  ~ In a (chars s) -> ~ In a (chars t) -> ~ In a (chars (s ++ t)).
Proof.
  intros Hs Ht. rewrite chars_append, List.in_app_iff. tauto.
Qed.

End TextFacts.

Section NumberFacts.

Local Open Scope string_scope.
Local Open Scope Z_scope.

Local Abbreviation chars := list_ascii_of_string.
Local Abbreviation all_digits s := (forall c, In c (chars s) -> is_digit c = true).

Lemma digits_value_stop (s : string) (c : ascii) (t : string) (acc : Z) :
  is_digit c = false -> digits_value acc (s ++ String c t) = None.
Proof.
  intro Hc. revert acc. induction s as [|a s IH]; intro acc; cbn [String.append digits_value].
  - now rewrite Hc.
  - destruct (is_digit a); [apply IH|reflexivity].
Qed.

Lemma digits_value_lower (s : string) (acc v : Z) :
  0 <= acc -> digits_value acc s = Some v ->
  acc * 10 ^ Z.of_nat (String.length s) <= v.
Proof.
  revert acc. induction s as [|c s IH]; intros acc Hacc H; cbn [digits_value] in H.
  - injection H as <-. cbn. lia.
  - destruct (is_digit c); [|discriminate].
    assert (Hd : 0 <= digit_value c) by (unfold digit_value; lia).
    apply IH in H; [|lia].
    cbn [String.length]. rewrite Nat2Z.inj_succ, Z.pow_succ_r by lia.
    assert (Hp : 0 <= 10 ^ Z.of_nat (String.length s)) by (apply Z.pow_nonneg; lia).
    nia.
Qed.

Lemma digits_value_uint_acc (d : Decimal.uint) (acc : positive) :
  digits_value (Z.pos acc) (NilEmpty.string_of_uint d)
  = Some (Z.pos (Pos.of_uint_acc d acc)).
Proof.
  revert acc. induction d; intro acc; cbn [NilEmpty.string_of_uint Pos.of_uint_acc];
    [reflexivity|..];
    cbn [digits_value]; match goal with
                        | |- context [is_digit ?c] =>
                            change (is_digit c) with true; cbv iota;
                            let v := eval vm_compute in (digit_value c) in
                            change (digit_value c) with v
                        end;
    rewrite <- IHd; f_equal; lia.
Qed.

Lemma digits_value_uint (d : Decimal.uint) :
  digits_value 0 (NilEmpty.string_of_uint d) = Some (Z.of_N (Pos.of_uint d)).
Proof.
  induction d; cbn [NilEmpty.string_of_uint Pos.of_uint]; [reflexivity|exact IHd|..];
    cbn [digits_value]; match goal with
                        | |- context [is_digit ?c] =>
                            change (is_digit c) with true; cbv iota;
                            let v := eval vm_compute in (digit_value c) in
                            change (digit_value c) with v
                        end;
    cbn [Z.of_N]; rewrite <- digits_value_uint_acc; reflexivity.
Qed.

Lemma str_of_pos (p : positive) :
  str_of_Z (Z.pos p) = NilEmpty.string_of_uint (Pos.to_uint p).
Proof.
  unfold str_of_Z. cbn [Z.to_int NilZero.string_of_int]. unfold NilZero.string_of_uint.
  destruct (Pos.to_uint p) eqn:E; try reflexivity.
  now apply Unsigned.to_uint_nonnil in E.
Qed.

(** [int(str(n))] is [n]. *)
Lemma digits_value_str_of_Z (n : Z) :
  0 <= n -> digits_value 0 (str_of_Z n) = Some n.
Proof.
  intro H. destruct n as [|p|p]; [reflexivity| |lia].
  rewrite str_of_pos, digits_value_uint, DecimalPos.Unsigned.of_to. reflexivity.
Qed.

Lemma str_of_Z_digits (n : Z) : 0 <= n -> all_digits (str_of_Z n).
Proof.
  intros H c Hc. destruct n as [|p|p]; [|rewrite str_of_pos in Hc; revert Hc; apply uint_digits|lia].
  cbn in Hc. destruct Hc as [<-|[]]. reflexivity.
Qed.

Lemma str_of_Z_nonempty (n : Z) : str_of_Z n <> "".
Proof.
  unfold str_of_Z, NilZero.string_of_int, NilZero.string_of_uint.
  destruct (Z.to_int n) as [d|d]; [|discriminate].
  destruct d; discriminate.
Qed.

(** A positive number is written without a leading zero. *)
Lemma to_uint_head (p : positive) (d : Decimal.uint) : Pos.to_uint p <> Decimal.D0 d.
Proof.
  intro E.
  assert (Hn : Decimal.unorm (Pos.to_uint p) = Pos.to_uint p).
  { rewrite <- (DecimalPos.Unsigned.to_of (Pos.to_uint p)).
    now rewrite DecimalPos.Unsigned.of_to. }
  rewrite E in Hn. unfold Decimal.unorm in Hn.
  destruct (Decimal.nzhead (Decimal.D0 d)) eqn:En; try discriminate Hn.
  - injection Hn as <-. now apply (Unsigned.to_uint_nonzero p).
  - now apply nzhead_nonzero in En.
Qed.

(** A number below [10 ^ width] is written with at most [width] digits. *)
Lemma str_of_Z_length (n : Z) (width : nat) :
  0 <= n < 10 ^ Z.of_nat width -> (1 <= width)%nat ->
  (String.length (str_of_Z n) <= width)%nat.
Proof.
  intros [H0 H1] Hw. destruct n as [|p|p]; [exact Hw| |lia].
  pose proof (digits_value_str_of_Z (Z.pos p) H0) as Hv.
  rewrite str_of_pos in *.
  pose proof (to_uint_head p) as Hhead.
  destruct (Pos.to_uint p) as [|d|d|d|d|d|d|d|d|d|d];
    [now cbn|now contradiction (Hhead d)|..];
    cbn [NilEmpty.string_of_uint digits_value String.length] in *;
    match type of Hv with
    | context [is_digit ?c] =>
        change (is_digit c) with true in Hv; cbv iota in Hv;
        let v := eval vm_compute in (10 * 0 + digit_value c) in
        change (10 * 0 + digit_value c) with v in Hv
    end;
    apply digits_value_lower in Hv; try lia;
    assert (Hlt : 10 ^ Z.of_nat (String.length (NilEmpty.string_of_uint d))
                  < 10 ^ Z.of_nat width)
      by (assert (0 <= 10 ^ Z.of_nat (String.length (NilEmpty.string_of_uint d)))
            by (apply Z.pow_nonneg; lia); nia);
    apply Z.pow_lt_mono_r_iff in Hlt; lia.
Qed.

Lemma zeros_value (k : nat) (s : string) :
  digits_value 0 (zeros k ++ s) = digits_value 0 s.
Proof. induction k as [|k IH]; [reflexivity|exact IH]. Qed.

Lemma zeros_chars (k : nat) : all_digits (zeros k).
Proof.
  induction k as [|k IH]; intros c; cbn; [contradiction|].
  intros [<-|H]; [reflexivity|now apply IH].
Qed.

Lemma zeros_length (k : nat) : String.length (zeros k) = k.
Proof. induction k as [|k IH]; [reflexivity|cbn; now rewrite IH]. Qed.

(** The digits after the point: their value and their number. *)
Lemma pad_zeros_spec (n : Z) (width : nat) :
  0 <= n < 10 ^ Z.of_nat width -> (1 <= width)%nat ->
  digits_value 0 (pad_zeros width (str_of_Z n)) = Some n
  /\ String.length (pad_zeros width (str_of_Z n)) = width
  /\ all_digits (pad_zeros width (str_of_Z n)).
Proof.
  intros Hn Hw. unfold pad_zeros.
  pose proof (str_of_Z_length n width Hn Hw) as Hl.
  split; [|split].
  - rewrite zeros_value. apply digits_value_str_of_Z. lia.
  - rewrite length_append, zeros_length. lia.
  - intros c. rewrite chars_append, List.in_app_iff.
    intros [H|H]; [revert H; apply zeros_chars|].
    revert H. apply str_of_Z_digits. lia.
Qed.

Lemma round_half_even_nonneg (x : Q) : 0 <= Qnum x -> 0 <= round_half_even x.
Proof.
  intro H. unfold round_half_even.
  assert (H0 : 0 <= Qnum x / Z.pos (Qden x)) by (apply Z.div_pos; lia).
  repeat match goal with |- context [if ?c then _ else _] => destruct c end; lia.
Qed.

End NumberFacts.

Section AmountFacts.

Local Open Scope string_scope.

Local Abbreviation chars := list_ascii_of_string.
Local Abbreviation all_digits s := (forall c, In c (chars s) -> is_digit c = true).

Lemma digits_free (a : ascii) (s : string) :
  is_digit a = false -> all_digits s -> ~ In a (chars s).
Proof. intros Ha Hs Hin. apply Hs in Hin. congruence. Qed.

Lemma contains_absent (a : ascii) (sep s : string) :
  ~ In a (chars s) -> contains (String a sep) s = false.
Proof.
  intro H. rewrite <- (append_nil_r s), contains_free by exact H. reflexivity.
Qed.

(** [float] on digits, a point and digits. *)
Lemma float_plain_parts (w f : string) (wv fv : Z) :
  all_digits w -> all_digits f -> w <> "" ->
  digits_value 0 w = Some wv -> digits_value 0 f = Some fv ->
  float_plain (w ++ "." ++ f)
  = Some (inject_Z wv + Qmake fv (Pos.of_nat (Nat.pow 10 (String.length f)))).
Proof.
  intros Hw Hf Hne Hwv Hfv. unfold float_plain.
  rewrite split_free_then;
    [|now apply digits_free|apply prefix_here].
  cbn [String.length drop String.append].
  change (split_from "." 0 "" f) with (split "." f).
  rewrite split_absent by (apply contains_absent; now apply digits_free).
  rewrite Hwv, Hfv.
  assert (Hn : nonempty w = true).
  { unfold nonempty. apply negb_true_iff. now apply String.eqb_neq. }
  rewrite Hn. reflexivity.
Qed.

Lemma scale_positive (digits : nat) : (0 < 10 ^ Z.of_nat digits)%Z.
Proof. apply Z.pow_pos_nonneg; lia. Qed.

Lemma scale_denominator (digits : nat) :
  Z.pos (Pos.of_nat (Nat.pow 10 digits)) = (10 ^ Z.of_nat digits)%Z.
Proof.
  assert (H : Nat.pow 10 digits <> 0%nat) by (apply Nat.pow_nonzero; lia).
  rewrite <- (positive_nat_Z (Pos.of_nat (Nat.pow 10 digits))), Nat2Pos.id by exact H.
  now rewrite Nat2Z.inj_pow.
Qed.

(** The text of a non-negative amount: digits, a point and [digits]
    digits, and the number that [float] reads back from it. *)
Lemma format_fixed_parts (k : nat) (x : Q) :
  (0 <= Qnum x)%Z ->
  let scale := (10 ^ Z.of_nat (S k))%Z in
  let n := round_half_even (x * inject_Z scale) in
  exists w f,
    format_fixed (S k) x = w ++ "." ++ f
    /\ all_digits w /\ w <> "" /\ all_digits f
    /\ float_plain (w ++ "." ++ f)
       = Some (inject_Z (n / scale) + Qmake (n mod scale) (Pos.of_nat (Nat.pow 10 (S k)))).
Proof.
  intro Hx. cbv zeta.
  assert (Habs : Qabs x = x).
  { destruct x as [a d]. unfold Qabs. cbn [Qnum] in Hx. now rewrite Z.abs_eq. }
  pose proof (scale_positive (S k)) as Hscale.
  set (scale := (10 ^ Z.of_nat (S k))%Z) in *.
  set (n := round_half_even (x * inject_Z scale)).
  assert (Hn : (0 <= n)%Z).
  { apply round_half_even_nonneg. cbn [Qnum Qmult inject_Z]. nia. }
  assert (Hw : (0 <= n / scale)%Z) by (apply Z.div_pos; lia).
  assert (Hf : (0 <= n mod scale < scale)%Z) by (apply Z.mod_pos_bound; lia).
  destruct (pad_zeros_spec (n mod scale) (S k)) as [Hfv [Hfl Hfd]]; [exact Hf|lia|].
  exists (str_of_Z (n / scale)), (pad_zeros (S k) (str_of_Z (n mod scale))).
  split; [|split; [now apply str_of_Z_digits|split; [apply str_of_Z_nonempty|split]]].
  - unfold format_fixed. rewrite Habs. fold scale. fold n.
    destruct (Z.ltb_spec (Qnum x) 0) as [Hneg|_]; [lia|]. reflexivity.
  - exact Hfd.
  - rewrite (float_plain_parts _ _ (n / scale)%Z (n mod scale)%Z);
      try assumption;
      [now rewrite Hfl|now apply str_of_Z_digits|apply str_of_Z_nonempty
       |now apply digits_value_str_of_Z].
Qed.

Lemma amount_value (digits : nat) (n : Z) :
  let scale := (10 ^ Z.of_nat digits)%Z in
  ((inject_Z (n / scale) + Qmake (n mod scale) (Pos.of_nat (Nat.pow 10 digits)))
   * inject_Z scale
   == inject_Z n)%Q.
Proof.
  cbv zeta. pose proof (scale_positive digits) as Hscale.
  pose proof (scale_denominator digits) as Hden.
  set (scale := (10 ^ Z.of_nat digits)%Z) in *.
  unfold Qeq, Qplus, Qmult, inject_Z. cbn [Qnum Qden].
  rewrite !Pos2Z.inj_mul, Hden.
  pose proof (Z.div_mod n scale ltac:(lia)) as Hdm.
  nia.
Qed.

(** Rounding to the nearest integer moves a number by a half at most. *)
Lemma round_half_even_close (y : Q) :
  (Qabs (inject_Z (round_half_even y) - y) <= 1 # 2)%Q.
Proof.
  destruct y as [a d]. unfold round_half_even. cbn [Qnum Qden].
  pose proof (Z.div_mod a (Z.pos d) ltac:(lia)) as Hdm.
  pose proof (Z.mod_pos_bound a (Z.pos d) ltac:(lia)) as Hr.
  set (fl := (a / Z.pos d)%Z) in *. set (r := (a mod Z.pos d)%Z) in *.
  assert (H : forall n : Z, (2 * Z.abs (n * Z.pos d - a) <= Z.pos d)%Z ->
                            (Qabs (inject_Z n - (a # d)) <= 1 # 2)%Q).
  { intros n Hn. unfold Qle, Qabs, Qminus, Qplus, Qopp, inject_Z. cbn [Qnum Qden].
    rewrite !Pos2Z.inj_mul. lia. }
  destruct (Z.ltb_spec (2 * r) (Z.pos d)); [apply H; lia|].
  destruct (Z.ltb_spec (Z.pos d) (2 * r)); [apply H; lia|].
  destruct (Z.even fl); apply H; lia.
Qed.

End AmountFacts.

Section CostTextFacts.

Local Open Scope string_scope.

Local Abbreviation chars := list_ascii_of_string.
Local Abbreviation all_digits s := (forall c, In c (chars s) -> is_digit c = true).

(** The text of an amount: digits, a point, digits. *)
Local Abbreviation amount_text s :=
  (exists w f, s = w ++ "." ++ f /\ all_digits w /\ w <> "" /\ all_digits f).

Lemma amount_text_class (s : string) (c : ascii) :
  amount_text s -> In c (chars s) -> is_digit_or_dot c = true.
Proof.
  intros [w [f [-> [Hw [_ Hf]]]]]. rewrite !chars_append, !List.in_app_iff.
  unfold is_digit_or_dot. cbn [chars In].
  intros [H|[[<-|[]]|H]]; [now rewrite (Hw c H)|reflexivity|now rewrite (Hf c H)].
Qed.

Lemma amount_text_free (s : string) (a : ascii) :
  amount_text s -> is_digit_or_dot a = false -> ~ In a (chars s).
Proof.
  intros Hs Ha Hin. apply (amount_text_class s a Hs) in Hin. congruence.
Qed.

Lemma amount_text_nonempty (s : string) : amount_text s -> nonempty s = true.
Proof.
  intros [w [f [-> [_ [Hne _]]]]]. destruct w; [contradiction|reflexivity].
Qed.

Lemma contains_prefix (sub s : string) :
  prefix sub s = true -> contains sub s = true.
Proof. intro H. destruct s; cbn [contains]; rewrite H; reflexivity. Qed.

(** The first piece of [split]: up to the separator, or everything. *)
Lemma first_piece (a : ascii) (sep s1 s2 : string) :
  ~ In a (chars s1) ->
  s2 = "" \/ prefix (String a sep) s2 = true ->
  index (split (String a sep) (s1 ++ s2)) 0 = Some s1.
Proof.
  intros H [->|Hp].
  - rewrite append_nil_r, split_absent by now apply contains_absent. reflexivity.
  - rewrite split_free_then by assumption. reflexivity.
Qed.

(** What follows the first ['$'] of a text that starts with it. *)
Lemma after_dollar (s1 s2 : string) :
  ~ In "$"%char (chars s1) ->
  s2 = "" \/ prefix "$" s2 = true ->
  index (split "$" ("$" ++ s1 ++ s2)) 1 = Some s1.
Proof.
  intros H Hs2.
  change ("$" ++ s1 ++ s2) with ("" ++ "$" ++ s1 ++ s2).
  rewrite (split_free_then "$" "" "" ("$" ++ s1 ++ s2));
    [|intros []|apply prefix_here].
  cbn [String.length drop String.append index nth_error].
  exact (first_piece "$" "" s1 s2 H Hs2).
Qed.

Lemma replace_absent (a : ascii) (s : string) :
  ~ In a (chars s) -> replace (String a "") "" s = s.
Proof.
  intro H. unfold replace. rewrite split_absent by now apply contains_absent.
  reflexivity.
Qed.

Lemma span_class (s : string) (c : ascii) (rest : string) :
  (forall a, In a (chars s) -> is_digit_or_dot a = true) ->
  is_digit_or_dot c = false ->
  span_digits_dots (s ++ String c rest) = (s, String c rest).
Proof.
  intros Hs Hc. induction s as [|a s IH]; cbn [String.append span_digits_dots].
  - now rewrite Hc.
  - rewrite (Hs a) by now left. rewrite IH; [reflexivity|].
    intros b Hb. apply Hs. now right.
Qed.

Lemma search_dollar_month_head (s group : string) :
  Console.dollar_number_month s = Some group ->
  Console.search_dollar_month s = Some group.
Proof. intro H. destruct s; cbn [Console.search_dollar_month]; now rewrite H. Qed.

Lemma search_dollar_head (s group : string) :
  Console.dollar_number s = Some group -> Console.search_dollar s = Some group.
Proof. intro H. destruct s; cbn [Console.search_dollar]; now rewrite H. Qed.

Lemma month_follows_skip (s1 s2 : string) :
  ~ In Advisor.newline (chars s1) ->
  Console.month_follows s2 = true -> Console.month_follows (s1 ++ s2) = true.
Proof.
  intros H H2. induction s1 as [|c s1 IH]; [exact H2|].
  cbn [String.append Console.month_follows].
  destruct (Ascii.eqb_spec c Advisor.newline) as [->|_].
  - exfalso. apply H. now left.
  - rewrite IH; [apply orb_true_r|]. intro Hin. apply H. now right.
Qed.

Lemma month_follows_here (s : string) : Console.month_follows ("month" ++ s) = true.
Proof.
  pose proof (prefix_here "month" s) as H.
  destruct ("month" ++ s); cbn [Console.month_follows]; now rewrite H.
Qed.

(** A cost string that starts with its monthly amount is read alike by
    the three readers: the cost loops of the spreadsheet and of the
    notification, the savings loop of the console summary and the
    opportunity rows. *)
Lemma monthly_string_readers (amount r1 s2 : string) :
  amount_text amount ->
  ~ In "$"%char (chars r1) ->
  s2 = "" \/ prefix "$" s2 = true ->
  let s := "$" ++ amount ++ "/month" ++ r1 ++ s2 in
  Report.monthly_amount Q float_plain s = float_plain amount
  /\ Console.savings_amount s = float_plain amount
  /\ Sheets.cost_value float_plain s = float_plain amount.
Proof.
  intros Ha Hr1 Hs2. cbv zeta.
  assert (Hdollar : contains "$" ("$" ++ amount ++ "/month" ++ r1 ++ s2) = true)
    by (apply contains_prefix, prefix_here).
  assert (Hmonth : contains "month" ("$" ++ amount ++ "/month" ++ r1 ++ s2) = true).
  { apply (contains_append_r "month" "$" (amount ++ "/month" ++ r1 ++ s2)).
    apply (contains_append_r "month" amount ("/month" ++ r1 ++ s2)).
    apply (contains_append_r "month" "/" ("month" ++ r1 ++ s2)).
    apply contains_prefix, (prefix_here "month"). }
  assert (Hfree : forall a, is_digit_or_dot a = false -> ~ In a (chars amount))
    by (intros a; now apply amount_text_free).
  assert (Hafter : index (split "$" ("$" ++ amount ++ "/month" ++ r1 ++ s2)) 1
                   = Some (amount ++ "/month" ++ r1)).
  { rewrite <- (after_dollar (amount ++ "/month" ++ r1) s2); [|..|exact Hs2].
    - now rewrite !append_assoc.
    - apply free_append; [now apply Hfree|].
      apply (free_append "$" "/month" r1); [|exact Hr1].
      cbn. intuition discriminate. }
  split; [|split].
  - unfold Report.monthly_amount, Report.cost_str.
    rewrite Hdollar, Hmonth, Hafter. cbn [andb].
    rewrite (first_piece "/" "month" amount ("/month" ++ r1));
      [|now apply Hfree|right; apply (prefix_here "/month")].
    rewrite <- (append_nil_r amount) at 1.
    rewrite (first_piece " " "" amount ""); [|now apply Hfree|now left].
    rewrite (replace_absent ","); [reflexivity|now apply Hfree].
  - unfold Console.savings_amount. rewrite Hdollar, Hmonth. cbn [andb].
    rewrite (search_dollar_month_head _ amount); [reflexivity|].
    unfold Console.dollar_number_month.
    rewrite (prefix_here "$").
    change (drop 1 ("$" ++ amount ++ "/month" ++ r1 ++ s2))
      with (amount ++ String "/" ("month" ++ r1 ++ s2)).
    rewrite (span_class amount "/" ("month" ++ r1 ++ s2));
      [|intros a; now apply amount_text_class|reflexivity].
    rewrite (amount_text_nonempty amount Ha). cbn [andb].
    change (String "/" ("month" ++ r1 ++ s2)) with ("/" ++ "month" ++ r1 ++ s2).
    rewrite month_follows_skip; [reflexivity| |apply month_follows_here].
    cbn. intuition discriminate.
  - unfold Sheets.cost_value. rewrite Hdollar, Hafter.
    rewrite (first_piece "/" "" amount ("/month" ++ r1));
      [|now apply Hfree|right; apply (prefix_here "/" ("month" ++ r1))].
    rewrite <- (append_nil_r amount) at 1.
    rewrite (first_piece " " "" amount ""); [|now apply Hfree|now left].
    rewrite (replace_absent ","); [reflexivity|now apply Hfree].
Qed.

End CostTextFacts.

Section ReadBackAmounts.

Local Open Scope string_scope.

Local Abbreviation chars := list_ascii_of_string.
Local Abbreviation all_digits s := (forall c, In c (chars s) -> is_digit c = true).
Local Abbreviation amount_text s :=
  (exists w f, s = w ++ "." ++ f /\ all_digits w /\ w <> "" /\ all_digits f).

(** What a float prints as: a word for what is not a number, or an amount
    with or without a sign. *)
Local Abbreviation signed s :=
  (exists sign amount,
     s = sign ++ amount /\ (sign = "" \/ sign = "-") /\ amount_text amount).
Local Abbreviation printed s :=
  (s = "nan" \/ s = "inf" \/ s = "-inf" \/ signed s).

Lemma numerator_nonneg (x : Q) : (0 <= x)%Q <-> (0 <= Qnum x)%Z.
Proof. unfold Qle. cbn [Qnum Qden]. lia. Qed.

Lemma format_fixed_text (k : nat) (x : Q) :
  (0 <= x)%Q -> amount_text (format_fixed (S k) x).
Proof.
  intro Hx. apply numerator_nonneg in Hx.
  destruct (format_fixed_parts k x Hx) as [w [f [E [Hw [Hne [Hf _]]]]]].
  exists w, f. now rewrite E.
Qed.

(** The sign of a formatted amount, and the rest. *)
Lemma format_fixed_sign (k : nat) (x : Q) :
  format_fixed (S k) x
  = (if (Qnum x <? 0)%Z then "-" else "") ++ format_fixed (S k) (Qabs x).
Proof.
  unfold format_fixed.
  assert (Ha : Qabs (Qabs x) = Qabs x).
  { destruct x as [a d]. unfold Qabs.
    now rewrite (Z.abs_eq (Z.abs a)) by apply Z.abs_nonneg. }
  assert (Hs : (Qnum (Qabs x) <? 0)%Z = false).
  { destruct x as [a d]. cbn [Qabs Qnum]. apply Z.ltb_ge, Z.abs_nonneg. }
  rewrite Ha, Hs. reflexivity.
Qed.

Lemma value_nonneg (m : positive) (e : Z) : (0 <= Double.value false m e)%Q.
Proof.
  unfold Double.value. apply numerator_nonneg.
  destruct (0 <=? e)%Z eqn:E; cbn [Qnum inject_Z]; [|lia].
  apply Z.leb_le in E. apply Z.mul_nonneg_nonneg; [lia|].
  apply Z.pow_nonneg. lia.
Qed.

(** A finite double that is not negative prints as the text of the
    number it stands for. *)
Lemma format_plain (k : nat) (x : Double.double) :
  Double.plain x = true ->
  exists v,
    Double.to_Q x = Some v /\ (0 <= v)%Q
    /\ Double.format (S k) x = format_fixed (S k) v.
Proof.
  destruct x as [[|]|[|]| |[|] m e]; try discriminate; intros _.
  - exists 0%Q. repeat split. discriminate.
  - exists (Double.value false m e). repeat split. apply value_nonneg.
Qed.

Lemma format_plain_text (k : nat) (x : Double.double) :
  Double.plain x = true -> amount_text (Double.format (S k) x).
Proof.
  intro H. destruct (format_plain k x H) as [v [_ [Hv ->]]].
  now apply format_fixed_text.
Qed.

(** A double that is a number prints as an amount, with a sign where it
    is negative. *)
Lemma format_finite (k : nat) (x : Double.double) :
  Double.finite x = true -> signed (Double.format (S k) x).
Proof.
  destruct x as [s|s| |s m e]; try discriminate; intros _; cbn [Double.format].
  - exists (if s then "-" else ""), (format_fixed (S k) 0).
    split; [reflexivity|]. split; [destruct s; tauto|].
    apply format_fixed_text. discriminate.
  - rewrite format_fixed_sign.
    eexists _, _. split; [reflexivity|].
    split; [destruct (_ <? 0)%Z; tauto|].
    apply format_fixed_text, Qabs_nonneg.
Qed.

Lemma format_printed (k : nat) (x : Double.double) :
  printed (Double.format (S k) x).
Proof.
  destruct (Double.finite x) eqn:E; [do 3 right; now apply format_finite|].
  destruct x as [s|s| |s m e]; try discriminate; cbn [Double.format];
    [destruct s|]; tauto.
Qed.

(** What [float] reads from a formatted amount, and how far it is from
    the amount. *)
Lemma format_fixed_reads_back (k : nat) (x : Q) :
  (0 <= x)%Q ->
  exists amount,
    float_plain (format_fixed (S k) x) = Some amount
    /\ (amount * inject_Z (10 ^ Z.of_nat (S k))
        == inject_Z (round_half_even (x * inject_Z (10 ^ Z.of_nat (S k)))))%Q.
Proof.
  intro Hx.
  destruct (format_fixed_parts k x (proj1 (numerator_nonneg x) Hx))
    as [w [f [E [_ [_ [_ Hv]]]]]].
  rewrite <- E in Hv. eexists. split; [exact Hv|].
  exact (amount_value (S k) (round_half_even (x * inject_Z (10 ^ Z.of_nat (S k))))).
Qed.

Lemma rounded_amount_close (digits : nat) (x amount : Q) :
  (amount * inject_Z (10 ^ Z.of_nat digits)
   == inject_Z (round_half_even (x * inject_Z (10 ^ Z.of_nat digits))))%Q ->
  (Qabs (amount - x) * inject_Z (10 ^ Z.of_nat digits) <= 1 # 2)%Q.
Proof.
  intro Ha. set (scale := (10 ^ Z.of_nat digits)%Z) in *.
  assert (Hs : (0 <= inject_Z scale)%Q).
  { apply numerator_nonneg. cbn [Qnum inject_Z]. pose proof (scale_positive digits). lia. }
  rewrite <- (Qabs_pos (inject_Z scale)) at 1 by exact Hs.
  rewrite <- Qabs_Qmult.
  assert (Heq : ((amount - x) * inject_Z scale
                 == inject_Z (round_half_even (x * inject_Z scale)) - x * inject_Z scale)%Q).
  { rewrite <- Ha. ring. }
  rewrite Heq. apply round_half_even_close.
Qed.

(** Formatting a non-negative amount with at least one decimal and
    reading the text back with [float] gives the amount rounded to the
    digits printed, ties to even: at most half a unit of the last digit
    away from the amount. *)
Theorem formatted_amount_reads_back (digits : nat) (x : Q) :
  (1 <= digits)%nat ->
  (0 <= x)%Q ->
  exists amount,
    float_plain (format_fixed digits x) = Some amount
    /\ (amount * inject_Z (10 ^ Z.of_nat digits)
        == inject_Z (round_half_even (x * inject_Z (10 ^ Z.of_nat digits))))%Q
    /\ (Qabs (amount - x) * inject_Z (10 ^ Z.of_nat digits) <= 1 # 2)%Q.
Proof.
  intros Hd Hx. destruct digits as [|k]; [lia|].
  destruct (format_fixed_reads_back k x Hx) as [amount [Hread Hvalue]].
  exists amount. split; [exact Hread|]. split; [exact Hvalue|].
  now apply rounded_amount_close.
Qed.

(** What [float] reads from the text of a finite double that is not
    negative: the number the double stands for, rounded to the digits
    printed. *)
Lemma format_plain_reads_back (k : nat) (x : Double.double) :
  Double.plain x = true ->
  exists value amount,
    Double.to_Q x = Some value
    /\ float_plain (Double.format (S k) x) = Some amount
    /\ (amount * inject_Z (10 ^ Z.of_nat (S k))
        == inject_Z (round_half_even (value * inject_Z (10 ^ Z.of_nat (S k)))))%Q.
Proof.
  intro H. destruct (format_plain k x H) as [v [Hq [Hv ->]]].
  destruct (format_fixed_reads_back k v Hv) as [amount [Hread Hvalue]].
  now exists v, amount.
Qed.

(** No character of a printed float is outside the digits, the point, the
    sign and the letters of ["nan"] and ["inf"]. *)
Lemma printed_free (s : string) (a : ascii) :
  printed s ->
  is_digit_or_dot a = false ->
  existsb (Ascii.eqb a) (chars "-naif") = false ->
  ~ In a (chars s).
Proof.
  intros Hs Hc Hw Hin.
  assert (Hword : forall word, In a (chars word) ->
                    existsb (Ascii.eqb a) (chars word) = true).
  { intros word H. apply existsb_exists. exists a. split; [exact H|apply Ascii.eqb_refl]. }
  assert (Hminus : Ascii.eqb a "-" = false).
  { cbn [chars existsb] in Hw. now apply orb_false_iff in Hw. }
  destruct Hs as [->|[->|[->|[sign [amount [-> [Hsign Ha]]]]]]].
  - apply Hword in Hin. cbn [chars existsb] in Hin, Hw.
    repeat (apply orb_false_iff in Hw; destruct Hw as [? Hw]).
    repeat (apply orb_true_iff in Hin; destruct Hin as [Hin|Hin]; [congruence|]).
    discriminate.
  - apply Hword in Hin. cbn [chars existsb] in Hin, Hw.
    repeat (apply orb_false_iff in Hw; destruct Hw as [? Hw]).
    repeat (apply orb_true_iff in Hin; destruct Hin as [Hin|Hin]; [congruence|]).
    discriminate.
  - apply Hword in Hin. cbn [chars existsb] in Hin, Hw.
    repeat (apply orb_false_iff in Hw; destruct Hw as [? Hw]).
    repeat (apply orb_true_iff in Hin; destruct Hin as [Hin|Hin]; [congruence|]).
    discriminate.
  - rewrite chars_append, in_app_iff in Hin. destruct Hin as [Hin|Hin].
    + destruct Hsign as [->| ->]; [contradiction|].
      cbn in Hin. destruct Hin as [<-|[]]. discriminate.
    + now apply (amount_text_free amount a Ha).
Qed.

(** [float] refuses a printed float that is followed by a unit. *)
Lemma float_plain_stop (s t : string) (c : ascii) :
  printed s -> is_digit_or_dot c = false ->
  ~ In "."%char (chars t) ->
  float_plain (s ++ String c t) = None.
Proof.
  intros Hs Hc Ht.
  assert (Hfree : ~ In "."%char (chars (String c t))).
  { cbn [list_ascii_of_string In]. intros [->|H]; [discriminate Hc|now apply Ht]. }
  assert (Hword : forall word letter rest,
             word = String letter rest -> is_digit letter = false ->
             ~ In "."%char (chars word) ->
             float_plain (word ++ String c t) = None).
  { intros word letter rest -> Hl Hw. unfold float_plain.
    rewrite split_absent
      by (apply contains_absent, free_append; assumption).
    cbn [String.append digits_value]. rewrite Hl.
    now destruct (nonempty _). }
  destruct Hs as [->|[->|[->|[sign [amount [-> [Hsign Ha]]]]]]].
  - apply (Hword _ "n"%char "an"); [reflexivity|reflexivity|].
    cbn. intuition discriminate.
  - apply (Hword _ "i"%char "nf"); [reflexivity|reflexivity|].
    cbn. intuition discriminate.
  - apply (Hword _ "-"%char "inf"); [reflexivity|reflexivity|].
    cbn. intuition discriminate.
  - destruct Ha as [w [f [-> [Hw [Hne Hf]]]]]. unfold float_plain.
    replace ((sign ++ w ++ "." ++ f) ++ String c t)
      with ((sign ++ w) ++ "." ++ f ++ String c t)
      by now rewrite !append_assoc.
    rewrite split_free_then; [| |apply (prefix_here ".")].
    + change (drop 1 ("." ++ f ++ String c t)) with (f ++ String c t).
      change (split_from "." (String.length "") "" (f ++ String c t))
        with (split "." (f ++ String c t)).
      rewrite split_absent
        by (apply contains_absent, free_append; [now apply digits_free|exact Hfree]).
      rewrite (digits_value_stop f c t 0).
      * destruct (nonempty (sign ++ w) || nonempty (f ++ String c t)); [|reflexivity].
        now destruct (digits_value 0 (sign ++ w)).
      * unfold is_digit_or_dot in Hc. now apply orb_false_iff in Hc.
    + apply free_append; [|now apply digits_free].
      destruct Hsign as [->| ->]; cbn; intuition discriminate.
Qed.

(** The readers on a cost string that starts with a daily amount: the
    cost loops of the spreadsheet and of the notification read nothing. *)
Lemma daily_string_unread (D M rest : string) :
  printed D ->
  Report.monthly_amount Q float_plain
    ("$" ++ (D ++ "/day, ") ++ "$" ++ M ++ "/month" ++ rest) = None.
Proof.
  intro Hd.
  assert (Hfree : forall a, is_digit_or_dot a = false ->
                    existsb (Ascii.eqb a) (chars "-naif") = false ->
                    ~ In a (chars D))
    by (intros a; now apply printed_free).
  assert (Hafter : index (split "$" ("$" ++ (D ++ "/day, ")
                                         ++ "$" ++ M ++ "/month" ++ rest)) 1
                   = Some (D ++ "/day, ")).
  { apply after_dollar; [|right; apply (prefix_here "$")].
    apply free_append; [now apply Hfree|]. cbn. intuition discriminate. }
  assert (Hdollar : contains "$" ("$" ++ (D ++ "/day, ")
                                      ++ "$" ++ M ++ "/month" ++ rest) = true)
    by apply contains_prefix, (prefix_here "$").
  assert (Hmonth : contains "month" ("$" ++ (D ++ "/day, ")
                                         ++ "$" ++ M ++ "/month" ++ rest) = true).
  { apply (contains_append_r "month" "$").
    apply (contains_append_r "month" (D ++ "/day, ")).
    apply (contains_append_r "month" "$").
    apply (contains_append_r "month" M).
    apply (contains_append_r "month" "/" ("month" ++ rest)).
    apply contains_prefix, (prefix_here "month"). }
  unfold Report.monthly_amount, Report.cost_str.
  rewrite Hdollar, Hmonth, Hafter. cbn [andb].
  rewrite (split_absent "/month" (D ++ "/day, "))
    by (rewrite contains_free; [reflexivity|now apply Hfree]).
  unfold Py.index at 1. cbn [nth_error].
  change (D ++ "/day, ") with (D ++ "/day," ++ " ") at 1.
  rewrite <- (append_assoc D "/day," " ").
  rewrite (first_piece " " "" (D ++ "/day,") " ");
    [|apply free_append; [now apply Hfree|cbn; intuition discriminate]
     |right; reflexivity].
  unfold replace.
  change (D ++ "/day,") with (D ++ "/day" ++ ",").
  rewrite <- (append_assoc D "/day" ",").
  rewrite (split_free_then "," "" (D ++ "/day") ",");
    [|apply free_append; [now apply Hfree|cbn; intuition discriminate]
     |reflexivity].
  cbn [drop String.length split_from join String.concat].
  change (rev_string "") with "". rewrite !append_nil_r.
  apply (float_plain_stop D "day" "/" Hd); [reflexivity|].
  cbn. intuition discriminate.
Qed.

(** The savings loop of the console summary and the opportunity rows of
    the spreadsheet read the daily amount. *)
Lemma daily_string_misread (D M rest : string) :
  amount_text D -> printed M ->
  let cost := "$" ++ (D ++ "/day, ") ++ "$" ++ M ++ "/month" ++ rest in
  Console.savings_amount cost = float_plain D
  /\ Sheets.cost_value float_plain cost = float_plain D.
Proof.
  intros Hd Hm. cbv zeta.
  assert (Hfree : forall a, is_digit_or_dot a = false -> ~ In a (chars D))
    by (intros a; now apply amount_text_free).
  assert (Hafter : index (split "$" ("$" ++ (D ++ "/day, ")
                                         ++ "$" ++ M ++ "/month" ++ rest)) 1
                   = Some (D ++ "/day, ")).
  { apply after_dollar; [|right; apply (prefix_here "$")].
    apply free_append; [now apply Hfree|]. cbn. intuition discriminate. }
  assert (Hdollar : contains "$" ("$" ++ (D ++ "/day, ")
                                      ++ "$" ++ M ++ "/month" ++ rest) = true)
    by apply contains_prefix, (prefix_here "$").
  assert (Hmonth : contains "month" ("$" ++ (D ++ "/day, ")
                                         ++ "$" ++ M ++ "/month" ++ rest) = true).
  { apply (contains_append_r "month" "$").
    apply (contains_append_r "month" (D ++ "/day, ")).
    apply (contains_append_r "month" "$").
    apply (contains_append_r "month" M).
    apply (contains_append_r "month" "/" ("month" ++ rest)).
    apply contains_prefix, (prefix_here "month"). }
  split.
  - unfold Console.savings_amount. rewrite Hdollar, Hmonth. cbn [andb].
    rewrite (search_dollar_month_head _ D); [reflexivity|].
    unfold Console.dollar_number_month. rewrite (prefix_here "$").
    change (drop 1 ("$" ++ (D ++ "/day, ") ++ "$" ++ M ++ "/month" ++ rest))
      with ((D ++ "/day, ") ++ "$" ++ M ++ "/month" ++ rest).
    rewrite (append_assoc D).
    change ("/day, " ++ "$" ++ M ++ "/month" ++ rest)
      with (String "/" ("day, $" ++ M ++ "/month" ++ rest)).
    rewrite (span_class D "/" _);
      [|intros a; now apply amount_text_class|reflexivity].
    rewrite (amount_text_nonempty D Hd). cbn [andb].
    change (String "/" ("day, $" ++ M ++ "/month" ++ rest))
      with ("/day, $" ++ M ++ "/" ++ "month" ++ rest).
    rewrite (month_follows_skip "/day, $"); [reflexivity|cbn; intuition discriminate|].
    rewrite (month_follows_skip M);
      [reflexivity|now apply (printed_free M _ Hm)|].
    rewrite (month_follows_skip "/");
      [reflexivity|cbn; intuition discriminate|apply month_follows_here].
  - unfold Sheets.cost_value. rewrite Hdollar, Hafter.
    rewrite (first_piece "/" "" D "/day, ");
      [|now apply Hfree|right; reflexivity].
    rewrite <- (append_nil_r D) at 1.
    rewrite (first_piece " " "" D ""); [|now apply Hfree|now left].
    rewrite (replace_absent ","); [reflexivity|now apply Hfree].
Qed.

Lemma volume_cost_shape (size_gb : Z) (volume_type rest : string) :
  EBS.estimate_ebs_cost size_gb volume_type ++ rest
  = "$" ++ (Double.format 2 (EBS.daily_cost size_gb volume_type) ++ "/day, ")
        ++ "$" ++ Double.format 2 (EBS.monthly_cost size_gb volume_type)
        ++ "/month" ++ rest.
Proof.
  unfold EBS.estimate_ebs_cost. cbv zeta. rewrite !append_assoc. reflexivity.
Qed.

(** The cost string of a volume starts with its daily amount.  For every
    size and type, and whatever follows the string, the cost loops of the
    spreadsheet and of the notification add nothing for a volume: no
    volume descriptor of a scan is counted in their savings.  Where the
    daily amount is a finite number that is not negative, the savings
    loop of the console summary and the opportunity rows of the
    spreadsheet read it as the monthly one: the double of the daily
    amount, rounded to two decimals.  A volume of 15 GB of type
    [standard], 0.75 dollars a month, is read as 0.03 dollars a month. *)
Theorem volume_cost_is_misread (self : monitor) (v : EBS.volume) (rest : string) :
  let cost := EBS.estimate_ebs_cost (EBS.Size v) (EBS.VolumeType v) ++ rest in
  let daily_cost := EBS.daily_cost (EBS.Size v) (EBS.VolumeType v) in
  Report.monthly_amount Q float_plain cost = None
  /\ (forall n u r (total : Q),
        EBS.volume_step self v = Scan.Reach n u r ->
        Report.parseable Q float_plain r = false
        /\ Report.add_cost Q Qplus float_plain total r = total)
  /\ (Double.plain daily_cost = true ->
      exists value amount,
        Double.to_Q daily_cost = Some value
        /\ Console.savings_amount cost = Some amount
        /\ Sheets.cost_value float_plain cost = Some amount
        /\ (amount * inject_Z 100 == inject_Z (round_half_even (value * inject_Z 100)))%Q)
  /\ EBS.estimate_ebs_cost 15 "standard" = "$0.03/day, $0.75/month"
  /\ Double.plain (EBS.daily_cost 15 "standard") = true
  /\ Console.savings_amount (EBS.estimate_ebs_cost 15 "standard") = Some (3 # 100)
  /\ Sheets.cost_value float_plain (EBS.estimate_ebs_cost 15 "standard") = Some (3 # 100).
Proof.
  cbv zeta.
  assert (Hnone : forall rest',
             Report.monthly_amount Q float_plain
               (EBS.estimate_ebs_cost (EBS.Size v) (EBS.VolumeType v) ++ rest') = None).
  { intro rest'. rewrite volume_cost_shape.
    apply daily_string_unread, (format_printed 1). }
  split; [apply Hnone|]. split; [|split].
  - intros n u r total Hstep.
    assert (Hcost : exists rest',
               estimated_cost r
               = EBS.estimate_ebs_cost (EBS.Size v) (EBS.VolumeType v) ++ rest').
    { revert Hstep. unfold EBS.volume_step. intro H. inversion H.
      eexists. reflexivity. }
    destruct Hcost as [rest' Hcost]. specialize (Hnone rest').
    split; [unfold Report.parseable; now rewrite Hcost, Hnone|].
    unfold Report.add_cost, Report.try_add.
    rewrite Hcost. unfold Report.monthly_amount in Hnone.
    destruct (contains "$" _ && contains "month" _); [|reflexivity].
    destruct (Report.cost_str _) as [piece|]; [|reflexivity].
    now rewrite Hnone.
  - intro Hplain.
    destruct (format_plain_reads_back 1 _ Hplain) as [value [amount [Hq [Hread Hvalue]]]].
    exists value, amount. split; [exact Hq|].
    rewrite volume_cost_shape.
    destruct (daily_string_misread
                (Double.format 2 (EBS.daily_cost (EBS.Size v) (EBS.VolumeType v)))
                (Double.format 2 (EBS.monthly_cost (EBS.Size v) (EBS.VolumeType v)))
                rest (format_plain_text 1 _ Hplain) (format_printed 1 _))
      as [H1 H2].
    rewrite H1, H2, Hread. repeat split. exact Hvalue.
  - repeat split; vm_compute; reflexivity.
Qed.

Lemma float_plain_nonneg (s : string) (q : Q) :
  float_plain s = Some q -> (0 <= q)%Q.
Proof.
  unfold float_plain.
  destruct (split "." s) as [|w [|f [|]]]; try discriminate.
  - destruct (nonempty w); [|discriminate].
    destruct (digits_value 0 w) as [v|] eqn:E; [|discriminate].
    intro H. injection H as <-. apply digits_value_lower in E; [|lia].
    apply numerator_nonneg. cbn [Qnum inject_Z]. lia.
  - destruct (nonempty w || nonempty f); [|discriminate].
    destruct (digits_value 0 w) as [v|] eqn:E; [|discriminate].
    destruct (digits_value 0 f) as [v'|] eqn:E'; [|discriminate].
    intro H. injection H as <-.
    apply digits_value_lower in E; [|lia]. apply digits_value_lower in E'; [|lia].
    apply numerator_nonneg. cbn [Qnum Qden Qplus inject_Z]. nia.
Qed.

(** The storage cost of a bucket is computed from the size as the usage
    summary prints it: [estimate_s3_cost] reads the size back from the
    text, so the estimate is the one of the size rounded to two decimals,
    at most 0.005 GB away from the measured size. *)
Theorem bucket_cost_from_printed_size (b : S3.bucket) (average : Q) (more : list Q) :
  S3.size_bytes_answer b = Ok (average :: more) ->
  (0 <= average)%Q ->
  exists size_gb,
    S3.estimate_s3_cost b = S3.render_cost size_gb
    /\ (size_gb * inject_Z 100
        == inject_Z (round_half_even (average / inject_Z (1024 ^ 3) * inject_Z 100)))%Q
    /\ (Qabs (size_gb - average / inject_Z (1024 ^ 3)) * inject_Z 100 <= 1 # 2)%Q.
Proof.
  intros Hanswer Haverage.
  assert (Hsize : (0 <= average / inject_Z (1024 ^ 3))%Q).
  { apply Qle_shift_div_l; [reflexivity|]. now rewrite Qmult_0_l. }
  destruct (format_fixed_reads_back 1 _ Hsize) as [size_gb [Hread Hvalue]].
  pose proof (format_fixed_text 1 _ Hsize) as Htext.
  exists size_gb.
  split; [|split; [exact Hvalue|now apply (rounded_amount_close 2)]].
  unfold S3.estimate_s3_cost, S3.get_s3_bucket_metrics. rewrite Hanswer.
  cbv zeta. set (F := format_fixed 2 (average / inject_Z (1024 ^ 3))) in *.
  generalize (format_commas
                match S3.object_count_answer b with
                | Ok (average0 :: _) => int_of average0
                | _ => 0%Z
                end).
  intro objects.
  assert (Hc : contains "Size:" ("Size: " ++ F ++ " GB, Objects: " ++ objects) = true)
    by apply contains_prefix, (prefix_here "Size:" (" " ++ F ++ " GB, Objects: " ++ objects)).
  rewrite Hc.
  assert (Hs : S3.search_size_gb ("Size: " ++ F ++ " GB, Objects: " ++ objects) = Some F).
  { assert (Hn : S3.size_number_gb ("Size: " ++ F ++ " GB, Objects: " ++ objects)
                 = Some F).
    { unfold S3.size_number_gb. rewrite (prefix_here "Size: ").
      change (drop 6 ("Size: " ++ F ++ " GB, Objects: " ++ objects))
        with (F ++ String " " ("GB, Objects: " ++ objects)).
      rewrite (span_class F " " _);
        [|intros a; now apply amount_text_class|reflexivity].
      rewrite (amount_text_nonempty F Htext).
      change (String " " ("GB, Objects: " ++ objects))
        with (" GB" ++ ", Objects: " ++ objects).
      now rewrite (prefix_here " GB" (", Objects: " ++ objects)). }
    destruct ("Size: " ++ F ++ " GB, Objects: " ++ objects);
      cbn [S3.search_size_gb]; now rewrite Hn. }
  now rewrite Hs, Hread.
Qed.

(** The cost strings of functions and of buckets start with their
    monthly amount.  For every memory size and timeout and for every
    bucket size whose estimate is a finite number that is not negative,
    the three readers agree on the string and read the double of the
    estimate, rounded to the digits printed. *)
Theorem monthly_estimates_read_back (memory_mb timeout_seconds : Z) (size_gb : Q) :
  Double.plain (Lambda.total memory_mb timeout_seconds) = true ->
  Double.plain (S3.total_monthly size_gb) = true ->
  (exists total amount,
     Double.to_Q (Lambda.total memory_mb timeout_seconds) = Some total
     /\ Report.monthly_amount Q float_plain
          (Lambda.estimate_lambda_cost memory_mb timeout_seconds) = Some amount
     /\ Console.savings_amount (Lambda.estimate_lambda_cost memory_mb timeout_seconds)
        = Some amount
     /\ Sheets.cost_value float_plain
          (Lambda.estimate_lambda_cost memory_mb timeout_seconds) = Some amount
     /\ (amount * inject_Z 10000 == inject_Z (round_half_even (total * inject_Z 10000)))%Q)
  /\ (exists total amount,
        Double.to_Q (S3.total_monthly size_gb) = Some total
        /\ Report.monthly_amount Q float_plain (S3.render_cost size_gb) = Some amount
        /\ Console.savings_amount (S3.render_cost size_gb) = Some amount
        /\ Sheets.cost_value float_plain (S3.render_cost size_gb) = Some amount
        /\ (amount * inject_Z 100 == inject_Z (round_half_even (total * inject_Z 100)))%Q).
Proof.
  intros Hl Hs. split.
  - destruct (format_plain_reads_back 3 _ Hl) as [total [amount [Hq [Hread Hvalue]]]].
    exists total, amount. split; [exact Hq|].
    unfold Lambda.estimate_lambda_cost.
    destruct (monthly_string_readers
                (Double.format 4 (Lambda.total memory_mb timeout_seconds))
                " (est. 1K invocations)" "")
      as [H1 [H2 H3]];
      [now apply (format_plain_text 3)|cbn; intuition discriminate|now left|].
    cbv zeta in H1, H2, H3.
    change ("$" ++ Double.format 4 (Lambda.total memory_mb timeout_seconds)
            ++ "/month" ++ " (est. 1K invocations)" ++ "")
      with ("$" ++ Double.format 4 (Lambda.total memory_mb timeout_seconds)
            ++ "/month (est. 1K invocations)") in *.
    rewrite H1, H2, H3, Hread. repeat split. exact Hvalue.
  - destruct (format_plain_reads_back 1 _ Hs) as [total [amount [Hq [Hread Hvalue]]]].
    exists total, amount. split; [exact Hq|].
    unfold S3.render_cost. cbv zeta.
    destruct (monthly_string_readers (Double.format 2 (S3.total_monthly size_gb))
                " (storage: "
                ("$" ++ Double.format 2 (S3.storage_cost size_gb) ++ ", requests: ~$"
                 ++ Double.format 2 S3.request_cost ++ ")"))
      as [H1 [H2 H3]];
      [now apply (format_plain_text 1)|cbn; intuition discriminate
       |right; apply (prefix_here "$")|].
    cbv zeta in H1, H2, H3.
    change ("$" ++ Double.format 2 (S3.total_monthly size_gb) ++ "/month" ++ " (storage: "
            ++ "$" ++ Double.format 2 (S3.storage_cost size_gb) ++ ", requests: ~$"
            ++ Double.format 2 S3.request_cost ++ ")")
      with ("$" ++ Double.format 2 (S3.total_monthly size_gb) ++ "/month (storage: $"
            ++ Double.format 2 (S3.storage_cost size_gb) ++ ", requests: ~$"
            ++ Double.format 2 S3.request_cost ++ ")") in *.
    rewrite H1, H2, H3, Hread. repeat split. exact Hvalue.
Qed.

(** The amount 3.60 of an unassociated address, printed with two
    decimals and read back. *)
Lemma formatted_amount_reads_back_witness :
  exists amount,
    float_plain (format_fixed 2 3.60) = Some amount
    /\ (amount * inject_Z (10 ^ Z.of_nat 2)
        == inject_Z (round_half_even (3.60 * inject_Z (10 ^ Z.of_nat 2))))%Q
    /\ (Qabs (amount - 3.60) * inject_Z (10 ^ Z.of_nat 2) <= 1 # 2)%Q.
Proof.
  apply (formatted_amount_reads_back 2 3.60); [lia|].
  unfold Qle. cbn. lia.
Defined.

(** A bucket of 5 GiB and a half GiB. *)
Lemma bucket_cost_from_printed_size_witness :
  exists size_gb,
    S3.estimate_s3_cost
      (S3.mkBucket "logs" 0 Failed (Ok [5905580032%Q]) Failed Failed Failed Failed)
    = S3.render_cost size_gb
    /\ (size_gb * inject_Z 100
        == inject_Z (round_half_even (5905580032 / inject_Z (1024 ^ 3) * inject_Z 100)))%Q
    /\ (Qabs (size_gb - 5905580032 / inject_Z (1024 ^ 3)) * inject_Z 100 <= 1 # 2)%Q.
Proof.
  apply (bucket_cost_from_printed_size
           (S3.mkBucket "logs" 0 Failed (Ok [5905580032%Q]) Failed Failed Failed Failed)
           5905580032 []); [reflexivity|].
  unfold Qle. cbn. lia.
Defined.

(** A function of 4096 MB and 750 seconds, whose estimate prints as
    25.0003, and a bucket of 5 GB, whose estimate prints as 0.61. *)
Lemma monthly_estimates_read_back_witness :
  Double.plain (Lambda.total 4096 750) = true
  /\ Double.plain (S3.total_monthly 5) = true
  /\ Lambda.estimate_lambda_cost 4096 750 = "$25.0003/month (est. 1K invocations)"
  /\ S3.render_cost 5 = "$0.61/month (storage: $0.11, requests: ~$0.50)"
  /\ Report.monthly_amount Q float_plain (Lambda.estimate_lambda_cost 4096 750)
     = Console.savings_amount (Lambda.estimate_lambda_cost 4096 750)
  /\ Report.monthly_amount Q float_plain (S3.render_cost 5)
     = Console.savings_amount (S3.render_cost 5).
Proof.
  destruct (monthly_estimates_read_back 4096 750 5)
    as [[total [amount [_ [H1 [H2 _]]]]] [total' [amount' [_ [H1' [H2' _]]]]]];
    [vm_compute; reflexivity|vm_compute; reflexivity|].
  do 4 (split; [vm_compute; reflexivity|]).
  split; [now rewrite H1, H2|now rewrite H1', H2'].
Defined.

End ReadBackAmounts.

(** ** The sort of the unused resources *)

Section SortKeyFacts.

Import Collections.

Variable self : monitor.

Local Open Scope string_scope.

Local Abbreviation chars := list_ascii_of_string.
Local Abbreviation all_digits s := (forall c, In c (chars s) -> is_digit c = true).
Local Abbreviation amount_text s :=
  (exists w f, s = w ++ "." ++ f /\ all_digits w /\ w <> "" /\ all_digits f).
Local Abbreviation signed s :=
  (exists sign amount,
     s = sign ++ amount /\ (sign = "" \/ sign = "-") /\ amount_text amount).
Local Abbreviation printed s :=
  (s = "nan" \/ s = "inf" \/ s = "-inf" \/ signed s).
Local Abbreviation keyed s := (exists key, Slack.cost_key s = Some key).

























End SortKeyFacts.


(** ** The risk tiers of the families *)

Section FamilyRiskFacts.

Variable self : monitor.

Local Open Scope string_scope.

Ltac signals_of_step :=
  let H := fresh "H" in
  repeat match goal with
         | |- context [if ?c then set_suggestions _ _ else _] => destruct c
         end;
  intro H; inversion H; subst; repeat split; reflexivity.

Lemma bucket_step_signals (b : S3.bucket) n u r :
  S3.bucket_step self b = Scan.Reach n u r ->
  public_ip r = "" /\ backup_status r = "".
Proof.
  unfold S3.bucket_step. destruct (S3.get_s3_bucket_metrics b). signals_of_step.
Qed.

Lemma function_step_signals (f : Lambda.function) n u r :
  Lambda.function_step self f = Scan.Reach n u r ->
  public_ip r = "" /\ backup_status r = "".
Proof.
  unfold Lambda.function_step.
  destruct (Lambda.tag_answer f); [|discriminate].
  destruct (Lambda.check_lambda_usage f).
  signals_of_step.
Qed.

Lemma classic_step_signals (lb : ELB.classic) n u r :
  ELB.classic_step self lb = Scan.Reach n u r ->
  public_ip r = "" /\ backup_status r = "".
Proof. unfold ELB.classic_step. signals_of_step. Qed.

Lemma balancer_step_signals (lb : ELB.balancer) n u r :
  ELB.balancer_step self lb = Scan.Reach n u r ->
  public_ip r = "" /\ backup_status r = "".
Proof.
  unfold ELB.balancer_step.
  destruct (ELB.tag_descriptions lb); [|discriminate].
  destruct (ELB.check_lb_usage lb).
  destruct (ELB.listeners lb); [|discriminate].
  signals_of_step.
Qed.

Lemma db_step_signals (db : RDS.db_instance) n u r :
  RDS.db_step self db = Scan.Reach n u r ->
  public_ip r = ""
  /\ additional_info r
     = "Engine: " ++ str_of_opt (RDS.Engine db)
       ++ ", Version: " ++ str_of_opt (RDS.EngineVersion db)
  /\ backup_status r
     = (if (0 <? or_default (RDS.BackupRetentionPeriod db) 0%Z)%Z
        then "Retention: " ++ str_of_Z (or_default (RDS.BackupRetentionPeriod db) 0%Z)
             ++ " days"
        else "No backup").
Proof.
  unfold RDS.db_step.
  destruct (RDS.tag_answer db); [|discriminate].
  destruct (RDS.check_rds_usage db).
  signals_of_step.
Qed.

Lemma address_step_signals (eip : EIP.address) n u r :
  EIP.address_step self eip = Scan.Reach n u r ->
  backup_status r = ""
  /\ additional_info r
     = "Domain: " ++ or_default (EIP.Domain eip) "vpc" ++ ", IP: "
       ++ or_default (EIP.PublicIp eip) "N/A".
Proof.
  unfold EIP.address_step.
  destruct (EIP.AllocationId eip); [|discriminate].
  signals_of_step.
Qed.

(** Without an address, a backup status and a compliance map, the score
    stays below the High tier. *)
Lemma quiet_descriptor_score (r : ResourceInfo) :
  public_ip r = "" -> backup_status r = "" -> compliance_status r = [] ->
  (Risk.risk_score r <= 4)%Z.
Proof.
  intros Hip Hb Hc. unfold Risk.risk_score. rewrite Hip, Hb, Hc.
  cbn [nonempty String.eqb negb andb]. rewrite andb_false_r.
  destruct (contains "Encrypted: False" (additional_info r)); destruct (is_unused r); lia.
Qed.

Lemma score_below_high (r : ResourceInfo) :
  (Risk.risk_score r <= 5)%Z -> Risk.calculate_risk_level r <> High.
Proof.
  intro H. unfold Risk.calculate_risk_level, Risk.risk_tier.
  destruct (Z.leb_spec 6 (Risk.risk_score r)); [lia|].
  destruct (3 <=? Risk.risk_score r)%Z; discriminate.
Qed.

(** Buckets, functions and load balancers are never rated High: they
    have no public address, no backup status and no compliance map, so
    their score is 4 at most.  A database or an address is rated High
    only if the text of its API fields (engine and version, domain and
    address) contains ['Encrypted: False']: a database needs all of that
    text, being unused and being in Production without backup, and an
    unencrypted database gets no point for it. *)
Theorem high_risk_families :
  (forall b n u r, S3.bucket_step self b = Scan.Reach n u r ->
     (Risk.risk_score r <= 4)%Z /\ risk r <> High)
  /\ (forall f n u r, Lambda.function_step self f = Scan.Reach n u r ->
        (Risk.risk_score r <= 4)%Z /\ risk r <> High)
  /\ (forall lb n u r, ELB.classic_step self lb = Scan.Reach n u r ->
        (Risk.risk_score r <= 4)%Z /\ risk r <> High)
  /\ (forall lb n u r, ELB.balancer_step self lb = Scan.Reach n u r ->
        (Risk.risk_score r <= 4)%Z /\ risk r <> High)
  /\ (forall db n u r, RDS.db_step self db = Scan.Reach n u r ->
        risk r = High ->
        contains "Encrypted: False"
          ("Engine: " ++ str_of_opt (RDS.Engine db)
           ++ ", Version: " ++ str_of_opt (RDS.EngineVersion db)) = true
        /\ is_unused r = true
        /\ environment r = "Production"
        /\ (or_default (RDS.BackupRetentionPeriod db) 0 <= 0)%Z)
  /\ (forall eip n u r, EIP.address_step self eip = Scan.Reach n u r ->
        risk r = High ->
        contains "Encrypted: False"
          ("Domain: " ++ or_default (EIP.Domain eip) "vpc" ++ ", IP: "
           ++ or_default (EIP.PublicIp eip) "N/A") = true).
Proof.
  assert (Hquiet : forall r,
             risk r = Risk.calculate_risk_level r /\ compliance_status r = [] ->
             public_ip r = "" /\ backup_status r = "" ->
             (Risk.risk_score r <= 4)%Z /\ risk r <> High).
  { intros r [Hrisk Hc] [Hip Hb].
    pose proof (quiet_descriptor_score r Hip Hb Hc) as Hs.
    split; [exact Hs|]. rewrite Hrisk. apply score_below_high. lia. }
  split; [|split; [|split; [|split; [|split]]]].
  - intros b n u r H. apply Hquiet;
      [exact (bucket_step_fields self b n u r H)|exact (bucket_step_signals b n u r H)].
  - intros f n u r H. apply Hquiet;
      [exact (function_step_fields self f n u r H)|exact (function_step_signals f n u r H)].
  - intros lb n u r H. apply Hquiet;
      [exact (classic_step_fields self lb n u r H)|exact (classic_step_signals lb n u r H)].
  - intros lb n u r H. apply Hquiet;
      [exact (balancer_step_fields self lb n u r H)
      |exact (balancer_step_signals lb n u r H)].
  - intros db n u r H Hhigh.
    destruct (db_step_fields self db n u r H) as [Hrisk Hc].
    destruct (db_step_signals db n u r H) as [Hip [Hinfo Hb]].
    rewrite <- Hinfo. rewrite Hrisk in Hhigh.
    assert (Hs : (6 <= Risk.risk_score r)%Z).
    { destruct (Z.leb_spec 6 (Risk.risk_score r)) as [Hs|Hs]; [exact Hs|].
      exfalso. revert Hhigh. apply score_below_high. lia. }
    assert (Hnb : contains "No backup" (backup_status r)
                  = negb (0 <? or_default (RDS.BackupRetentionPeriod db) 0%Z)%Z).
    { rewrite Hb. destruct (0 <? or_default (RDS.BackupRetentionPeriod db) 0%Z)%Z;
        [|reflexivity].
      apply no_match_without_char. apply (no_letter_around_number "N"); reflexivity. }
    revert Hs. unfold Risk.risk_score. rewrite Hip, Hc, Hnb.
    cbn [nonempty String.eqb negb andb].
    destruct (contains "Encrypted: False" (additional_info r));
      destruct (is_unused r);
      destruct (String.eqb_spec (environment r) "Production") as [Henv|_];
      destruct (Z.ltb_spec 0 (or_default (RDS.BackupRetentionPeriod db) 0%Z));
      cbn [andb negb]; intro Hs; try lia.
    repeat split; [exact Henv|lia].
  - intros eip n u r H Hhigh.
    destruct (address_step_fields self eip n u r H) as [Hrisk Hc].
    destruct (address_step_signals eip n u r H) as [Hb Hinfo].
    rewrite <- Hinfo. rewrite Hrisk in Hhigh.
    assert (Hs : (6 <= Risk.risk_score r)%Z).
    { destruct (Z.leb_spec 6 (Risk.risk_score r)) as [Hs|Hs]; [exact Hs|].
      exfalso. revert Hhigh. apply score_below_high. lia. }
    revert Hs. unfold Risk.risk_score. rewrite Hb, Hc.
    change (contains "No backup" "") with false. rewrite andb_false_r.
    destruct (nonempty (public_ip r) && negb (String.eqb (public_ip r) "N/A"));
      destruct (contains "Encrypted: False" (additional_info r));
      destruct (is_unused r); intro Hs; try lia; reflexivity.
Qed.

End FamilyRiskFacts.
